(** * Google Maps data extractor: scrape-session lifecycle and extraction

    A shallow embedding of the Python backend ([backend/scraper.py],
    [backend/utils.py], [backend/database.py], [backend/main.py]) and the
    properties of its parsing helpers, extraction loops and session API.

    Conventions of the embedding:
    - a Python [str] is the list of its Unicode code points;
    - a Python [int] is a [Z];
    - a Python [float] is an abstract type [F]; the builtin [float(s)] is a
      parameter [py_float], since its decimal-to-binary rounding is not part
      of the program;
    - a statement that may raise is a computation in the monad [M], which
      threads a state and returns [Ok v] or [Raise e]; the state is kept
      when an exception is raised, as the effects of Python code are;
    - the exceptions are those deriving from [Exception]; both [except:]
      and [except Exception] catch every one of them;
    - [time.sleep] and [random.uniform] have no effect on values and are
      dropped; logging calls are dropped as well. *)

From Stdlib Require Import ZArith NArith List String Ascii Bool Lia QArith.
From stdpp Require Import gmap list.
Import ListNotations.

Local Open Scope Z_scope.
Local Open Scope list_scope.

(** ** Python strings *)

Module Py.

Definition char := N.
Definition str := list char.

(** An ASCII literal of the source, as code points. *)
Definition lit (s : string) : str :=
  map N_of_ascii (list_ascii_of_string s).
#[global] Arguments lit : simpl never.

(** [Py_UNICODE_ISSPACE]: the characters [str.strip()] and [str.split()]
    treat as whitespace. *)
Definition isspace (c : char) : bool :=
  (((9 <=? c) && (c <=? 13)) || ((28 <=? c) && (c <=? 32))
   || (c =? 133) || (c =? 160) || (c =? 5760)
   || ((8192 <=? c) && (c <=? 8202))
   || (c =? 8232) || (c =? 8233) || (c =? 8239) || (c =? 8287)
   || (c =? 12288))%N.

Fixpoint lstrip (s : str) : str :=
  match s with
  | [] => []
  | c :: s' => if isspace c then lstrip s' else s
  end.

Definition rstrip (s : str) : str := rev (lstrip (rev s)).

(** [s.strip()] *)
Definition strip (s : str) : str := rstrip (lstrip s).

Definition str_eqb (a b : str) : bool := bool_decide (a = b).

(** [s.startswith(p)] *)
Fixpoint startswith (p s : str) : bool :=
  match p, s with
  | [], _ => true
  | _ :: _, [] => false
  | a :: p', b :: s' => (a =? b)%N && startswith p' s'
  end.

(** [sub in s] *)
Fixpoint contains (sub s : str) : bool :=
  startswith sub s ||
  match s with
  | [] => false
  | _ :: s' => contains sub s'
  end.

(** [s.split(sep)] for a non-empty [sep] (Python raises [ValueError] on an
    empty separator; every call site passes a non-empty literal).  The scan
    goes left to right; [skip] counts the characters of a matched separator
    still to be passed over, [cur] is the current segment, reversed. *)
Fixpoint split_go (sep : str) (skip : nat) (cur : str) (s : str) : list str :=
  match s with
  | [] => [rev cur]
  | c :: s' =>
      match skip with
      | S k => split_go sep k cur s'
      | O =>
          if startswith sep s
          then rev cur :: split_go sep (length sep - 1) [] s'
          else split_go sep 0 (c :: cur) s'
      end
  end.

Definition split (s sep : str) : list str := split_go sep 0 [] s.

(** [s.split()]: split on runs of whitespace, no empty segment. *)
Fixpoint split_ws_go (cur : str) (s : str) : list str :=
  match s with
  | [] => match cur with [] => [] | _ => [rev cur] end
  | c :: s' =>
      if isspace c
      then match cur with
           | [] => split_ws_go [] s'
           | _ => rev cur :: split_ws_go [] s'
           end
      else split_ws_go (c :: cur) s'
  end.

Definition split_ws (s : str) : list str := split_ws_go [] s.

(** [l[:n]] *)
Definition slice_to {A} (l : list A) (n : Z) : list A :=
  if 0 <=? n then firstn (Z.to_nat n) l
  else firstn (length l - Z.to_nat (- n)) l.

(** [range(n)] *)
Definition range (n : Z) : list Z := map Z.of_nat (seq 0 (Z.to_nat n)).

(** [len(l)] *)
Definition len {A} (l : list A) : Z := Z.of_nat (length l).

(** [sep.join(l)] *)
Fixpoint join (sep : str) (l : list str) : str :=
  match l with
  | [] => []
  | x :: l' =>
      match l' with
      | [] => x
      | _ :: _ => x ++ sep ++ join sep l'
      end
  end.

(** The first whitespace-delimited token of a text, if it has one. *)
Fixpoint take_nonspace (s : str) : str :=
  match s with
  | [] => []
  | c :: s' => if isspace c then [] else c :: take_nonspace s'
  end.

Definition first_token (s : str) : option str :=
  match lstrip s with
  | [] => None
  | t => Some (take_nonspace t)
  end.

(** [s.replace(old, new)] for a non-empty [old]: the occurrences of [old],
    found left to right without overlap, give way to [new]. *)
Definition replace (s old new : str) : str := join new (split s old).

End Py.
Import Py.

(** ** Exceptions and the state-and-exception monad *)

Inductive exn : Type :=
| IndexError
| ValueError
| TimeoutException
| NoSuchElementException
| WebDriverException (msg : str)
| OSError (msg : str)
| HTTPException (status_code : Z) (detail : str).

Inductive Res (A : Type) : Type :=
| Ok (a : A)
| Raise (e : exn).
Arguments Ok {A} a.
Arguments Raise {A} e.

Definition M (S A : Type) : Type := S -> Res A * S.

Definition ret {S A} (a : A) : M S A := fun s => (Ok a, s).

Definition raise {S A} (e : exn) : M S A := fun s => (Raise e, s).

Definition bind {S A B} (m : M S A) (k : A -> M S B) : M S B :=
  fun s =>
    match m s with
    | (Ok a, s') => k a s'
    | (Raise e, s') => (Raise e, s')
    end.

Declare Scope py_scope.
Delimit Scope py_scope with py.
Notation "'let!' x ':=' m 'in' k" := (bind m (fun x => k))
  (at level 10, x name, m at level 100, k at level 200, only parsing) : py_scope.
Notation "m ;; k" := (bind m (fun _ => k))
  (at level 100, k at level 200, only parsing, right associativity) : py_scope.
Open Scope py_scope.

(** [try: m  except ... as e: h e] *)
Definition try_except {S A} (m : M S A) (h : exn -> M S A) : M S A :=
  fun s =>
    match m s with
    | (Ok a, s') => (Ok a, s')
    | (Raise e, s') => h e s'
    end.

(** [try: m  finally: f]; an exception of [f] replaces the outcome of [m]. *)
Definition try_finally {S A} (m : M S A) (f : M S unit) : M S A :=
  fun s =>
    match m s with
    | (r, s') =>
        match f s' with
        | (Ok _, s'') => (r, s'')
        | (Raise e, s'') => (Raise e, s'')
        end
    end.

(** Reading and writing the state. *)
Definition gets {S A} (f : S -> A) : M S A := fun s => (Ok (f s), s).
Definition modify {S} (f : S -> S) : M S unit := fun s => (Ok tt, f s).

(** How one iteration of a [for] body ends: it falls through or executes
    [continue] ([Next]), or executes [break]. *)
Inductive ctl : Type := Next | Break.

(** [for x in xs: body x] *)
Fixpoint for_in {S A} (xs : list A) (body : A -> M S ctl) : M S unit :=
  match xs with
  | [] => ret tt
  | x :: xs' =>
      let! c := body x in
      match c with
      | Break => ret tt
      | Next => for_in xs' body
      end
  end.

(** [l[i]] for a constant index [i >= 0]. *)
Definition index {S A} (l : list A) (i : nat) : M S A :=
  match nth_error l i with
  | Some x => ret x
  | None => raise IndexError
  end.

(** A computation over a state [S] run inside a larger state [S * T]. *)
Definition lift {S T A} (m : M S A) : M (S * T) A :=
  fun st => match m (fst st) with (r, s') => (r, (s', snd st)) end.

(** The local variables [T] of a call: [m] runs with them initialised to
    [t0]; they are gone when the call returns or raises. *)
Definition with_locals {S T A} (t0 : T) (m : M (S * T) A) : M S A :=
  fun s => match m (s, t0) with (r, st) => (r, fst st) end.

Definition locals {S T A} (f : T -> A) : M (S * T) A := gets (fun st => f (snd st)).
Definition set_locals {S T} (f : T -> T) : M (S * T) unit :=
  modify (fun st => (fst st, f (snd st))).

(** ** The browser driver

    Selenium is outside the program: the driver is a record of operations
    over an abstract browser state [W] with element handles [E].  Every
    operation may raise and may change the browser state. *)

Inductive By : Type := By_ID | By_CSS_SELECTOR.
Inductive keys : Type := Text (s : str) | Keys_ENTER.

Record Driver (W E : Type) : Type := {
  (** [Service(ChromeDriverManager().install())], [webdriver.Chrome(...)],
      [WebDriverWait(driver, 10)] *)
  drv_start : M W unit;
  (** [driver.get(url)] *)
  drv_get : str -> M W unit;
  (** [wait.until(EC.presence_of_element_located((By.X, value)))] *)
  drv_wait_presence : By -> str -> M W E;
  (** [driver.execute_script(script, element)] *)
  drv_execute_script : str -> E -> M W unit;
  (** [driver.find_element(By.CSS_SELECTOR, selector)] *)
  drv_find_element : str -> M W E;
  (** [driver.find_elements(By.CSS_SELECTOR, selector)] *)
  drv_find_elements : str -> M W (list E);
  (** [driver.current_url] *)
  drv_current_url : M W str;
  (** [driver.quit()] *)
  drv_quit : M W unit;
  (** [element.clear()], [element.send_keys(k)], [element.click()] *)
  el_clear : E -> M W unit;
  el_send_keys : E -> keys -> M W unit;
  el_click : E -> M W unit;
  (** [element.text] *)
  el_text : E -> M W str;
  (** [element.get_attribute(name)], which is [None] for an element
      without the attribute *)
  el_get_attribute : E -> str -> M W (option str);
  (** [element.find_element(By.CSS_SELECTOR, selector)] *)
  el_find_element : E -> str -> M W E
}.
Arguments drv_start {W E} _.
Arguments drv_get {W E} _ _.
Arguments drv_wait_presence {W E} _ _ _.
Arguments drv_execute_script {W E} _ _ _.
Arguments drv_find_element {W E} _ _.
Arguments drv_find_elements {W E} _ _.
Arguments drv_current_url {W E} _.
Arguments drv_quit {W E} _.
Arguments el_clear {W E} _ _.
Arguments el_send_keys {W E} _ _ _.
Arguments el_click {W E} _ _.
Arguments el_text {W E} _ _.
Arguments el_get_attribute {W E} _ _ _.
Arguments el_find_element {W E} _ _ _.

(** A driver run inside a larger state. *)
Definition lift_driver {W T E} (d : Driver W E) : Driver (W * T) E :=
  {| drv_start := lift (drv_start d);
     drv_get := fun u => lift (drv_get d u);
     drv_wait_presence := fun b v => lift (drv_wait_presence d b v);
     drv_execute_script := fun sc e => lift (drv_execute_script d sc e);
     drv_find_element := fun sel => lift (drv_find_element d sel);
     drv_find_elements := fun sel => lift (drv_find_elements d sel);
     drv_current_url := lift (drv_current_url d);
     drv_quit := lift (drv_quit d);
     el_clear := fun e => lift (el_clear d e);
     el_send_keys := fun e k => lift (el_send_keys d e k);
     el_click := fun e => lift (el_click d e);
     el_text := fun e => lift (el_text d e);
     el_get_attribute := fun e a => lift (el_get_attribute d e a);
     el_find_element := fun e sel => lift (el_find_element d e sel) |}.

(** A progress callback that records its calls, oldest first. *)
Definition record_tick {W} (completed total : Z) : M (W * list (Z * Z)) unit :=
  modify (fun st => (fst st, snd st ++ [(completed, total)])).

(** The driver [d] with [q] in the place of [quit]. *)
Definition with_quit {W E} (d : Driver W E) (q : M W unit) : Driver W E :=
  {| drv_start := drv_start d;
     drv_get := drv_get d;
     drv_wait_presence := drv_wait_presence d;
     drv_execute_script := drv_execute_script d;
     drv_find_element := drv_find_element d;
     drv_find_elements := drv_find_elements d;
     drv_current_url := drv_current_url d;
     drv_quit := q;
     el_clear := el_clear d;
     el_send_keys := el_send_keys d;
     el_click := el_click d;
     el_text := el_text d;
     el_get_attribute := el_get_attribute d;
     el_find_element := el_find_element d |}.

(** The driver [d] with a counter of the calls of [quit], whether they
    return or raise. *)
Definition counting_quit {W E} (d : Driver W E) : Driver (W * nat) E :=
  with_quit (lift_driver d)
    (fun st => match drv_quit d (fst st) with (r, w) => (r, (w, S (snd st))) end).

(** ** Values of the scraped records *)

(** A [dict] keeps its keys in insertion order; [d[k] = v] replaces the
    value of an existing key in place. *)
Fixpoint dict_set {V} (k : str) (v : V) (d : list (str * V)) : list (str * V) :=
  match d with
  | [] => [(k, v)]
  | (k', v') :: d' =>
      if str_eqb k k' then (k, v) :: d' else (k', v') :: dict_set k v d'
  end.

(** The values a business record holds; [F] is the type of Python floats. *)
Inductive value (F : Type) : Type :=
| VNone
| VStr (s : str)
| VList (l : list str)
| VHours (h : list (str * str))
| VCoords (c : list (str * F)).
Arguments VNone {F}.
Arguments VStr {F} s.
Arguments VList {F} l.
Arguments VHours {F} h.
Arguments VCoords {F} c.

(** A string or [None] as a value. *)
Definition optional {F} (o : option str) : value F :=
  match o with
  | Some s => VStr s
  | None => VNone
  end.

(** The record of one business; [{}] is [[]]. *)
Definition dict (F : Type) : Type := list (str * value F).

(** [float(s)], given the builtin's outcome on strings ([None] where it
    raises [ValueError]). *)
Definition float {F S} (py_float : str -> option F) (s : str) : M S F :=
  match py_float s with
  | Some x => ret x
  | None => raise ValueError
  end.

(** ** [backend/utils.py] *)

Module Utils.
Section Utils.
Context {F : Type} (zero : F) (py_float : str -> option F).

Definition parse_rating {S} (rating_str : str) : M S F :=
  try_except
    (let! tok := index (split_ws rating_str) 0 in
     float py_float tok)
    (fun _ => ret zero).

End Utils.

Section Text.

(** The literal [invalid_chars] of [clean_filename]: the nine characters
    [<], [>], [:], the double quote, [/], the backslash, [|], [?], [*]. *)
Definition invalid_chars : str := lit "<>:" ++ [34%N] ++ lit "/\|?*".

(** [for char in invalid_chars: filename = filename.replace(char, '_')] *)
Definition clean_filename (filename : str) : str :=
  fold_left (fun filename char => replace filename [char] (lit "_"))
    invalid_chars filename.

(** [hours_dict] is a dict of strings, as [_extract_hours] builds it. *)
Definition format_business_hours (hours_dict : list (str * str)) : str :=
  match hours_dict with
  | [] => []
  | _ :: _ =>
      let formatted_hours :=
        map (fun item => fst item ++ lit ": " ++ snd item) hours_dict in
      join [10%N] formatted_hours
  end.

(** [str.isdigit] on one character and [int] on strings ([None] where it
    raises [ValueError]) are builtins, taken as parameters. *)
Context (isdigit : char -> bool) (py_int : str -> option Z).

Definition int {S} (s : str) : M S Z :=
  match py_int s with
  | Some n => ret n
  | None => raise ValueError
  end.

Definition parse_reviews_count {S} (reviews_str : str) : M S Z :=
  try_except
    (let reviews := List.filter isdigit reviews_str in
     match reviews with
     | [] => ret 0
     | _ :: _ => int reviews
     end)
    (fun _ => ret 0).

End Text.
End Utils.

(** ** [sqlite3] and [json]

    The database is outside the program: a connection is a record of
    operations over an abstract database state [W], each of which may
    raise.  Python values cross that border in both directions. *)

(** [d.get(k)] of a dict; [None] where the key is absent. *)
Fixpoint dict_get {V} (k : str) (d : list (str * V)) : option V :=
  match d with
  | [] => None
  | (k', v) :: d' => if str_eqb k k' then Some v else dict_get k d'
  end.

(** [dict(zip(columns, row))] *)
Definition dict_zip {V} (columns : list str) (row : list V) : list (str * V) :=
  fold_left (fun d kv => dict_set (fst kv) (snd kv) d) (combine columns row) [].

(** The Python values bound to the [?] of a statement, held by the cells
    of a row or read by [json.loads]; [PTime] is a [datetime]. *)
#[local] Unset Elimination Schemes.
Inductive pyval (F : Type) : Type :=
| PNone
| PBool (b : bool)
| PInt (n : Z)
| PFloat (x : F)
| PStr (s : str)
| PTime (t : Z)
| PList (l : list (pyval F))
| PDict (d : list (str * pyval F)).
#[local] Set Elimination Schemes.
Arguments PNone {F}.
Arguments PBool {F} b.
Arguments PInt {F} n.
Arguments PFloat {F} x.
Arguments PStr {F} s.
Arguments PTime {F} t.
Arguments PList {F} l.
Arguments PDict {F} d.

(** A value of a scraped record as a Python value. *)
Definition to_py {F} (v : value F) : pyval F :=
  match v with
  | VNone => PNone
  | VStr s => PStr s
  | VList l => PList (map PStr l)
  | VHours h => PDict (map (fun item => (fst item, PStr (snd item))) h)
  | VCoords c => PDict (map (fun item => (fst item, PFloat (snd item))) c)
  end.

(** [bool(v)], given which floats are not zero. *)
Definition truthy {F} (nonzero : F -> bool) (v : pyval F) : bool :=
  match v with
  | PNone => false
  | PBool b => b
  | PInt n => negb (n =? 0)
  | PFloat x => nonzero x
  | PStr s => match s with [] => false | _ => true end
  | PTime _ => true
  | PList l => match l with [] => false | _ => true end
  | PDict d => match d with [] => false | _ => true end
  end.

(** The statements of [database.py], named after their text. *)
Inductive statement : Type :=
| CREATE_scraping_sessions
| CREATE_businesses
(** [INSERT INTO scraping_sessions (id, keywords, location, max_results,
    status, start_time) VALUES (?, ?, ?, ?, ?, ?)] *)
| INSERT_session
(** [UPDATE scraping_sessions SET status = ?, end_time = ?,
    error_message = ? WHERE id = ?] *)
| UPDATE_status_end
(** [UPDATE scraping_sessions SET status = ?, error_message = ?
    WHERE id = ?] *)
| UPDATE_status
(** [INSERT INTO businesses (session_id, name, address, phone, website,
    rating, reviews_count, categories, hours, latitude, longitude)
    VALUES (?, ?, ?, ?, ?, ?, ?, ?, ?, ?, ?)] *)
| INSERT_business
(** [UPDATE scraping_sessions SET total_results = ? WHERE id = ?] *)
| UPDATE_total_results
(** [SELECT * FROM scraping_sessions WHERE id = ?] *)
| SELECT_session
(** [SELECT * FROM businesses WHERE session_id = ? ORDER BY id] *)
| SELECT_businesses
(** [SELECT * FROM scraping_sessions ORDER BY start_time DESC] *)
| SELECT_all_sessions
(** [DELETE FROM businesses WHERE session_id = ?] *)
| DELETE_businesses
(** [DELETE FROM scraping_sessions WHERE id = ?] *)
| DELETE_session.

Record Sqlite (W F : Type) : Type := {
  (** [sqlite3.connect(path)] *)
  sql_connect : str -> M W unit;
  (** [conn.cursor()] *)
  sql_cursor : M W unit;
  (** [conn.__exit__]: leaving the [with] block normally ([true]) or by
      an exception ([false]) *)
  sql_exit : bool -> M W unit;
  (** [cursor.execute(statement, params)] *)
  sql_execute : statement -> list (pyval F) -> M W unit;
  (** [cursor.fetchone()], [cursor.fetchall()] *)
  sql_fetchone : M W (option (list (pyval F)));
  sql_fetchall : M W (list (list (pyval F)));
  (** [[description[0] for description in cursor.description]] *)
  sql_columns : M W (list str);
  (** [conn.commit()] *)
  sql_commit : M W unit
}.
Arguments sql_connect {W F} _ _.
Arguments sql_cursor {W F} _.
Arguments sql_exit {W F} _ _.
Arguments sql_execute {W F} _ _ _.
Arguments sql_fetchone {W F} _.
Arguments sql_fetchall {W F} _.
Arguments sql_columns {W F} _.
Arguments sql_commit {W F} _.

(** [with sqlite3.connect(path) as conn: body]: the block is left through
    [__exit__], which does not swallow the exception of the body; an
    exception of [__exit__] itself replaces the outcome. *)
Definition with_connect {W F A} (c : Sqlite W F) (path : str) (body : M W A) : M W A :=
  sql_connect c path ;;
  fun w =>
    match body w with
    | (Ok a, w1) => (sql_exit c true ;; ret a) w1
    | (Raise e, w1) => (sql_exit c false ;; raise e) w1
    end.

(** The connection [c] with a log of the statements executed, oldest
    first; a statement is logged when [execute] is called, whether it then
    returns or raises. *)
Definition logging {W F} (c : Sqlite W F)
    : Sqlite (W * list (statement * list (pyval F))) F :=
  {| sql_connect := fun p => lift (sql_connect c p);
     sql_cursor := lift (sql_cursor c);
     sql_exit := fun b => lift (sql_exit c b);
     sql_execute := fun q ps =>
       modify (fun st => (fst st, snd st ++ [(q, ps)])) ;;
       lift (sql_execute c q ps);
     sql_fetchone := lift (sql_fetchone c);
     sql_fetchall := lift (sql_fetchall c);
     sql_columns := lift (sql_columns c);
     sql_commit := lift (sql_commit c) |}.

(** ** [backend/database.py]: class [DatabaseManager] *)

Module DatabaseManager.
Section DatabaseManager.
Context {F : Type} (zero : F) (py_float : str -> option F).

(** [str(rating_str)] is [rating_str] for a string. *)
Definition _parse_rating {S} (rating_str : str) : M S F :=
  try_except
    (let! tok := index (split_ws rating_str) 0 in
     float py_float tok)
    (fun _ => ret zero).

End DatabaseManager.

Section Counts.
Context (isdigit : char -> bool) (py_int : str -> option Z).

(** [str(reviews_str)] is [reviews_str] for a string. *)
Definition _parse_reviews_count {S} (reviews_str : str) : M S Z :=
  try_except
    (let reviews := List.filter isdigit reviews_str in
     match reviews with
     | [] => ret 0
     | _ :: _ => Utils.int py_int reviews
     end)
    (fun _ => ret 0).

End Counts.

(** The store: every method opens a connection of its own. *)
Section Store.
Context {F : Type} (zero : F) (py_float : str -> option F) (nonzero : F -> bool).
Context (isdigit : char -> bool) (py_int : str -> option Z).
(** [str(v)] of a value that is not a string, [json.dumps] on the values
    of a record and [json.loads] ([None] where it raises
    [JSONDecodeError], a [ValueError]). *)
Context (repr : value F -> str).
Context (json_dumps : value F -> str) (json_loads : str -> option (pyval F)).
(** The exceptions of the language and of [sqlite3] met here. *)
Context (KeyError AttributeError TypeError : exn).
Context {W : Type} (c : Sqlite W F) (datetime_now : W -> Z * W).
(** [self.db_path] *)
Context (db_path : str).

Definition now : M W Z := fun w => (Ok (fst (datetime_now w)), snd (datetime_now w)).

(** [str(v)] *)
Definition py_str (v : value F) : str :=
  match v with
  | VStr s => s
  | _ => repr v
  end.

(** [d.get(k, default)] *)
Definition get {V} (d : list (str * V)) (k : str) (default : V) : V :=
  match dict_get k d with
  | Some v => v
  | None => default
  end.

(** [d[k]] *)
Definition getitem {S V} (d : list (str * V)) (k : str) : M S V :=
  match dict_get k d with
  | Some v => ret v
  | None => raise KeyError
  end.

Definition init_database : M W unit :=
  with_connect c db_path
    (sql_cursor c ;;
     sql_execute c CREATE_scraping_sessions [] ;;
     sql_execute c CREATE_businesses [] ;;
     sql_commit c).

(** [DatabaseManager.__init__] *)
Definition __init__ : M W unit := init_database.

Definition save_session (session_id keywords location : str) (max_results : Z)
    (status : str) : M W bool :=
  try_except
    (with_connect c db_path
       (sql_cursor c ;;
        let! t := now in
        sql_execute c INSERT_session
          [PStr session_id; PStr keywords; PStr location; PInt max_results;
           PStr status; PTime t] ;;
        sql_commit c ;;
        ret true))
    (fun _ => ret false).

Definition option_str (s : option str) : pyval F :=
  match s with
  | Some x => PStr x
  | None => PNone
  end.

Definition update_session_status (session_id status : str)
    (error_message : option str) : M W bool :=
  try_except
    (with_connect c db_path
       (sql_cursor c ;;
        (if str_eqb status (lit "completed") || str_eqb status (lit "error")
         then
           let! t := now in
           sql_execute c UPDATE_status_end
             [PStr status; PTime t; option_str error_message; PStr session_id]
         else
           sql_execute c UPDATE_status
             [PStr status; option_str error_message; PStr session_id]) ;;
        sql_commit c ;;
        ret true))
    (fun _ => ret false).

(** [coords.get(k) if coords else None] *)
Definition coordinate {S} (coords : value F) (k : str) : M S (pyval F) :=
  match coords with
  | VCoords d => ret (match dict_get k d with Some x => PFloat x | None => PNone end)
  | VHours d => ret (match dict_get k d with Some s => PStr s | None => PNone end)
  | VNone => ret PNone
  | VStr [] => ret PNone
  | VList [] => ret PNone
  | VStr (_ :: _) => raise AttributeError
  | VList (_ :: _) => raise AttributeError
  end.

(** The body of the loop of [save_businesses]. *)
Definition save_business (session_id : str) (business : dict F) : M W ctl :=
  let coords := get business (lit "coordinates") (VCoords []) in
  let! latitude := coordinate coords (lit "latitude") in
  let! longitude := coordinate coords (lit "longitude") in
  let categories := json_dumps (get business (lit "categories") (VList [])) in
  let hours := json_dumps (get business (lit "hours") (VHours [])) in
  let! reviews_count :=
    _parse_reviews_count isdigit py_int
      (py_str (get business (lit "reviews_count") (VStr []))) in
  let! rating :=
    _parse_rating zero py_float (py_str (get business (lit "rating") (VStr []))) in
  sql_execute c INSERT_business
    [PStr session_id;
     to_py (get business (lit "name") (VStr []));
     to_py (get business (lit "address") (VStr []));
     to_py (get business (lit "phone") (VStr []));
     to_py (get business (lit "website") (VStr []));
     PFloat rating;
     PInt reviews_count;
     PStr categories;
     PStr hours;
     latitude;
     longitude] ;;
  ret Next.

Definition save_businesses (session_id : str) (businesses : list (dict F)) : M W bool :=
  try_except
    (with_connect c db_path
       (sql_cursor c ;;
        for_in businesses (save_business session_id) ;;
        sql_execute c UPDATE_total_results [PInt (len businesses); PStr session_id] ;;
        sql_commit c ;;
        ret true))
    (fun _ => ret false).

Definition get_session (session_id : str) : M W (option (list (str * pyval F))) :=
  try_except
    (with_connect c db_path
       (sql_cursor c ;;
        sql_execute c SELECT_session [PStr session_id] ;;
        let! row := sql_fetchone c in
        match row with
        | Some (x :: r) =>
            let! columns := sql_columns c in
            ret (Some (dict_zip columns (x :: r)))
        | _ => ret None
        end))
    (fun _ => ret None).

(** [json.loads(v)] *)
Definition loads {S} (v : pyval F) : M S (pyval F) :=
  match v with
  | PStr s =>
      match json_loads s with
      | Some j => ret j
      | None => raise ValueError
      end
  | _ => raise TypeError
  end.

(** The body of the loop of [get_businesses]; the local is [businesses]. *)
Definition read_business (columns : list str) (row : list (pyval F))
    : M (W * list (list (str * pyval F))) ctl :=
  let business := dict_zip columns row in
  let! categories :=
    try_except
      (let! v := getitem business (lit "categories") in loads v)
      (fun _ => ret (PList [])) in
  let business := dict_set (lit "categories") categories business in
  let! hours :=
    try_except
      (let! v := getitem business (lit "hours") in loads v)
      (fun _ => ret (PDict [])) in
  let business := dict_set (lit "hours") hours business in
  let! latitude := getitem business (lit "latitude") in
  let! both :=
    (if truthy nonzero latitude
     then let! longitude := getitem business (lit "longitude") in
          ret (truthy nonzero longitude)
     else ret false) in
  let! coordinates :=
    (if both
     then
       let! latitude := getitem business (lit "latitude") in
       let! longitude := getitem business (lit "longitude") in
       ret (PDict [(lit "latitude", latitude); (lit "longitude", longitude)])
     else ret (PDict [])) in
  let business := dict_set (lit "coordinates") coordinates business in
  set_locals (fun businesses => businesses ++ [business]) ;;
  ret Next.

Definition get_businesses (session_id : str) : M W (list (list (str * pyval F))) :=
  try_except
    (with_connect c db_path
       (sql_cursor c ;;
        sql_execute c SELECT_businesses [PStr session_id] ;;
        let! rows := sql_fetchall c in
        let! columns := sql_columns c in
        with_locals []
          (for_in rows (read_business columns) ;;
           locals (fun businesses => businesses))))
    (fun _ => ret []).

Definition get_all_sessions : M W (list (list (str * pyval F))) :=
  try_except
    (with_connect c db_path
       (sql_cursor c ;;
        sql_execute c SELECT_all_sessions [] ;;
        let! rows := sql_fetchall c in
        let! columns := sql_columns c in
        ret (map (dict_zip columns) rows)))
    (fun _ => ret []).

Definition delete_session (session_id : str) : M W bool :=
  try_except
    (with_connect c db_path
       (sql_cursor c ;;
        sql_execute c DELETE_businesses [PStr session_id] ;;
        sql_execute c DELETE_session [PStr session_id] ;;
        sql_commit c ;;
        ret true))
    (fun _ => ret false).

End Store.
End DatabaseManager.

(** ** [backend/scraper.py]: class [GoogleMapsScraper] *)

Module GoogleMapsScraper.
Section GoogleMapsScraper.
Context {F : Type} (py_float : str -> option F).
Context {W E : Type} (d : Driver W E).

(** [GoogleMapsScraper.__init__] with [setup_driver], which logs and
    re-raises. *)
Definition __init__ : M W unit :=
  try_except (drv_start d) (fun e => raise e).

Definition _safe_extract_text (selector : str) : M W str :=
  try_except
    (let! element := drv_find_element d selector in
     let! t := el_text d element in
     ret (strip t))
    (fun _ => ret []).

(** The value is returned as [get_attribute] gives it, a string or
    [None]. *)
Definition _safe_extract_attribute (selector attribute : str) : M W (option str) :=
  try_except
    (let! element := drv_find_element d selector in
     el_get_attribute d element attribute)
    (fun _ => ret (Some [])).

(** The separator literal of [_extract_categories], as the source file
    holds it: the two code points U+00C2 U+00B7. *)
Definition category_separator : str := [194%N; 183%N].

Definition _extract_categories : M W (list str) :=
  try_except
    (let! categories_element :=
       drv_find_element d (lit "button[jsaction='pane.rating.category']") in
     let! t := el_text d categories_element in
     ret (map strip (split t category_separator)))
    (fun _ => ret []).

Definition _extract_hours : M W (list (str * str)) :=
  with_locals ([] : list (str * str))
    (try_except
       (let! hours_button :=
          lift (drv_find_element d (lit "button[data-item-id='oh']")) in
        lift (el_click d hours_button) ;;
        let! hours_elements := lift (drv_find_elements d (lit "table tr")) in
        for_in hours_elements (fun element =>
          try_except
            (let! th := lift (el_find_element d element (lit "th")) in
             let! day_text := lift (el_text d th) in
             let day := strip day_text in
             let! td := lift (el_find_element d element (lit "td")) in
             let! time_text := lift (el_text d td) in
             let time_range := strip time_text in
             set_locals (dict_set day time_range) ;;
             ret Next)
            (fun _ => ret Next)))
       (fun _ => ret tt) ;;
     locals (fun hours => hours)).

Definition _extract_coordinates : M W (list (str * F)) :=
  try_except
    (let! url := drv_current_url d in
     with_locals ([] : list (str * F))
       ((if contains (lit "@") url
         then
           let! seg := index (split url (lit "@")) 1 in
           let lat_lng := slice_to (split seg (lit ",")) 2 in
           let! s0 := index lat_lng 0 in
           let! lat := float py_float s0 in
           set_locals (dict_set (lit "latitude") lat) ;;
           let! s1 := index lat_lng 1 in
           let! lng := float py_float s1 in
           set_locals (dict_set (lit "longitude") lng)
         else ret tt) ;;
        locals (fun coords => coords)))
    (fun _ => ret []).

Definition _extract_business_details : M W (dict F) :=
  try_except
    (drv_wait_presence d By_CSS_SELECTOR (lit "div.fontHeadlineSmall") ;;
     let! name := _safe_extract_text (lit "div.fontHeadlineSmall") in
     let! address := _safe_extract_text (lit "button[data-item-id='address']") in
     let! phone := _safe_extract_text (lit "button[data-item-id='phone:tel']") in
     let! website :=
       _safe_extract_attribute (lit "a[data-item-id='authority']") (lit "href") in
     let! rating := _safe_extract_text (lit "span.fontDisplayLarge") in
     let! reviews_count :=
       _safe_extract_text (lit "button[jsaction='pane.rating.moreReviews']") in
     let! categories := _extract_categories in
     let! hours := _extract_hours in
     let! coordinates := _extract_coordinates in
     ret [ (lit "name", VStr name);
           (lit "address", VStr address);
           (lit "phone", VStr phone);
           (lit "website", optional website);
           (lit "rating", VStr rating);
           (lit "reviews_count", VStr reviews_count);
           (lit "categories", VList categories);
           (lit "hours", VHours hours);
           (lit "coordinates", VCoords coordinates) ])
    (fun _ => ret []).

(** The local variables of [scrape_google_maps_sync] that its loops
    update. *)
Record Frame : Type := {
  results : list (dict F);
  results_found : Z
}.

Definition append_result (business_data : dict F) (fr : Frame) : Frame :=
  {| results := results fr ++ [business_data];
     results_found := results_found fr |}.

Definition set_results_found (n : Z) (fr : Frame) : Frame :=
  {| results := results fr; results_found := n |}.

Definition scroll_script : str :=
  lit "arguments[0].scrollTop = arguments[0].scrollHeight".

(** Lines 71-95: the body of the scroll loop. *)
Definition scroll_once (max_results : Z)
    (progress_callback : Z -> Z -> M W unit) (scroll : Z) : M (W * Frame) ctl :=
  try_except
    (let! results_panel :=
       lift (drv_wait_presence d By_CSS_SELECTOR (lit "div[role='feed']")) in
     lift (drv_execute_script d scroll_script results_panel) ;;
     let! n := locals (fun fr => len (results fr)) in
     set_locals (set_results_found n) ;;
     let! found := locals results_found in
     lift (progress_callback found max_results) ;;
     if found >=? max_results then ret Break else ret Next)
    (fun _ => ret Next).

(** Lines 66-95: the scroll loop. *)
Definition paginating (max_results : Z)
    (progress_callback : Z -> Z -> M W unit) : M (W * Frame) unit :=
  let scrolls_needed := max_results / 20 in
  set_locals (set_results_found 0) ;;
  for_in (range scrolls_needed) (scroll_once max_results progress_callback).

(** Lines 101-118: the body of the listing loop. *)
Definition process_listing (max_results : Z)
    (progress_callback : Z -> Z -> M W unit) (listing : E) : M (W * Frame) ctl :=
  try_except
    (lift (el_click d listing) ;;
     let! business_data := lift _extract_business_details in
     set_locals (append_result business_data) ;;
     let! n := locals (fun fr => len (results fr)) in
     lift (progress_callback n max_results) ;;
     ret Next)
    (fun _ => ret Next).

(** Lines 97-118: the listing loop. *)
Definition iterating (max_results : Z)
    (progress_callback : Z -> Z -> M W unit) : M (W * Frame) unit :=
  let! listings := lift (drv_find_elements d (lit "div[role='article']")) in
  for_in (slice_to listings max_results)
    (process_listing max_results progress_callback).

Definition scrape_google_maps_sync (keywords location : str) (max_results : Z)
    (progress_callback : Z -> Z -> M W unit) : M W (list (dict F)) :=
  with_locals {| results := []; results_found := 0 |}
    (try_finally
       (try_except
          (let search_query := keywords ++ lit " in " ++ location in
           lift (drv_get d (lit "https://www.google.com/maps")) ;;
           let! search_box :=
             lift (drv_wait_presence d By_ID (lit "searchboxinput")) in
           lift (el_clear d search_box) ;;
           lift (el_send_keys d search_box (Text search_query)) ;;
           lift (el_send_keys d search_box Keys_ENTER) ;;
           paginating max_results progress_callback ;;
           iterating max_results progress_callback ;;
           locals results)
          (fun e => raise e))
       (lift (drv_quit d))).

End GoogleMapsScraper.
End GoogleMapsScraper.

(** The keys of a record that [_extract_business_details] fills, in the
    order of the source. *)
Definition record_keys : list str :=
  [lit "name"; lit "address"; lit "phone"; lit "website"; lit "rating";
   lit "reviews_count"; lit "categories"; lit "hours"; lit "coordinates"].

(** ** The coordinate parser as the specification words it *)

(** Split on the [@] marker, take the second segment, split it on [,],
    parse the first two fields; absent when the marker is missing, a field
    is not numeric, or there are fewer than two fields. *)
Definition parseCoordinates {F} (py_float : str -> option F) (url : str) : option (F * F) :=
  match split url (lit "@") with
  | _ :: seg :: _ =>
      match split seg (lit ",") with
      | a :: b :: _ =>
          match py_float a, py_float b with
          | Some lat, Some lng => Some (lat, lng)
          | _, _ => None
          end
      | _ => None
      end
  | _ => None
  end.

(** The dict [_extract_coordinates] returns for a parsed pair, and [{}]
    for an absent one. *)
Definition coords_dict {F} (c : option (F * F)) : list (str * F) :=
  match c with
  | Some (lat, lng) => [(lit "latitude", lat); (lit "longitude", lng)]
  | None => []
  end.

(** ** [backend/main.py] *)

Module Main.

(** The values of [ScrapeSession.status]: the strings ["idle"],
    ["running"], ["completed"] and ["error"]. *)
Inductive Status : Type := StIdle | StRunning | StCompleted | StError.

Definition status_eqb (a b : Status) : bool :=
  match a, b with
  | StIdle, StIdle | StRunning, StRunning
  | StCompleted, StCompleted | StError, StError => true
  | _, _ => false
  end.

Definition status_str (a : Status) : str :=
  match a with
  | StIdle => lit "idle"
  | StRunning => lit "running"
  | StCompleted => lit "completed"
  | StError => lit "error"
  end.

(** The state machine of a session: [idle -> running -> completed | error]. *)
Definition transition (a b : Status) : bool :=
  match a, b with
  | StIdle, StRunning | StRunning, StCompleted | StRunning, StError => true
  | _, _ => false
  end.

Definition terminal (a : Status) : bool :=
  match a with
  | StCompleted | StError => true
  | _ => false
  end.

(** A sequence of observed statuses, starting after [prev], in which each
    status is the one before it or one transition away from it. *)
Fixpoint follows (prev : Status) (l : list Status) : bool :=
  match l with
  | [] => true
  | x :: l' => (status_eqb prev x || transition prev x) && follows x l'
  end.

Section Main.
Context {F : Type} (py_float : str -> option F).

Record ScrapeRequest : Type := {
  req_keywords : str;
  req_location : str;
  req_max_results : Z
}.

(** The attributes of a [ScrapeSession] object; timestamps are clock
    readings. *)
Record ScrapeSession : Type := {
  session_id : str;
  keywords : str;
  location : str;
  max_results : Z;
  status : Status;
  completed : Z;
  total : Z;
  results : list (dict F);
  error_message : option str;
  start_time : option Z;
  end_time : option Z
}.

(** [ScrapeSession.__init__] *)
Definition new_session (sid kw loc : str) (mx : Z) : ScrapeSession :=
  {| session_id := sid; keywords := kw; location := loc; max_results := mx;
     status := StIdle; completed := 0; total := mx; results := [];
     error_message := None; start_time := None; end_time := None |}.

Definition set_status (v : Status) (s : ScrapeSession) : ScrapeSession :=
  {| session_id := session_id s; keywords := keywords s; location := location s;
     max_results := max_results s; status := v; completed := completed s;
     total := total s; results := results s; error_message := error_message s;
     start_time := start_time s; end_time := end_time s |}.

Definition set_completed (v : Z) (s : ScrapeSession) : ScrapeSession :=
  {| session_id := session_id s; keywords := keywords s; location := location s;
     max_results := max_results s; status := status s; completed := v;
     total := total s; results := results s; error_message := error_message s;
     start_time := start_time s; end_time := end_time s |}.

Definition set_total (v : Z) (s : ScrapeSession) : ScrapeSession :=
  {| session_id := session_id s; keywords := keywords s; location := location s;
     max_results := max_results s; status := status s; completed := completed s;
     total := v; results := results s; error_message := error_message s;
     start_time := start_time s; end_time := end_time s |}.

Definition set_results (v : list (dict F)) (s : ScrapeSession) : ScrapeSession :=
  {| session_id := session_id s; keywords := keywords s; location := location s;
     max_results := max_results s; status := status s; completed := completed s;
     total := total s; results := v; error_message := error_message s;
     start_time := start_time s; end_time := end_time s |}.

Definition set_error_message (v : option str) (s : ScrapeSession) : ScrapeSession :=
  {| session_id := session_id s; keywords := keywords s; location := location s;
     max_results := max_results s; status := status s; completed := completed s;
     total := total s; results := results s; error_message := v;
     start_time := start_time s; end_time := end_time s |}.

Definition set_start_time (v : option Z) (s : ScrapeSession) : ScrapeSession :=
  {| session_id := session_id s; keywords := keywords s; location := location s;
     max_results := max_results s; status := status s; completed := completed s;
     total := total s; results := results s; error_message := error_message s;
     start_time := v; end_time := end_time s |}.

Definition set_end_time (v : option Z) (s : ScrapeSession) : ScrapeSession :=
  {| session_id := session_id s; keywords := keywords s; location := location s;
     max_results := max_results s; status := status s; completed := completed s;
     total := total s; results := results s; error_message := error_message s;
     start_time := start_time s; end_time := v |}.

(** The state of the server process.  Session objects live in [heap] and
    are named by reference, so that the registry entry and the background
    task of a session share one object.  [scraping_sessions] is the global
    dict of the module; [background_tasks] holds the tasks added for
    execution after the response.  [history] observes the program: it
    records every assignment to an attribute of a session object, as the
    reference and the object after the assignment, oldest first. *)
Record App : Type := {
  heap : nat -> ScrapeSession;
  next_ref : nat;
  scraping_sessions : gmap str nat;
  background_tasks : list nat;
  history : list (nat * ScrapeSession)
}.

(** What the process gets from outside the program: the browser driver,
    [datetime.now()], [str(uuid.uuid4())], [str(e)] of an exception, and
    the two file writers, [utils.create_csv_file] (pandas) and the
    [os.makedirs]/[open]/[json.dump] sequence of [download_json]. *)
Context {W E : Type} (d : Driver W E).
Context (datetime_now : W -> Z * W) (uuid4 : W -> str * W).
Context (exn_str : exn -> str).
Context (create_csv_file : list (dict F) -> str -> str -> M W str).

Record JsonData : Type := {
  meta_keywords : str;
  meta_location : str;
  meta_total_results : Z;
  meta_scraped_at : option Z;
  json_results : list (dict F)
}.
Context (json_dump : str -> JsonData -> M W unit).

Definition St : Type := (W * App)%type.

(** The state after a session object was made for [request] under the
    identifier [sid], registered and queued. *)
Definition created (request : ScrapeRequest) (sid : str) (w : W) (a : App) : St :=
  (w,
   {| heap := fun r =>
        if Nat.eqb r (next_ref a)
        then new_session sid (req_keywords request) (req_location request)
               (req_max_results request)
        else heap a r;
      next_ref := S (next_ref a);
      scraping_sessions := <[sid := next_ref a]> (scraping_sessions a);
      background_tasks := background_tasks a ++ [next_ref a];
      history := history a |}).

(** The driver, run in the state of the process. *)
Definition app_driver : Driver St E := lift_driver d.

Definition now : M St Z :=
  fun st => match datetime_now (fst st) with (t, w) => (Ok t, (w, snd st)) end.

Definition new_uuid : M St str :=
  fun st => match uuid4 (fst st) with (u, w) => (Ok u, (w, snd st)) end.

(** [session.attr] *)
Definition getattr {A} (session : nat) (attr : ScrapeSession -> A) : M St A :=
  gets (fun st => attr (heap (snd st) session)).

(** [session.attr = v], with [set] the update of that attribute. *)
Definition setattr (session : nat) (set : ScrapeSession -> ScrapeSession) : M St unit :=
  modify (fun st =>
    let a := snd st in
    let s' := set (heap a session) in
    (fst st,
     {| heap := fun r => if Nat.eqb r session then s' else heap a r;
        next_ref := next_ref a;
        scraping_sessions := scraping_sessions a;
        background_tasks := background_tasks a;
        history := history a ++ [(session, s')] |})).

(** [ScrapeSession(session_id, keywords, location, max_results)]: a new
    object. *)
Definition ScrapeSession_new (sid kw loc : str) (mx : Z) : M St nat :=
  fun st =>
    let a := snd st in
    let r := next_ref a in
    (Ok r,
     (fst st,
      {| heap := fun r' => if Nat.eqb r' r then new_session sid kw loc mx else heap a r';
         next_ref := S r;
         scraping_sessions := scraping_sessions a;
         background_tasks := background_tasks a;
         history := history a |})).

(** [scraping_sessions[session_id] = session] *)
Definition register (sid : str) (session : nat) : M St unit :=
  modify (fun st =>
    let a := snd st in
    (fst st,
     {| heap := heap a;
        next_ref := next_ref a;
        scraping_sessions := <[sid := session]> (scraping_sessions a);
        background_tasks := background_tasks a;
        history := history a |})).

(** [background_tasks.add_task(run_scraping_task, session)] *)
Definition add_task (session : nat) : M St unit :=
  modify (fun st =>
    let a := snd st in
    (fst st,
     {| heap := heap a;
        next_ref := next_ref a;
        scraping_sessions := scraping_sessions a;
        background_tasks := background_tasks a ++ [session];
        history := history a |})).

(** The closure [progress_callback] of [run_scraping_task]. *)
Definition progress_callback (session : nat) (completed total : Z) : M St unit :=
  setattr session (set_completed completed) ;;
  setattr session (set_total total).

(** The scraper runs in a worker thread and [future.result()] returns its
    value or re-raises its exception. *)
Definition run_scraping_task (session : nat) : M St unit :=
  try_except
    (setattr session (set_status StRunning) ;;
     let! t0 := now in
     setattr session (set_start_time (Some t0)) ;;
     GoogleMapsScraper.__init__ app_driver ;;
     let! kw := getattr session keywords in
     let! loc := getattr session location in
     let! mx := getattr session max_results in
     let! res :=
       GoogleMapsScraper.scrape_google_maps_sync py_float app_driver kw loc mx
         (progress_callback session) in
     setattr session (set_results res) ;;
     setattr session (set_status StCompleted) ;;
     let! t1 := now in
     setattr session (set_end_time (Some t1)))
    (fun e =>
       setattr session (set_status StError) ;;
       setattr session (set_error_message (Some (exn_str e))) ;;
       let! t1 := now in
       setattr session (set_end_time (Some t1))).

(** What a run of the task on [session] must look like, from the state
    [before] to the outcome [out]: the task returns, it assigns only to
    [session], and the statuses it assigns, in order, follow the state
    machine from [idle], end in a terminal status, which the session
    keeps, and never change after a terminal one. *)
Definition monotone_run (session : nat) (before : St) (out : Res unit * St) : Prop :=
  fst out = Ok tt
  /\ exists new,
       history (snd (snd out)) = history (snd before) ++ new
       /\ List.Forall (fun e => fst e = session) new
       /\ let trace := map (fun e => status (snd e)) new in
          follows StIdle trace = true
          /\ terminal (List.last trace StIdle) = true
          /\ status (heap (snd (snd out)) session) = List.last trace StIdle
          /\ forall i j a b, (i <= j)%nat ->
               nth_error trace i = Some a -> nth_error trace j = Some b ->
               terminal a = true -> b = a.

(** [not s] for a string and [not l] for a list. *)
Definition is_empty (s : str) : bool :=
  match s with [] => true | _ => false end.

Definition is_empty_list {A} (l : list A) : bool :=
  match l with [] => true | _ => false end.

(** [POST /start_scraping]; the response is the pair of ["session_id"] and
    ["status"]. *)
Definition start_scraping (request : ScrapeRequest) : M St (str * str) :=
  try_except
    ((if is_empty (req_keywords request) || is_empty (req_location request)
      then raise (HTTPException 400 (lit "Keywords and location are required"))
      else ret tt) ;;
     (if (req_max_results request <=? 0) || (req_max_results request >? 500)
      then raise (HTTPException 400 (lit "Max results must be between 1 and 500"))
      else ret tt) ;;
     let! sid := new_uuid in
     let! session :=
       ScrapeSession_new sid (req_keywords request) (req_location request)
         (req_max_results request) in
     register sid session ;;
     add_task session ;;
     ret (sid, lit "started"))
    (fun e => raise (HTTPException 500 (exn_str e))).

Record ResultsResponse : Type := {
  res_session_id : str;
  res_keywords : str;
  res_location : str;
  res_total_results : Z;
  res_results : list (dict F)
}.

Record FileResponse : Type := {
  path : str;
  filename : str;
  media_type : str
}.

(** [if session_id not in scraping_sessions: raise ...] followed by
    [session = scraping_sessions[session_id]]. *)
Definition lookup_session (sid : str) : M St nat :=
  let! reg := gets (fun st => scraping_sessions (snd st)) in
  match reg !! sid with
  | None => raise (HTTPException 404 (lit "Session not found"))
  | Some session => ret session
  end.

(** [GET /results/{session_id}] *)
Definition get_results (sid : str) : M St ResultsResponse :=
  let! session := lookup_session sid in
  let! st := getattr session status in
  (if negb (status_eqb st StCompleted)
   then raise (HTTPException 400 (lit "Scraping not completed yet"))
   else ret tt) ;;
  let! kw := getattr session keywords in
  let! loc := getattr session location in
  let! rs := getattr session results in
  ret {| res_session_id := sid; res_keywords := kw; res_location := loc;
         res_total_results := len rs; res_results := rs |}.

(** [GET /download_csv/{session_id}] *)
Definition download_csv (sid : str) : M St FileResponse :=
  let! session := lookup_session sid in
  let! st := getattr session status in
  (if negb (status_eqb st StCompleted)
   then raise (HTTPException 400 (lit "Scraping not completed yet"))
   else ret tt) ;;
  let! rs := getattr session results in
  (if is_empty_list rs
   then raise (HTTPException 400 (lit "No results to download"))
   else ret tt) ;;
  let! kw := getattr session keywords in
  let! loc := getattr session location in
  let! csv_filename := lift (create_csv_file rs kw loc) in
  ret {| path := csv_filename;
         filename := lit "google_maps_data_" ++ kw ++ lit "_" ++ loc ++ lit ".csv";
         media_type := lit "text/csv" |}.

(** [GET /download_json/{session_id}] *)
Definition download_json (sid : str) : M St FileResponse :=
  let! session := lookup_session sid in
  let! st := getattr session status in
  (if negb (status_eqb st StCompleted)
   then raise (HTTPException 400 (lit "Scraping not completed yet"))
   else ret tt) ;;
  let! rs := getattr session results in
  (if is_empty_list rs
   then raise (HTTPException 400 (lit "No results to download"))
   else ret tt) ;;
  let! kw := getattr session keywords in
  let! loc := getattr session location in
  let! et := getattr session end_time in
  let json_data :=
    {| meta_keywords := kw; meta_location := loc;
       meta_total_results := len rs; meta_scraped_at := et;
       json_results := rs |} in
  let json_filename := lit "temp/google_maps_data_" ++ sid ++ lit ".json" in
  lift (json_dump json_filename json_data) ;;
  ret {| path := json_filename;
         filename := lit "google_maps_data_" ++ kw ++ lit "_" ++ loc ++ lit ".json";
         media_type := lit "application/json" |}.

(** [completed / total * 100], a float, is arithmetic of the language. *)
Context (percent : Z -> Z -> F).

Record ProgressResponse : Type := {
  pr_session_id : str;
  pr_status : Status;
  pr_completed : Z;
  pr_total : Z;
  (** a float, or the integer [0] of the [else] branch *)
  pr_progress_percentage : F + Z;
  pr_error_message : option str;
  pr_start_time : option Z;
  pr_end_time : option Z
}.

(** [GET /progress/{session_id}]; the timestamps are given as they are
    stored, [isoformat()] being their rendering. *)
Definition get_progress (sid : str) : M St ProgressResponse :=
  let! session := lookup_session sid in
  let! st := getattr session status in
  let! c := getattr session completed in
  let! t := getattr session total in
  let! em := getattr session error_message in
  let! t0 := getattr session start_time in
  let! t1 := getattr session end_time in
  ret {| pr_session_id := sid; pr_status := st; pr_completed := c; pr_total := t;
         pr_progress_percentage := if t >? 0 then inl (percent c t) else inr 0;
         pr_error_message := em; pr_start_time := t0; pr_end_time := t1 |}.

End Main.
End Main.

(** ** A simulated browser, for running the program on concrete pages *)

Module Sim.

(** One search result of the simulated site: whether a click on it opens
    its panel, whether the headline of the panel ever appears, and what the
    panel shows. *)
Record Listing : Type := {
  click_ok : bool;
  panel_ok : bool;
  name : str;
  category_text : option str;
  url : str
}.

Inductive Elem : Type :=
| SearchBox
| Feed
| Article (l : Listing)
| PanelNode (l : Listing) (selector : str).

Record World : Type := {
  search_box_ok : bool;
  feed_ok : bool;
  site : list Listing;      (* every result the site has for the query *)
  first_batch : nat;        (* results rendered when the query is submitted *)
  per_scroll : nat;         (* further results rendered by one scroll *)
  loaded : nat;             (* results rendered now *)
  opened : option Listing;  (* the listing whose panel is open *)
  scrolls : nat;            (* scrolls performed *)
  quits : nat;              (* calls of quit *)
  clock : Z;
  uuids : list str
}.

Definition upd (w : World) (loaded' : nat) (opened' : option Listing)
    (scrolls' quits' : nat) : World :=
  {| search_box_ok := search_box_ok w; feed_ok := feed_ok w; site := site w;
     first_batch := first_batch w; per_scroll := per_scroll w;
     loaded := loaded'; opened := opened'; scrolls := scrolls';
     quits := quits'; clock := clock w; uuids := uuids w |}.

Definition sel_headline : str := lit "div.fontHeadlineSmall".
Definition sel_category : str := lit "button[jsaction='pane.rating.category']".

Definition wait_presence (b : By) (v : str) : M World Elem :=
  fun w =>
    match b with
    | By_ID =>
        if str_eqb v (lit "searchboxinput") && search_box_ok w
        then (Ok SearchBox, w) else (Raise TimeoutException, w)
    | By_CSS_SELECTOR =>
        if str_eqb v (lit "div[role='feed']")
        then (if feed_ok w then (Ok Feed, w) else (Raise TimeoutException, w))
        else
          match opened w with
          | Some l =>
              if str_eqb v sel_headline && panel_ok l
              then (Ok (PanelNode l v), w) else (Raise TimeoutException, w)
          | None => (Raise TimeoutException, w)
          end
    end.

Definition find_element (v : str) : M World Elem :=
  fun w =>
    match opened w with
    | Some l =>
        if str_eqb v sel_headline && panel_ok l then (Ok (PanelNode l v), w)
        else if str_eqb v sel_category && panel_ok l
        then match category_text l with
             | Some _ => (Ok (PanelNode l v), w)
             | None => (Raise NoSuchElementException, w)
             end
        else (Raise NoSuchElementException, w)
    | None => (Raise NoSuchElementException, w)
    end.

Definition find_elements (v : str) : M World (list Elem) :=
  fun w =>
    if str_eqb v (lit "div[role='article']")
    then (Ok (map Article (firstn (loaded w) (site w))), w)
    else (Ok [], w).

Definition send_keys (e : Elem) (k : keys) : M World unit :=
  fun w =>
    match e, k with
    | SearchBox, Keys_ENTER =>
        (Ok tt, upd w (Nat.min (first_batch w) (length (site w))) (opened w)
                  (scrolls w) (quits w))
    | SearchBox, Text _ => (Ok tt, w)
    | _, _ => (Raise (WebDriverException (lit "element not interactable")), w)
    end.

Definition execute_script (script : str) (e : Elem) : M World unit :=
  fun w =>
    match e with
    | Feed =>
        (Ok tt, upd w (Nat.min (loaded w + per_scroll w) (length (site w)))
                  (opened w) (S (scrolls w)) (quits w))
    | _ => (Raise (WebDriverException (lit "javascript error")), w)
    end.

Definition click (e : Elem) : M World unit :=
  fun w =>
    match e with
    | Article l =>
        if click_ok l
        then (Ok tt, upd w (loaded w) (Some l) (scrolls w) (quits w))
        else (Raise (WebDriverException (lit "element click intercepted")), w)
    | _ => (Raise (WebDriverException (lit "element not interactable")), w)
    end.

Definition text (e : Elem) : M World str :=
  fun w =>
    match e with
    | PanelNode l v =>
        if str_eqb v sel_headline then (Ok (name l), w)
        else match category_text l with
             | Some t => (Ok t, w)
             | None => (Ok [], w)
             end
    | _ => (Ok [], w)
    end.

Definition current_url : M World str :=
  fun w =>
    match opened w with
    | Some l => (Ok (url l), w)
    | None => (Ok (lit "https://www.google.com/maps"), w)
    end.

Definition driver : Driver World Elem :=
  {| drv_start := ret tt;
     drv_get := fun _ => ret tt;
     drv_wait_presence := wait_presence;
     drv_execute_script := execute_script;
     drv_find_element := find_element;
     drv_find_elements := find_elements;
     drv_current_url := current_url;
     drv_quit := fun w => (Ok tt, upd w (loaded w) (opened w) (scrolls w) (S (quits w)));
     el_clear := fun _ => ret tt;
     el_send_keys := send_keys;
     el_click := click;
     el_text := text;
     el_get_attribute := fun _ _ => ret None;
     el_find_element := fun _ _ => raise NoSuchElementException |}.

Definition datetime_now (w : World) : Z * World :=
  (clock w,
   {| search_box_ok := search_box_ok w; feed_ok := feed_ok w; site := site w;
      first_batch := first_batch w; per_scroll := per_scroll w;
      loaded := loaded w; opened := opened w; scrolls := scrolls w;
      quits := quits w; clock := clock w + 1; uuids := uuids w |}).

Definition uuid4 (w : World) : str * World :=
  (hd [] (uuids w),
   {| search_box_ok := search_box_ok w; feed_ok := feed_ok w; site := site w;
      first_batch := first_batch w; per_scroll := per_scroll w;
      loaded := loaded w; opened := opened w; scrolls := scrolls w;
      quits := quits w; clock := clock w; uuids := tl (uuids w) |}).

(** A site with the given results, of which [first] are rendered at once
    and [step] more by each scroll. *)
Definition world (results : list Listing) (first step : nat) : World :=
  {| search_box_ok := true; feed_ok := true; site := results;
     first_batch := first; per_scroll := step; loaded := 0; opened := None;
     scrolls := 0; quits := 0; clock := 1000;
     uuids := [lit "id-1"; lit "id-2"; lit "id-3"] |}.

(** The site showing the panel of [l]. *)
Definition world_open (l : Listing) : World :=
  upd (world [l] 1 0) 1 (Some l) 0 0.

(** A listing that shows [cat] in its category button. *)
Definition listing (click panel : bool) (cat : option str) : Listing :=
  {| click_ok := click; panel_ok := panel; name := lit " Cafe X ";
     category_text := cat;
     url := lit "https://www.google.com/maps/place/X/@37.422,-122.084,15z" |}.

(** A decimal reader standing for [float] in the runs below: an optional
    sign, digits, and an optional fraction, read as a rational. *)
Definition digit (c : char) : option Z :=
  if ((48 <=? c) && (c <=? 57))%N then Some (Z.of_N c - 48) else None.

Fixpoint digits (acc : Z) (n : nat) (s : str) : option (Z * nat * str) :=
  match s with
  | [] => Some (acc, n, [])
  | c :: s' =>
      match digit c with
      | Some v => digits (10 * acc + v) (S n) s'
      | None => Some (acc, n, s)
      end
  end.

Definition unsigned (s : str) : option Q :=
  match digits 0 0 s with
  | Some (i, ni, rest) =>
      match rest with
      | [] => if Nat.eqb ni 0 then None else Some (inject_Z i)
      | c :: frac =>
          if (c =? 46)%N
          then match digits 0 0 frac with
               | Some (f, nf, []) =>
                   if Nat.eqb (ni + nf) 0 then None
                   else Some (Qred (inject_Z i + (f # Pos.of_nat (10 ^ nf))))
               | _ => None
               end
          else None
      end
  | None => None
  end.

Definition py_float (s : str) : option Q :=
  match s with
  | c :: s' =>
      if (c =? 45)%N then option_map Qopp (unsigned s') else unsigned s
  | [] => None
  end.

(** [str(n)] for a status code, which has three digits. *)
Definition status_digits (n : Z) : str :=
  map (fun k => Z.to_N (48 + (n / k) mod 10)) [100; 10; 1].

(** [str(e)]; for an [HTTPException] it is the status code, a colon and
    the detail. *)
Definition exn_str (e : exn) : str :=
  match e with
  | IndexError => lit "list index out of range"
  | ValueError => lit "could not convert string to float"
  | TimeoutException => lit "Message: "
  | NoSuchElementException => lit "Message: no such element"
  | WebDriverException m => lit "Message: " ++ m
  | OSError m => m
  | HTTPException c m => status_digits c ++ lit ": " ++ m
  end.

End Sim.

(** ** Runs on the simulated site *)

Module Runs.

Definition ok_listing : Sim.Listing := Sim.listing true true (Some (lit "Cafe")).
(** A listing whose panel never shows its headline. *)
Definition no_panel : Sim.Listing := Sim.listing true false None.
(** A listing that cannot be clicked. *)
Definition no_click : Sim.Listing := Sim.listing false true None.

(** Ten results, the fourth and the eighth being [bad]. *)
Definition ten (bad : Sim.Listing) : list Sim.Listing :=
  [ok_listing; ok_listing; ok_listing; bad; ok_listing;
   ok_listing; ok_listing; bad; ok_listing; ok_listing].

(** The server with no session. *)
Definition app0 : Main.App (F:=Q) :=
  {| Main.heap := fun _ => Main.new_session [] [] [] 0;
     Main.next_ref := 0;
     Main.scraping_sessions := empty;
     Main.background_tasks := [];
     Main.history := [] |}.

Definition request (cap : Z) : Main.ScrapeRequest :=
  {| Main.req_keywords := lit "cafe"; Main.req_location := lit "Paris";
     Main.req_max_results := cap |}.

(** The server after [start_scraping] for ten results on [site]. *)
Definition started (site : list Sim.Listing) : Main.St (F:=Q) (W:=Sim.World) :=
  snd (Main.start_scraping Sim.uuid4 Sim.exn_str (request 10)
         (Sim.world site 20 20, app0)).

(** The outcome of the background task of that session. *)
Definition finished (site : list Sim.Listing) : Res unit * Main.St :=
  Main.run_scraping_task Sim.py_float Sim.driver Sim.datetime_now Sim.exn_str
    0 (started site).

Definition session_of (out : Res unit * Main.St (F:=Q) (W:=Sim.World)) : Main.ScrapeSession :=
  Main.heap (snd (snd out)) 0%nat.


(** A site of forty results, twenty rendered by the search and twenty more
    by the first scroll, after the query was submitted. *)
Definition searched40 : Sim.World :=
  snd (Sim.send_keys Sim.SearchBox Keys_ENTER
         (Sim.world (repeat ok_listing 40) 20 20)).

(** The listings the page shows in world [w]. *)
Definition discovered (w : Sim.World) : Z :=
  match fst (Sim.find_elements (lit "div[role='article']") w) with
  | Ok l => len l
  | Raise _ => 0
  end.

(** The scroll loop for a cap of 40 on that site, its ticks recorded. *)
Definition paginated40 :
    Res unit * (Sim.World * list (Z * Z) * GoogleMapsScraper.Frame (F:=Q)) :=
  GoogleMapsScraper.paginating (lift_driver Sim.driver) 40 record_tick
    ((searched40, []),
     {| GoogleMapsScraper.results := []; GoogleMapsScraper.results_found := 0 |}).

(** The server after the task of a session on a site with no result. *)
Definition empty_done : Main.St (F:=Q) (W:=Sim.World) := snd (finished []).

(** File writers that succeed. *)
Definition create_csv_file (rs : list (dict Q)) (kw loc : str) : M Sim.World str :=
  ret (lit "temp/google_maps_data.csv").
Definition json_dump (name : str) (data : Main.JsonData (F:=Q)) : M Sim.World unit :=
  ret tt.

(** [completed / total * 100] on rationals. *)
Definition percent (completed total : Z) : Q :=
  inject_Z completed / inject_Z total * 100.

(** A page on which every element is found, reads [ Cafe X ] and has no
    attribute. *)
Definition bare_page : Driver unit unit :=
  {| drv_start := ret tt;
     drv_get := fun _ => ret tt;
     drv_wait_presence := fun _ _ => ret tt;
     drv_execute_script := fun _ _ => ret tt;
     drv_find_element := fun _ => ret tt;
     drv_find_elements := fun _ => ret [];
     drv_current_url := ret (lit "https://www.google.com/maps");
     drv_quit := ret tt;
     el_clear := fun _ => ret tt;
     el_send_keys := fun _ _ => ret tt;
     el_click := fun _ => ret tt;
     el_text := fun _ => ret (lit " Cafe X ");
     el_get_attribute := fun _ _ => ret None;
     el_find_element := fun _ _ => ret tt |}.

(** A database that accepts every statement and holds no row. *)
Definition accepting_db : Sqlite unit Q :=
  {| sql_connect := fun _ => ret tt;
     sql_cursor := ret tt;
     sql_exit := fun _ => ret tt;
     sql_execute := fun _ _ => ret tt;
     sql_fetchone := ret None;
     sql_fetchall := ret [];
     sql_columns := ret [];
     sql_commit := ret tt |}.

(** [str.isdigit] and [int] on ASCII digits. *)
Definition isdigit (c : char) : bool := ((48 <=? c) && (c <=? 57))%N.
Definition py_int (s : str) : option Z :=
  Some (fold_left (fun n c => 10 * n + Z.of_N (c - 48)) s 0).

(** [json.dumps] on the empty list, the empty dicts and strings without
    quotes or escapes, which is what the records below hold. *)
Definition json_dumps (v : value Q) : str :=
  match v with
  | VNone => lit "null"
  | VStr s => [34%N] ++ s ++ [34%N]
  | VList _ => lit "[]"
  | VHours _ => lit "{}"
  | VCoords _ => lit "{}"
  end.

(** [str] on the empty list and the empty dicts. *)
Definition repr (v : value Q) : str :=
  match v with
  | VNone => lit "None"
  | VStr s => s
  | VList _ => lit "[]"
  | VHours _ => lit "{}"
  | VCoords _ => lit "{}"
  end.

(** [AttributeError], for which the exceptions above have no name of
    their own. *)
Definition AttributeError : exn := OSError (lit "AttributeError").

(** A record as a client of the store may hold it. *)
Definition cafe : dict Q :=
  [(lit "name", VStr (lit "Cafe")); (lit "rating", VStr (lit "4.5 stars"));
   (lit "reviews_count", VStr (lit "(1,234)"))].

End Runs.

(** ** Notions used in the proofs *)

(** [keeps R m]: whatever state [m] starts in, the state it ends in is
    related to it by [R], whether it returns or raises. *)
Definition keeps {S A} (R : S -> S -> Prop) (m : M S A) : Prop :=
  forall s, R s (snd (m s)).

(** The relation [R] on the first component of a state with locals. *)
Definition on_fst {S T} (R : S -> S -> Prop) (a b : S * T) : Prop :=
  R (fst a) (fst b).

(** A driver all of whose operations keep [R]. *)
Record DriverKeeps {W E} (R : W -> W -> Prop) (d : Driver W E) : Prop := {
  k_start : keeps R (drv_start d);
  k_get : forall u, keeps R (drv_get d u);
  k_wait : forall b v, keeps R (drv_wait_presence d b v);
  k_script : forall sc e, keeps R (drv_execute_script d sc e);
  k_find : forall sel, keeps R (drv_find_element d sel);
  k_finds : forall sel, keeps R (drv_find_elements d sel);
  k_url : keeps R (drv_current_url d);
  k_quit : keeps R (drv_quit d);
  k_clear : forall e, keeps R (el_clear d e);
  k_keys : forall e k, keeps R (el_send_keys d e k);
  k_click : forall e, keeps R (el_click d e);
  k_text : forall e, keeps R (el_text d e);
  k_attr : forall e a, keeps R (el_get_attribute d e a);
  k_efind : forall e sel, keeps R (el_find_element d e sel)
}.

(** [quiet session a a']: from [a] to [a'] the status of [session] is the
    same, and every assignment recorded in between was made to [session]
    and left that status. *)
Definition quiet {F} (session : nat) (a a' : Main.App (F:=F)) : Prop :=
  Main.status (Main.heap a' session) = Main.status (Main.heap a session)
  /\ exists new,
       Main.history a' = Main.history a ++ new
       /\ Forall (fun e => fst e = session
                          /\ Main.status (snd e) = Main.status (Main.heap a session)) new.

Definition quiet_st {F W} (session : nat) (st st' : Main.St (F:=F) (W:=W)) : Prop :=
  quiet session (snd st) (snd st').

(** [shaped session n m t a a']: from [a] to [a'] the assignments recorded
    were made to [session], with status [running] in the first [n] of them
    and [t] in the [m] that follow, and [t] is the status of [session] in
    [a']. *)
Definition shaped {F} (session : nat) (n m : nat) (t : Main.Status)
    (a a' : Main.App (F:=F)) : Prop :=
  Main.status (Main.heap a' session) = t
  /\ exists new,
       Main.history a' = Main.history a ++ new
       /\ Forall (fun e => fst e = session) new
       /\ map (fun e => Main.status (snd e)) new
          = repeat Main.StRunning n ++ repeat t m.

(** The relation [R] on the locals of a state with locals. *)
Definition on_snd {S T} (R : T -> T -> Prop) (a b : S * T) : Prop :=
  R (snd a) (snd b).

(** An entry of a dict of strings whose key and value are trimmed. *)
Definition trimmed_item (item : str * str) : Prop :=
  strip (fst item) = fst item /\ strip (snd item) = snd item.

(** A dict of trimmed strings with no key twice. *)
Definition hours_ok (h : list (str * str)) : Prop :=
  List.NoDup (map fst h) /\ List.Forall trimmed_item h.

(** [clean s]: [s] neither begins nor ends with a whitespace character. *)
Definition clean (s : str) : Prop :=
  (forall c r, s = c :: r -> isspace c = false)
  /\ (forall r c, s = r ++ [c] -> isspace c = false).

(** [trims t s]: [s] is [t] without the whitespace at its two ends. *)
Definition trims (t s : str) : Prop :=
  clean s
  /\ exists l r,
       t = l ++ s ++ r
       /\ List.Forall (fun c => isspace c = true) l
       /\ List.Forall (fun c => isspace c = true) r.

(** [free_of sep s]: [sep] occurs nowhere in [s]. *)
Definition free_of (sep s : str) : Prop :=
  forall a b, s <> a ++ sep ++ b.

(** What the two cells of a table row give when read in state [w]: the
    texts of its [th] and of its [td], or nothing when one of the four
    reads raises; with the state after the last read made. *)
Definition read_row {W E} (d : Driver W E) (row : E) (w : W)
    : option (str * str) * W :=
  match el_find_element d row (lit "th") w with
  | (Raise _, w1) => (None, w1)
  | (Ok th, w1) =>
      match el_text d th w1 with
      | (Raise _, w2) => (None, w2)
      | (Ok day_text, w2) =>
          match el_find_element d row (lit "td") w2 with
          | (Raise _, w3) => (None, w3)
          | (Ok td, w3) =>
              match el_text d td w3 with
              | (Raise _, w4) => (None, w4)
              | (Ok time_text, w4) => (Some (day_text, time_text), w4)
              end
          end
      end
  end.

(** [hours_rows d rows h w h' w']: going through [rows] from the dict [h]
    and the state [w] ends with the dict [h'] and the state [w'].  A row
    that can be read sets the day, which is the text of its [th] without
    the whitespace at its two ends, to the text of its [td] without the
    whitespace at its two ends; a row that cannot be read is passed
    over. *)
Inductive hours_rows {W E} (d : Driver W E)
    : list E -> list (str * str) -> W -> list (str * str) -> W -> Prop :=
| rows_done h w : hours_rows d [] h w h w
| rows_read row rows h w day_text time_text day time_range w1 h' w' :
    read_row d row w = (Some (day_text, time_text), w1) ->
    trims day_text day ->
    trims time_text time_range ->
    hours_rows d rows (dict_set day time_range h) w1 h' w' ->
    hours_rows d (row :: rows) h w h' w'
| rows_skipped row rows h w w1 h' w' :
    read_row d row w = (None, w1) ->
    hours_rows d rows h w1 h' w' ->
    hours_rows d (row :: rows) h w h' w'.

(** The ticks [(first, mx)], [(first + 1, mx)], ..., [count] of them. *)
Definition ticks_from (mx : Z) (first count : nat) : list (Z * Z) :=
  map (fun i => (Z.of_nat i, mx)) (seq first count).

(** [steady session a a']: from [a] to [a'] nothing changed but the object
    of [session], and in it neither the identifier nor the query. *)
Definition steady {F} (session : nat) (a a' : Main.App (F:=F)) : Prop :=
  Main.next_ref a' = Main.next_ref a
  /\ Main.scraping_sessions a' = Main.scraping_sessions a
  /\ Main.background_tasks a' = Main.background_tasks a
  /\ (forall r, r <> session -> Main.heap a' r = Main.heap a r)
  /\ Main.session_id (Main.heap a' session) = Main.session_id (Main.heap a session)
  /\ Main.keywords (Main.heap a' session) = Main.keywords (Main.heap a session)
  /\ Main.location (Main.heap a' session) = Main.location (Main.heap a session)
  /\ Main.max_results (Main.heap a' session) = Main.max_results (Main.heap a session).

(** [untouched session a a']: [steady], and the status, the records, the
    error message and the timestamps of [session] are the same. *)
Definition untouched {F} (session : nat) (a a' : Main.App (F:=F)) : Prop :=
  steady session a a'
  /\ Main.status (Main.heap a' session) = Main.status (Main.heap a session)
  /\ Main.results (Main.heap a' session) = Main.results (Main.heap a session)
  /\ Main.error_message (Main.heap a' session) = Main.error_message (Main.heap a session)
  /\ Main.start_time (Main.heap a' session) = Main.start_time (Main.heap a session)
  /\ Main.end_time (Main.heap a' session) = Main.end_time (Main.heap a session).

(** What the task has done to the session when it returns, [a] being the
    state before and [a'] the state after. *)
Definition outcome {F} (exn_str : exn -> str) (session : nat)
    (a a' : Main.App (F:=F)) : Prop :=
  let s := Main.heap a session in
  let s' := Main.heap a' session in
  steady session a a'
  /\ is_Some (Main.start_time s')
  /\ is_Some (Main.end_time s')
  /\ ((Main.status s' = Main.StCompleted
       /\ Main.error_message s' = Main.error_message s
       /\ (0 <= Main.max_results s -> len (Main.results s') <= Main.max_results s))
      \/ (Main.status s' = Main.StError
          /\ Main.results s' = Main.results s
          /\ exists e, Main.error_message s' = Some (exn_str e))).


(** A list of counts that never go down. *)
Definition nondecreasing (l : list Z) : Prop :=
  forall i j x y, (i <= j)%nat ->
    nth_error l i = Some x -> nth_error l j = Some y -> x <= y.

(** [counted session mx a0 a c]: in [a] the session has counted [c] of
    [mx]; every object assigned since [a0] is the session's, with total
    [mx] and a count between 0 and [c], and the counts never decrease. *)
Definition counted {F} (session : nat) (mx : Z) (a0 a : Main.App (F:=F)) (c : Z) : Prop :=
  0 <= c <= mx
  /\ Main.max_results (Main.heap a session) = mx
  /\ Main.total (Main.heap a session) = mx
  /\ Main.completed (Main.heap a session) = c
  /\ exists new,
       Main.history a = Main.history a0 ++ new
       /\ List.Forall (fun e => fst e = session /\ Main.total (snd e) = mx
                                /\ 0 <= Main.completed (snd e) <= c) new
       /\ nondecreasing (map (fun e => Main.completed (snd e)) new).


(** [registered_below a]: the registry of [a] refers to objects that were
    made, so that the next object made is none of them. *)
Definition registered_below {F} (a : Main.App (F:=F)) : Prop :=
  forall sid r, Main.scraping_sessions a !! sid = Some r -> (r < Main.next_ref a)%nat.

(** [entry] is the insertion of [business] for [session_id]: eleven
    parameters, the identifier first, then the name of the record or the
    empty string, a float for the rating and an integer for the count. *)
Definition inserts_business {F} (session_id : str) (business : dict F)
    (entry : statement * list (pyval F)) : Prop :=
  fst entry = INSERT_business
  /\ length (snd entry) = 11%nat
  /\ nth_error (snd entry) 0 = Some (PStr session_id)
  /\ nth_error (snd entry) 1
     = Some (to_py (match dict_get (lit "name") business with
                    | Some v => v
                    | None => VStr []
                    end))
  /\ (exists rating, nth_error (snd entry) 5 = Some (PFloat rating))
  /\ (exists reviews_count, nth_error (snd entry) 6 = Some (PInt reviews_count)).

(** What [get_businesses] makes of a row: the three keys it adds are
    there, and the coordinates are the latitude and the longitude of the
    row when both are truthy and the empty dict otherwise. *)
Definition read_back {F} (nonzero : F -> bool) (business : list (str * pyval F)) : Prop :=
  is_Some (dict_get (lit "categories") business)
  /\ is_Some (dict_get (lit "hours") business)
  /\ exists latitude,
       dict_get (lit "latitude") business = Some latitude
       /\ ((truthy nonzero latitude = false
            /\ dict_get (lit "coordinates") business = Some (PDict []))
           \/ (exists longitude,
                 dict_get (lit "longitude") business = Some longitude
                 /\ dict_get (lit "coordinates") business
                    = Some (if truthy nonzero latitude && truthy nonzero longitude
                            then PDict [(lit "latitude", latitude);
                                        (lit "longitude", longitude)]
                            else PDict []))).

(** * Properties *)

(** Running the monad's combinators, leaving everything else folded. *)
Ltac run :=
  cbv beta iota zeta
    delta [bind ret raise try_except try_finally gets modify lift
           with_locals locals set_locals fst snd].

Ltac run_in H :=
  cbv beta iota zeta
    delta [bind ret raise try_except try_finally gets modify lift
           with_locals locals set_locals fst snd] in H.

(** ** Strings *)

Section StringFacts.

Lemma split_go_nonempty sep k cur s : split_go sep k cur s <> [].
Proof.
  revert k cur. induction s as [|c s IH]; intros k cur; simpl.
  - discriminate.
  - destruct k as [|k]; [|apply IH].
    destruct (startswith sep (c :: s)); [discriminate | apply IH].
Qed.

Lemma split_nonempty s sep : split s sep <> [].
Proof. apply split_go_nonempty. Qed.

Lemma join_cons sep x l : l <> [] -> join sep (x :: l) = x ++ sep ++ join sep l.
Proof. destruct l; [congruence | reflexivity]. Qed.

Lemma startswith_app p s : startswith p s = true -> exists r, s = p ++ r.
Proof.
  revert s. induction p as [|a p IH]; intros s H; simpl in H.
  - exists s. reflexivity.
  - destruct s as [|b s]; [discriminate|].
    apply andb_true_iff in H as [Hab Hp]. apply N.eqb_eq in Hab. subst b.
    destruct (IH _ Hp) as [r ->]. exists r. reflexivity.
Qed.

(** Joining the segments with the separator gives the text back. *)
Lemma join_split_go sep k cur s :
  sep <> [] -> join sep (split_go sep k cur s) = rev cur ++ skipn k s.
Proof.
  intros Hsep. revert k cur.
  induction s as [|c s IH]; intros k cur.
  - simpl. destruct k; simpl; rewrite app_nil_r; reflexivity.
  - destruct k as [|k].
    + cbn [split_go]. destruct (startswith sep (c :: s)) eqn:Hp.
      * rewrite join_cons by apply split_go_nonempty.
        rewrite IH. simpl rev. simpl app at 2.
        destruct (startswith_app _ _ Hp) as [r Hr].
        destruct sep as [|a sep]; [congruence|].
        simpl in Hr. injection Hr as -> ->.
        replace (length (a :: sep) - 1)%nat with (length sep) by (simpl; lia).
        rewrite skipn_app, skipn_all, Nat.sub_diag. reflexivity.
      * rewrite IH. simpl. rewrite <- app_assoc. reflexivity.
    + cbn [split_go]. rewrite IH. reflexivity.
Qed.

Lemma join_split s sep : sep <> [] -> join sep (split s sep) = s.
Proof. intros H. unfold split. rewrite join_split_go by exact H. reflexivity. Qed.

(** With a one-character separator the text has a second segment exactly
    when the character occurs in it. *)
Lemma startswith_single c s :
  startswith [c] s = match s with [] => false | b :: _ => (c =? b)%N end.
Proof. destruct s; simpl; [reflexivity | apply andb_true_r]. Qed.

Lemma split_go_single_length c cur s :
  (1 < length (split_go [c] 0 cur s))%nat <-> contains [c] s = true.
Proof.
  revert cur. induction s as [|b s IH]; intros cur.
  - simpl. split; [lia | discriminate].
  - cbn [split_go contains]. rewrite startswith_single.
    destruct (c =? b)%N.
    + simpl. pose proof (split_go_nonempty [c] 0 [] s).
      destruct (split_go [c] 0 [] s); [congruence|]. simpl. split; [reflexivity | lia].
    + simpl orb. apply IH.
Qed.

Lemma contains_split c s :
  contains [c] s = true <-> exists a b r, split s [c] = a :: b :: r.
Proof.
  rewrite <- (split_go_single_length c [] s). unfold split.
  destruct (split_go [c] 0 [] s) as [|a [|b r]]; simpl.
  - split; [lia | intros (? & ? & ? & ?); discriminate].
  - split; [lia | intros (? & ? & ? & ?); discriminate].
  - split; [eauto | lia].
Qed.

(** Trimming. *)
Lemma lstrip_idem s : lstrip (lstrip s) = lstrip s.
Proof.
  induction s as [|c s IH]; simpl; [reflexivity|].
  destruct (isspace c) eqn:Hc; [exact IH|]. simpl. rewrite Hc. reflexivity.
Qed.

Lemma lstrip_snoc u c : isspace c = false -> lstrip (u ++ [c]) = lstrip u ++ [c].
Proof.
  intros Hc. induction u as [|b u IH]; simpl.
  - rewrite Hc. reflexivity.
  - destruct (isspace b); [exact IH | reflexivity].
Qed.

Lemma lstrip_head s :
  lstrip s = [] \/ exists c t, lstrip s = c :: t /\ isspace c = false.
Proof.
  induction s as [|c s IH]; simpl; [left; reflexivity|].
  destruct (isspace c) eqn:Hc; [exact IH|]. right. eauto.
Qed.

Lemma lstrip_strip s : lstrip (strip s) = strip s.
Proof.
  unfold strip, rstrip.
  destruct (lstrip_head s) as [-> | (c & t & -> & Hc)]; [reflexivity|].
  simpl rev. rewrite lstrip_snoc by exact Hc.
  rewrite rev_app_distr. simpl. rewrite Hc. reflexivity.
Qed.

Lemma strip_idem s : strip (strip s) = strip s.
Proof.
  unfold strip at 1. rewrite lstrip_strip.
  unfold strip, rstrip. rewrite rev_involutive, lstrip_idem. reflexivity.
Qed.

Lemma split_ws_go_head cur s :
  cur <> [] -> hd_error (split_ws_go cur s) = Some (rev cur ++ take_nonspace s).
Proof.
  revert cur. induction s as [|c s IH]; intros cur Hcur; simpl.
  - destruct cur; [congruence|]. simpl. rewrite app_nil_r. reflexivity.
  - destruct (isspace c).
    + destruct cur; [congruence|]. simpl. rewrite app_nil_r. reflexivity.
    + rewrite IH by discriminate. simpl. rewrite <- app_assoc. reflexivity.
Qed.

Lemma split_ws_head s : hd_error (split_ws s) = first_token s.
Proof.
  unfold split_ws, first_token.
  induction s as [|c s IH]; simpl; [reflexivity|].
  destruct (isspace c) eqn:Hc; [exact IH|].
  rewrite split_ws_go_head by discriminate. simpl. rewrite Hc. reflexivity.
Qed.

(** [strip] against whitespace itself: what it returns is the text without
    the whitespace at its two ends. *)
Lemma lstrip_spaces s :
  exists l, s = l ++ lstrip s /\ List.Forall (fun c => isspace c = true) l.
Proof.
  induction s as [|c s (l & Hl & Hall)]; [exists []; split; [reflexivity|constructor]|].
  cbn [lstrip]. destruct (isspace c) eqn:Hc.
  - exists (c :: l). split; [cbn; congruence|]. constructor; assumption.
  - exists []. split; [reflexivity|constructor].
Qed.

Lemma rstrip_spaces s :
  exists r, s = rstrip s ++ r /\ List.Forall (fun c => isspace c = true) r.
Proof.
  destruct (lstrip_spaces (rev s)) as (l & Hl & Hall).
  exists (rev l). split.
  - unfold rstrip. rewrite <- rev_app_distr, <- Hl, rev_involutive. reflexivity.
  - apply List.Forall_rev. exact Hall.
Qed.

Lemma rstrip_last s r c : rstrip s = r ++ [c] -> isspace c = false.
Proof.
  unfold rstrip. intros H.
  assert (H' : lstrip (rev s) = c :: rev r).
  { rewrite <- (rev_involutive (lstrip (rev s))), H, rev_app_distr. reflexivity. }
  destruct (lstrip_head (rev s)) as [E | (c' & t & E & Hc)]; congruence.
Qed.

Lemma strip_trims t : trims t (strip t).
Proof.
  unfold strip.
  destruct (lstrip_spaces t) as (l & Hl & Hall).
  destruct (rstrip_spaces (lstrip t)) as (r & Hr & Hallr).
  split; [split|].
  - intros c u Hc.
    destruct (lstrip_head t) as [E | (c' & t' & E & Hc')].
    + rewrite E in Hc. discriminate Hc.
    + rewrite Hc, E in Hr. cbn in Hr. congruence.
  - intros u c. apply rstrip_last.
  - exists l, r. split; [|split; assumption]. rewrite <- Hr. exact Hl.
Qed.

(** [split] against occurrences of the separator: no segment holds one. *)
Lemma startswith_prefix p r : startswith p (p ++ r) = true.
Proof.
  induction p as [|a p IH]; [destruct r; reflexivity|].
  cbn. rewrite N.eqb_refl. exact IH.
Qed.

Lemma split_go_free sep k cur s :
  sep <> [] ->
  (forall a b, rev cur ++ skipn k s = a ++ sep ++ b -> (length cur <= length a)%nat) ->
  List.Forall (free_of sep) (split_go sep k cur s).
Proof.
  intros Hsep. revert k cur.
  assert (Hend : forall cur : str,
            (forall a b, rev cur = a ++ sep ++ b -> (length cur <= length a)%nat) ->
            free_of sep (rev cur)).
  { intros cur H a b E. specialize (H a b E).
    apply (f_equal (@length _)) in E.
    rewrite length_rev in E. rewrite !length_app in E.
    destruct sep; [congruence|]. cbn in E. lia. }
  induction s as [|c s IH]; intros k cur Hinv.
  - cbn [split_go]. constructor; [|constructor]. apply Hend.
    intros a b E. apply (Hinv a b). rewrite skipn_nil, app_nil_r. exact E.
  - cbn [split_go]. destruct k as [|k].
    + destruct (startswith sep (c :: s)) eqn:Hst.
      * constructor.
        -- apply Hend. intros a b E. apply (Hinv a (b ++ c :: s)).
           cbn [skipn]. rewrite E, <- !app_assoc. reflexivity.
        -- apply IH. intros a b _. cbn. lia.
      * apply IH. intros a b E. change (skipn 0 s) with s in E.
        cbn [rev] in E. rewrite <- app_assoc in E. cbn [app] in E.
        specialize (Hinv a b E). cbn [length].
        destruct (Nat.eq_dec (length cur) (length a)) as [Heq|Hne]; [|lia].
        exfalso. rewrite <- length_rev in Heq.
        destruct (app_inj_1 _ _ _ _ Heq E) as [_ E2].
        rewrite E2, startswith_prefix in Hst. discriminate Hst.
    + apply IH. intros a b E. apply (Hinv a b). exact E.
Qed.

Lemma split_free s sep : sep <> [] -> List.Forall (free_of sep) (split s sep).
Proof.
  intros H. apply split_go_free; [exact H|]. intros a b _. cbn. lia.
Qed.

(** For a separator of two different characters, the segments of a text
    are determined by the text: two lists of segments free of the
    separator that join to the same text are the same list. *)
Lemma first_segment (x y : char) (a b r1 r2 : str) :
  x <> y -> free_of [x; y] a -> free_of [x; y] b ->
  a ++ [x; y] ++ r1 = b ++ [x; y] ++ r2 -> a = b.
Proof.
  intros Hxy Fa Fb E.
  apply List.app_eq_app in E as [u [[Ha Hr]|[Hb Hr]]].
  - destruct u as [|u0 u]; [rewrite app_nil_r in Ha; exact Ha|].
    exfalso. cbn in Hr. injection Hr as <- Hr.
    destruct u as [|u1 u]; cbn in Hr; injection Hr as Hy Hr; [congruence|].
    subst u1. apply (Fa b u). exact Ha.
  - destruct u as [|u0 u]; [rewrite app_nil_r in Hb; symmetry; exact Hb|].
    exfalso. cbn in Hr. injection Hr as <- Hr.
    destruct u as [|u1 u]; cbn in Hr; injection Hr as Hy Hr; [congruence|].
    subst u1. apply (Fb a u). exact Hb.
Qed.

Lemma join_free_unique (x y : char) (l1 l2 : list str) :
  x <> y -> l1 <> [] -> l2 <> [] ->
  List.Forall (free_of [x; y]) l1 -> List.Forall (free_of [x; y]) l2 ->
  join [x; y] l1 = join [x; y] l2 -> l1 = l2.
Proof.
  intros Hxy. revert l2.
  induction l1 as [|a l1 IH]; intros l2 H1 H2 F1 F2 E; [congruence|].
  destruct l2 as [|b l2]; [congruence|].
  apply List.Forall_cons_iff in F1 as [Fa F1].
  apply List.Forall_cons_iff in F2 as [Fb F2].
  destruct l1 as [|a' l1], l2 as [|b' l2].
  - cbn in E. congruence.
  - exfalso. rewrite (join_cons _ b) in E by discriminate.
    cbn [join] in E. exact (Fa _ _ E).
  - exfalso. rewrite (join_cons _ a) in E by discriminate.
    cbn [join] in E. symmetry in E. exact (Fb _ _ E).
  - rewrite (join_cons _ a), (join_cons _ b) in E by discriminate.
    assert (a = b) as -> by (eapply first_segment; eassumption).
    apply app_inv_head in E. apply app_inv_head in E.
    f_equal. apply IH; try discriminate; assumption.
Qed.

End StringFacts.


(** ** Normalisation helpers *)

Section Parsing.
Context {F : Type} (zero : F) (py_float : str -> option F).

Lemma index_0 {S A} (l : list A) (s : S) :
  index l 0 s = match l with x :: _ => (Ok x, s) | [] => (Raise IndexError, s) end.
Proof. destruct l; reflexivity. Qed.

Lemma index_1 {S A} (l : list A) (s : S) :
  index l 1 s =
  match l with _ :: x :: _ => (Ok x, s) | _ => (Raise IndexError, s) end.
Proof. destruct l as [|? [|? ?]]; reflexivity. Qed.

Lemma parse_rating_eq {S} (rating_str : str) (s : S) :
  Utils.parse_rating zero py_float rating_str s =
  (Ok match first_token rating_str with
      | Some tok => match py_float tok with Some x => x | None => zero end
      | None => zero
      end, s).
Proof.
  unfold Utils.parse_rating, try_except, bind. rewrite index_0.
  rewrite <- split_ws_head.
  destruct (split_ws rating_str) as [|tok l]; simpl; [reflexivity|].
  unfold float. destruct (py_float tok); reflexivity.
Qed.

(** C5: the rating parser never raises: it returns the numeric reading of
    the first whitespace-delimited token of the text, and [0.0] when the
    text has no token or the token does not read as a number; the empty
    text gives [0.0] and ["4.5 stars"] gives the reading of ["4.5"].  Both
    copies of the function, in [utils.py] and in [database.py], agree. *)
Theorem parse_rating_total {S} (rating_str : str) (s : S) :
  let v := match first_token rating_str with
           | Some tok => match py_float tok with Some x => x | None => zero end
           | None => zero
           end in
  Utils.parse_rating zero py_float rating_str s = (Ok v, s)
  /\ DatabaseManager._parse_rating zero py_float rating_str s = (Ok v, s)
  /\ Utils.parse_rating zero py_float [] s = (Ok zero, s)
  /\ Utils.parse_rating zero py_float (lit "4.5 stars") s =
     (Ok match py_float (lit "4.5") with Some x => x | None => zero end, s).
Proof.
  cbv zeta. split; [|split; [|split]].
  - apply parse_rating_eq.
  - apply (parse_rating_eq rating_str s).
  - reflexivity.
  - rewrite parse_rating_eq. reflexivity.
Qed.

End Parsing.

(** With the decimal reader: ["4.5 stars"] is 9/2, a text with no number
    is 0. *)
Example parse_rating_examples :
  fst (Utils.parse_rating 0%Q Sim.py_float (lit "4.5 stars") tt) = Ok (9 # 2)%Q
  /\ fst (Utils.parse_rating 0%Q Sim.py_float (lit "No reviews") tt) = Ok 0%Q
  /\ fst (DatabaseManager._parse_rating 0%Q Sim.py_float (lit "  ") tt) = Ok 0%Q.
Proof. repeat split; reflexivity. Qed.

(** ** Defensive reads of the detail panel *)

Section Fields.
Context {F : Type} (py_float : str -> option F).
Context {W E : Type} (d : Driver W E).

(** C6, as the code has it: neither reader propagates an error, and a
    find or a read that raises gives the empty string, whatever the
    exception.  The text of an element that is found and read comes back
    without the whitespace at its two ends.  The attribute comes back as
    [get_attribute] gives it, and for an element that has not got the
    attribute this is [None]: the reader then returns [None] and not a
    string. *)
Theorem safe_extract_never_raises (selector attribute : str) (w : W) :
  GoogleMapsScraper._safe_extract_text d selector w =
    match drv_find_element d selector w with
    | (Ok element, w1) =>
        match el_text d element w1 with
        | (Ok t, w2) => (Ok (strip t), w2)
        | (Raise _, w2) => (Ok [], w2)
        end
    | (Raise _, w1) => (Ok [], w1)
    end
  /\ (forall element w1 t w2,
        drv_find_element d selector w = (Ok element, w1) ->
        el_text d element w1 = (Ok t, w2) ->
        exists v,
          GoogleMapsScraper._safe_extract_text d selector w = (Ok v, w2)
          /\ trims t v)
  /\ GoogleMapsScraper._safe_extract_attribute d selector attribute w =
    match drv_find_element d selector w with
    | (Ok element, w1) =>
        match el_get_attribute d element attribute w1 with
        | (Ok v, w2) => (Ok v, w2)
        | (Raise _, w2) => (Ok (Some []), w2)
        end
    | (Raise _, w1) => (Ok (Some []), w1)
    end
  /\ (forall element w1 w2,
        drv_find_element d selector w = (Ok element, w1) ->
        el_get_attribute d element attribute w1 = (Ok None, w2) ->
        GoogleMapsScraper._safe_extract_attribute d selector attribute w
        = (Ok None, w2))
  /\ (exists v w', GoogleMapsScraper._safe_extract_text d selector w = (Ok v, w'))
  /\ (exists v w',
        GoogleMapsScraper._safe_extract_attribute d selector attribute w = (Ok v, w')).
Proof.
  unfold GoogleMapsScraper._safe_extract_text,
    GoogleMapsScraper._safe_extract_attribute, try_except, bind, ret.
  split; [|split; [|split; [|split; [|split]]]].
  - destruct (drv_find_element d selector w) as [[element|e] w1]; [|reflexivity].
    destruct (el_text d element w1) as [[t|e] w2]; reflexivity.
  - intros element w1 t w2 -> ->. exists (strip t).
    split; [reflexivity | apply strip_trims].
  - destruct (drv_find_element d selector w) as [[element|e] w1]; [|reflexivity].
    destruct (el_get_attribute d element attribute w1) as [[v|e] w2]; reflexivity.
  - intros element w1 w2 -> ->. reflexivity.
  - destruct (drv_find_element d selector w) as [[element|e] w1]; [|eauto].
    destruct (el_text d element w1) as [[t|e] w2]; eauto.
  - destruct (drv_find_element d selector w) as [[element|e] w1]; [|eauto].
    destruct (el_get_attribute d element attribute w1) as [[v|e] w2]; eauto.
Qed.

Lemma extract_categories_eq (w : W) :
  GoogleMapsScraper._extract_categories d w =
  match drv_find_element d (lit "button[jsaction='pane.rating.category']") w with
  | (Ok element, w1) =>
      match el_text d element w1 with
      | (Ok t, w2) =>
          (Ok (map strip (split t GoogleMapsScraper.category_separator)), w2)
      | (Raise _, w2) => (Ok [], w2)
      end
  | (Raise _, w1) => (Ok [], w1)
  end.
Proof.
  unfold GoogleMapsScraper._extract_categories, try_except, bind, ret.
  destruct (drv_find_element d _ w) as [[element|e] w1]; [|reflexivity].
  destruct (el_text d element w1) as [[t|e] w2]; reflexivity.
Qed.

(** C1, as the code has it: the category parser splits the text of the
    category button on the separator literal of the source and trims every
    segment, and it keeps empty segments.  The segments joined with the
    separator give the text back and none of them holds the separator,
    which determines them; every category is its segment without the
    whitespace at its two ends.  So there is one segment more than there
    are separators and the result is never the empty list; for the empty
    text it is the list of one empty string.  Only an unreadable button
    gives the empty list. *)
Theorem extract_categories_keeps_segments (w : W) :
  GoogleMapsScraper._extract_categories d w =
    match drv_find_element d (lit "button[jsaction='pane.rating.category']") w with
    | (Ok element, w1) =>
        match el_text d element w1 with
        | (Ok t, w2) =>
            (Ok (map strip (split t GoogleMapsScraper.category_separator)), w2)
        | (Raise _, w2) => (Ok [], w2)
        end
    | (Raise _, w1) => (Ok [], w1)
    end
  /\ (forall t : str,
        let segments := split t GoogleMapsScraper.category_separator in
        join GoogleMapsScraper.category_separator segments = t
        /\ map strip segments <> []
        /\ Forall (fun c => strip c = c) (map strip segments))
  /\ map strip (split [] GoogleMapsScraper.category_separator) = [[]]
  /\ (forall element w1 t w2,
        drv_find_element d (lit "button[jsaction='pane.rating.category']") w
        = (Ok element, w1) ->
        el_text d element w1 = (Ok t, w2) ->
        exists segments categories,
          GoogleMapsScraper._extract_categories d w = (Ok categories, w2)
          /\ segments <> []
          /\ join GoogleMapsScraper.category_separator segments = t
          /\ List.Forall (free_of GoogleMapsScraper.category_separator) segments
          /\ List.Forall2 trims segments categories
          /\ (forall segments',
                segments' <> [] ->
                join GoogleMapsScraper.category_separator segments' = t ->
                List.Forall (free_of GoogleMapsScraper.category_separator) segments' ->
                segments' = segments)).
Proof.
  split; [apply extract_categories_eq|]. split; [|split; [reflexivity|]].
  - intros t segments. split; [|split].
    + apply join_split. discriminate.
    + pose proof (split_nonempty t GoogleMapsScraper.category_separator) as H.
      subst segments. destruct (split t _); [congruence | discriminate].
    + apply List.Forall_forall. intros c Hc. apply in_map_iff in Hc as (x & <- & _).
      apply strip_idem.
  - intros element w1 t w2 Hfind Htext.
    rewrite extract_categories_eq, Hfind, Htext.
    exists (split t GoogleMapsScraper.category_separator),
           (map strip (split t GoogleMapsScraper.category_separator)).
    assert (Hsep : GoogleMapsScraper.category_separator <> []) by discriminate.
    split; [reflexivity|]. split; [apply split_nonempty|].
    split; [apply join_split; exact Hsep|].
    split; [apply split_free; exact Hsep|].
    split.
    + induction (split t GoogleMapsScraper.category_separator) as [|x l IH];
        constructor; [apply strip_trims | exact IH].
    + intros segments' Hne Hjoin Hfree.
      apply (join_free_unique 194%N 183%N); try assumption.
      * discriminate.
      * apply split_nonempty.
      * apply split_free. exact Hsep.
      * transitivity t; [exact Hjoin | symmetry; apply join_split; exact Hsep].
Qed.

Lemma extract_coordinates_eq (w : W) :
  GoogleMapsScraper._extract_coordinates py_float d w =
  match drv_current_url d w with
  | (Ok url, w') => (Ok (coords_dict (parseCoordinates py_float url)), w')
  | (Raise _, w') => (Ok [], w')
  end.
Proof.
  unfold GoogleMapsScraper._extract_coordinates, try_except.
  unfold bind at 1. destruct (drv_current_url d w) as [[url|e] w']; [|reflexivity].
  unfold parseCoordinates, with_locals.
  destruct (contains (lit "@") url) eqn:Hat.
  - apply contains_split in Hat as (a & seg & r & Hs).
    change (split url (lit "@") = a :: seg :: r) in Hs. rewrite Hs.
    unfold bind at 1. unfold bind at 1. rewrite index_1. cbv beta iota.
    pose proof (split_nonempty seg (lit ",")) as Hne.
    destruct (split seg (lit ",")) as [|s0 [|s1 rest]]; [congruence| |].
    + unfold slice_to, bind, float, set_locals, modify, index; simpl.
      destruct (py_float s0); reflexivity.
    + unfold slice_to, bind, float, set_locals, modify, index, locals, gets; simpl.
      destruct (py_float s0); [|reflexivity].
      destruct (py_float s1); reflexivity.
  - assert (Hn : forall a b r, split url (lit "@") <> a :: b :: r).
    { intros a b r Hs. assert (contains (lit "@") url = true) as Hc; [|congruence].
      apply (contains_split 64%N). eauto. }
    destruct (split url (lit "@")) as [|a [|b r]]; [reflexivity | reflexivity |].
    exfalso. eapply Hn. reflexivity.
Qed.

(** C4: the coordinate reader never raises.  It returns the pair the
    specification describes (split on [@], second segment, split on [,],
    first two fields read as floats) as the dict of [latitude] and
    [longitude], and the empty dict when the marker is missing, a field is
    not numeric, there are fewer than two fields, or the URL cannot be
    read; a URL ending in [@37.422,-122.084,15z] gives the readings of
    [37.422] and [-122.084]. *)
Theorem extract_coordinates_never_raises (w : W) :
  GoogleMapsScraper._extract_coordinates py_float d w =
    match drv_current_url d w with
    | (Ok url, w') => (Ok (coords_dict (parseCoordinates py_float url)), w')
    | (Raise _, w') => (Ok [], w')
    end
  /\ (forall url, contains (lit "@") url = false ->
        parseCoordinates py_float url = None)
  /\ (forall url seg a r, split url (lit "@") = a :: seg :: r ->
        (exists x, split seg (lit ",") = [x]) \/
        (exists x y l, split seg (lit ",") = x :: y :: l
                       /\ (py_float x = None \/ py_float y = None)) ->
        parseCoordinates py_float url = None)
  /\ parseCoordinates py_float
       (lit "https://www.google.com/maps/place/X/@37.422,-122.084,15z") =
     match py_float (lit "37.422"), py_float (lit "-122.084") with
     | Some lat, Some lng => Some (lat, lng)
     | _, _ => None
     end.
Proof.
  split; [apply extract_coordinates_eq|]. split; [|split; [|reflexivity]].
  - intros url Hat. unfold parseCoordinates.
    destruct (split url (lit "@")) as [|a [|b r]] eqn:Hs; [reflexivity | reflexivity |].
    assert (contains (lit "@") url = true) as Hc; [|congruence].
    apply (contains_split 64%N). eauto.
  - intros url seg a r Hs H. unfold parseCoordinates. rewrite Hs.
    destruct H as [(x & ->) | (x & y & l & -> & H)].
    + reflexivity.
    + destruct H as [-> | ->]; [reflexivity | destruct (py_float x); reflexivity].
Qed.

End Fields.

(** On the simulated site: a panel whose category button is empty gives
    one empty category, not none. *)
(** An anchor without [href]: the reader returns [None], and the record
    of the panel holds [None] as its website. *)
Example safe_extract_attribute_none :
  GoogleMapsScraper._safe_extract_attribute Runs.bare_page
    (lit "a[data-item-id='authority']") (lit "href") tt = (Ok None, tt)
  /\ GoogleMapsScraper._safe_extract_text Runs.bare_page
       (lit "div.fontHeadlineSmall") tt = (Ok (lit "Cafe X"), tt)
  /\ (exists bd,
        fst (GoogleMapsScraper._extract_business_details Sim.py_float
               Runs.bare_page tt) = Ok bd
        /\ dict_get (lit "website") bd = Some VNone
        /\ dict_get (lit "name") bd = Some (VStr (lit "Cafe X"))).
Proof.
  split; [reflexivity|]. split; [reflexivity|].
  eexists. split; [reflexivity|]. split; reflexivity.
Qed.

Lemma extract_categories_empty_text :
  fst (GoogleMapsScraper._extract_categories Sim.driver
         (Sim.world_open (Sim.listing true true (Some [])))) = Ok [[]]
  /\ fst (GoogleMapsScraper._extract_categories Sim.driver
         (Sim.world_open (Sim.listing true true (Some [])))) <> Ok [].
Proof. split; [reflexivity | discriminate]. Qed.

(** The separator literal at work: a text whose categories are separated
    by the middle dot U+00B7 alone comes back as one category, and a text
    separated by the two code points of the literal as three. *)
Example extract_categories_middle_dot :
  fst (GoogleMapsScraper._extract_categories Sim.driver
         (Sim.world_open (Sim.listing true true
            (Some (lit "Cafe " ++ [183%N] ++ lit " Bakery " ++ [183%N]
                   ++ lit " Coffee shop")))))
  = Ok [lit "Cafe " ++ [183%N] ++ lit " Bakery " ++ [183%N] ++ lit " Coffee shop"]
  /\ fst (GoogleMapsScraper._extract_categories Sim.driver
         (Sim.world_open (Sim.listing true true
            (Some (lit "Cafe " ++ [194%N; 183%N] ++ lit " Bakery "
                   ++ [194%N; 183%N] ++ lit " Coffee shop")))))
  = Ok [lit "Cafe"; lit "Bakery"; lit "Coffee shop"].
Proof. split; reflexivity. Qed.

(** The reader on URLs of the simulated site, with the decimal reader. *)
Example parseCoordinates_examples :
  parseCoordinates Sim.py_float
    (lit "https://www.google.com/maps/place/X/@37.422,-122.084,15z")
    = Some ((18711 # 500)%Q, (-30521 # 250)%Q)
  /\ parseCoordinates Sim.py_float (lit "https://www.google.com/maps") = None
  /\ parseCoordinates Sim.py_float (lit "https://maps/@north,east") = None
  /\ parseCoordinates Sim.py_float (lit "https://maps/@37.422") = None
  /\ fst (GoogleMapsScraper._extract_coordinates Sim.py_float Sim.driver
            (Sim.world_open (Sim.listing true true None)))
     = Ok [(lit "latitude", (18711 # 500)%Q); (lit "longitude", (-30521 # 250)%Q)].
Proof. repeat (split; [reflexivity|]). reflexivity. Qed.

(** ** The session API *)

Section Api.
Context {F : Type} {W : Type}.
Context (uuid4 : W -> str * W) (exn_str : exn -> str).
Context (create_csv_file : list (dict F) -> str -> str -> M W str).
Context (json_dump : str -> Main.JsonData (F:=F) -> M W unit).

Abbreviation St := (Main.St (F:=F) (W:=W)).

Lemma lookup_session_eq (sid : str) (st : St) :
  Main.lookup_session sid st =
  match Main.scraping_sessions (snd st) !! sid with
  | None => (Raise (HTTPException 404 (lit "Session not found")), st)
  | Some session => (Ok session, st)
  end.
Proof.
  unfold Main.lookup_session, bind, gets.
  destruct (Main.scraping_sessions (snd st) !! sid); reflexivity.
Qed.

Lemma get_results_eq (sid : str) (st : St) :
  Main.get_results sid st =
  match Main.scraping_sessions (snd st) !! sid with
  | None => (Raise (HTTPException 404 (lit "Session not found")), st)
  | Some session =>
      let s := Main.heap (snd st) session in
      match Main.status s with
      | Main.StCompleted =>
          (Ok {| Main.res_session_id := sid;
                 Main.res_keywords := Main.keywords s;
                 Main.res_location := Main.location s;
                 Main.res_total_results := len (Main.results s);
                 Main.res_results := Main.results s |}, st)
      | _ => (Raise (HTTPException 400 (lit "Scraping not completed yet")), st)
      end
  end.
Proof.
  unfold Main.get_results. unfold bind at 1. rewrite lookup_session_eq.
  destruct (Main.scraping_sessions (snd st) !! sid) as [session|]; [|reflexivity].
  destruct st as [w a]. unfold Main.getattr. run.
  destruct (Main.status (Main.heap a session)); reflexivity.
Qed.

(** C8: [get_results] fails with 404 (not found) for an identifier that
    is not in the registry, fails with 400 (not ready) when the session's
    status is anything but completed, and returns the session's records
    only when the status is completed; it never changes the state. *)
Theorem get_results_outcomes (sid : str) (st : St) :
  Main.get_results sid st =
    match Main.scraping_sessions (snd st) !! sid with
    | None => (Raise (HTTPException 404 (lit "Session not found")), st)
    | Some session =>
        let s := Main.heap (snd st) session in
        match Main.status s with
        | Main.StCompleted =>
            (Ok {| Main.res_session_id := sid;
                   Main.res_keywords := Main.keywords s;
                   Main.res_location := Main.location s;
                   Main.res_total_results := len (Main.results s);
                   Main.res_results := Main.results s |}, st)
        | _ => (Raise (HTTPException 400 (lit "Scraping not completed yet")), st)
        end
    end
  /\ (forall resp st', Main.get_results sid st = (Ok resp, st') ->
        exists session,
          Main.scraping_sessions (snd st) !! sid = Some session
          /\ Main.status (Main.heap (snd st) session) = Main.StCompleted
          /\ Main.res_results resp = Main.results (Main.heap (snd st) session)).
Proof.
  split; [apply get_results_eq|].
  intros resp st' H. rewrite get_results_eq in H.
  destruct (Main.scraping_sessions (snd st) !! sid) as [session|]; [|discriminate].
  exists session. cbv zeta in H.
  destruct (Main.status (Main.heap (snd st) session)); try discriminate.
  injection H as <- <-. auto.
Qed.

Lemma download_csv_eq (sid : str) (st : St) :
  Main.download_csv create_csv_file sid st =
  match Main.scraping_sessions (snd st) !! sid with
  | None => (Raise (HTTPException 404 (lit "Session not found")), st)
  | Some session =>
      let s := Main.heap (snd st) session in
      match Main.status s with
      | Main.StCompleted =>
          match Main.results s with
          | [] => (Raise (HTTPException 400 (lit "No results to download")), st)
          | _ :: _ =>
              match create_csv_file (Main.results s) (Main.keywords s)
                      (Main.location s) (fst st) with
              | (Ok csv_filename, w) =>
                  (Ok {| Main.path := csv_filename;
                         Main.filename :=
                           lit "google_maps_data_" ++ Main.keywords s ++ lit "_"
                             ++ Main.location s ++ lit ".csv";
                         Main.media_type := lit "text/csv" |}, (w, snd st))
              | (Raise e, w) => (Raise e, (w, snd st))
              end
          end
      | _ => (Raise (HTTPException 400 (lit "Scraping not completed yet")), st)
      end
  end.
Proof.
  unfold Main.download_csv. unfold bind at 1. rewrite lookup_session_eq.
  destruct (Main.scraping_sessions (snd st) !! sid) as [session|]; [|reflexivity].
  destruct st as [w a]. unfold Main.getattr. run.
  destruct (Main.status (Main.heap a session)); try reflexivity.
  unfold Main.status_eqb, negb. run.
  destruct (Main.results (Main.heap a session)); [reflexivity|].
  unfold Main.is_empty_list. run.
  destruct (create_csv_file _ _ _ _) as [[?|?] ?]; reflexivity.
Qed.

Lemma download_json_eq (sid : str) (st : St) :
  Main.download_json json_dump sid st =
  match Main.scraping_sessions (snd st) !! sid with
  | None => (Raise (HTTPException 404 (lit "Session not found")), st)
  | Some session =>
      let s := Main.heap (snd st) session in
      match Main.status s with
      | Main.StCompleted =>
          match Main.results s with
          | [] => (Raise (HTTPException 400 (lit "No results to download")), st)
          | _ :: _ =>
              let json_filename := lit "temp/google_maps_data_" ++ sid ++ lit ".json" in
              match json_dump json_filename
                      {| Main.meta_keywords := Main.keywords s;
                         Main.meta_location := Main.location s;
                         Main.meta_total_results := len (Main.results s);
                         Main.meta_scraped_at := Main.end_time s;
                         Main.json_results := Main.results s |} (fst st) with
              | (Ok _, w) =>
                  (Ok {| Main.path := json_filename;
                         Main.filename :=
                           lit "google_maps_data_" ++ Main.keywords s ++ lit "_"
                             ++ Main.location s ++ lit ".json";
                         Main.media_type := lit "application/json" |}, (w, snd st))
              | (Raise e, w) => (Raise e, (w, snd st))
              end
          end
      | _ => (Raise (HTTPException 400 (lit "Scraping not completed yet")), st)
      end
  end.
Proof.
  unfold Main.download_json. unfold bind at 1. rewrite lookup_session_eq.
  destruct (Main.scraping_sessions (snd st) !! sid) as [session|]; [|reflexivity].
  destruct st as [w a]. unfold Main.getattr. run.
  destruct (Main.status (Main.heap a session)); try reflexivity.
  unfold Main.status_eqb, negb. run.
  destruct (Main.results (Main.heap a session)); [reflexivity|].
  unfold Main.is_empty_list. run.
  destruct (json_dump _ _ _) as [[?|?] ?]; reflexivity.
Qed.

(** C10: for a session that is completed with no record, both downloads
    fail with the error "No results to download" while [get_results]
    succeeds on it with the empty list; and a download that succeeds was
    made on a completed session holding at least one record. *)
Theorem downloads_need_a_record (sid : str) (st : St) (session : nat)
    (Hreg : Main.scraping_sessions (snd st) !! sid = Some session)
    (Hdone : Main.status (Main.heap (snd st) session) = Main.StCompleted)
    (Hnone : Main.results (Main.heap (snd st) session) = []) :
  Main.download_csv create_csv_file sid st =
    (Raise (HTTPException 400 (lit "No results to download")), st)
  /\ Main.download_json json_dump sid st =
    (Raise (HTTPException 400 (lit "No results to download")), st)
  /\ (exists resp, Main.get_results sid st = (Ok resp, st)
                   /\ Main.res_results resp = []
                   /\ Main.res_total_results resp = 0)
  /\ (forall sid' (st0 st' : St) resp,
        Main.download_csv create_csv_file sid' st0 = (Ok resp, st')
        \/ Main.download_json json_dump sid' st0 = (Ok resp, st') ->
        exists session',
          Main.scraping_sessions (snd st0) !! sid' = Some session'
          /\ Main.status (Main.heap (snd st0) session') = Main.StCompleted
          /\ Main.results (Main.heap (snd st0) session') <> []).
Proof.
  split; [|split; [|split]].
  - rewrite download_csv_eq, Hreg. cbv zeta. rewrite Hdone, Hnone. reflexivity.
  - rewrite download_json_eq, Hreg. cbv zeta. rewrite Hdone, Hnone. reflexivity.
  - pose proof (get_results_eq sid st) as Heq.
    rewrite Hreg in Heq. cbv zeta in Heq. rewrite Hdone, Hnone in Heq.
    eexists. split; [exact Heq|]. split; reflexivity.
  - intros sid' st0 st' resp H.
    rewrite download_csv_eq, download_json_eq in H.
    destruct (Main.scraping_sessions (snd st0) !! sid') as [session'|];
      [|destruct H; discriminate].
    exists session'. cbv zeta in H.
    destruct (Main.status (Main.heap (snd st0) session'));
      try (destruct H; discriminate).
    destruct (Main.results (Main.heap (snd st0) session'));
      [destruct H; discriminate|].
    split; [reflexivity|]. split; [reflexivity | discriminate].
Qed.

(** C7, as the code has it: a request with empty keywords or location or
    with a cap outside 1..500 stores no session and queues no task, but
    the error [start_scraping] answers with is the status 500 wrapping the
    text of the 400 it raised for the validation; a valid request makes a
    session in state idle, registers it, queues (does not run) its task
    and returns the identifier. *)
Theorem start_scraping_outcomes (request : Main.ScrapeRequest) (st : St) :
  Main.start_scraping uuid4 exn_str request st =
    if Main.is_empty (Main.req_keywords request)
       || Main.is_empty (Main.req_location request)
    then (Raise (HTTPException 500
            (exn_str (HTTPException 400 (lit "Keywords and location are required")))),
          st)
    else if (Main.req_max_results request <=? 0)
            || (Main.req_max_results request >? 500)
    then (Raise (HTTPException 500
            (exn_str (HTTPException 400 (lit "Max results must be between 1 and 500")))),
          st)
    else
      (Ok (fst (uuid4 (fst st)), lit "started"),
       Main.created request (fst (uuid4 (fst st))) (snd (uuid4 (fst st))) (snd st)).
Proof.
  unfold Main.start_scraping, try_except, bind.
  destruct (Main.is_empty (Main.req_keywords request)
            || Main.is_empty (Main.req_location request)); [reflexivity|].
  simpl.
  destruct ((Main.req_max_results request <=? 0)
            || (Main.req_max_results request >? 500)); [reflexivity|].
  simpl. unfold Main.new_uuid. destruct st as [w a]; simpl.
  destruct (uuid4 w) as [sid w']. reflexivity.
Qed.

End Api.

(** ** What a computation may do to the state

    For a preorder [R], [keeps R] passes through all combinators, so it
    holds of a whole function as soon as it holds of the driver operations
    and the callback the function calls. *)

Section Keeps.
Context {S : Type} (R : S -> S -> Prop) `{!PreOrder R}.

Lemma keeps_ret {A} (a : A) : keeps R (ret a).
Proof. intros s. simpl. reflexivity. Qed.

Lemma keeps_raise {A} (e : exn) : keeps R (raise (A:=A) e).
Proof. intros s. simpl. reflexivity. Qed.

Lemma keeps_gets {A} (f : S -> A) : keeps R (gets f).
Proof. intros s. simpl. reflexivity. Qed.

Lemma keeps_index {A} (l : list A) (i : nat) : keeps R (index l i).
Proof. unfold index. destruct (nth_error l i); [apply keeps_ret | apply keeps_raise]. Qed.

Lemma keeps_bind {A B} (m : M S A) (k : A -> M S B) :
  keeps R m -> (forall a, keeps R (k a)) -> keeps R (bind m k).
Proof.
  intros Hm Hk s. unfold bind. specialize (Hm s).
  destruct (m s) as [[a|e] s1]; simpl in *; [|exact Hm].
  etransitivity; [exact Hm | apply Hk].
Qed.

Lemma keeps_try_except {A} (m : M S A) (h : exn -> M S A) :
  keeps R m -> (forall e, keeps R (h e)) -> keeps R (try_except m h).
Proof.
  intros Hm Hh s. unfold try_except. specialize (Hm s).
  destruct (m s) as [[a|e] s1]; simpl in *; [exact Hm|].
  etransitivity; [exact Hm | apply Hh].
Qed.

Lemma keeps_try_finally {A} (m : M S A) (f : M S unit) :
  keeps R m -> keeps R f -> keeps R (try_finally m f).
Proof.
  intros Hm Hf s. unfold try_finally. specialize (Hm s).
  destruct (m s) as [r s1]. specialize (Hf s1).
  destruct (f s1) as [[[]|e] s2]; simpl in *; etransitivity; eassumption.
Qed.

Lemma keeps_for_in {A} (xs : list A) (body : A -> M S ctl) :
  (forall x, keeps R (body x)) -> keeps R (for_in xs body).
Proof.
  intros Hb. induction xs as [|x xs IH]; simpl; [apply keeps_ret|].
  apply keeps_bind; [apply Hb|]. intros [|]; [exact IH | apply keeps_ret].
Qed.

End Keeps.

#[local] Instance on_fst_preorder {S T} (R : S -> S -> Prop) `{!PreOrder R} :
  PreOrder (on_fst (T:=T) R).
Proof.
  split.
  - intros a. unfold on_fst. reflexivity.
  - intros a b c Hab Hbc. unfold on_fst in *. etransitivity; eassumption.
Qed.

Section KeepsLocals.
Context {S T : Type} (R : S -> S -> Prop) `{!PreOrder R}.

Lemma keeps_lift {A} (m : M S A) : keeps R m -> keeps (on_fst (T:=T) R) (lift m).
Proof.
  intros Hm [s t]. unfold lift, on_fst. simpl. specialize (Hm s).
  destruct (m s) as [r s1]. exact Hm.
Qed.

Lemma keeps_with_locals {A} (t0 : T) (m : M (S * T) A) :
  keeps (on_fst R) m -> keeps R (with_locals t0 m).
Proof.
  intros Hm s. unfold with_locals. specialize (Hm (s, t0)). unfold on_fst in Hm.
  destruct (m (s, t0)) as [r st]. exact Hm.
Qed.

Lemma keeps_locals {A} (f : T -> A) : keeps (on_fst (T:=T) R) (locals f).
Proof. intros st. unfold on_fst. simpl. reflexivity. Qed.

Lemma keeps_set_locals (f : T -> T) : keeps (on_fst (T:=T) R) (set_locals f).
Proof. intros st. unfold on_fst. simpl. reflexivity. Qed.

End KeepsLocals.

(** One step of the proof that a function keeps [R]: split the
    combinator at the head, or close the goal by a fact at hand. *)
Ltac keeps_step :=
  match goal with
  | |- forall _, _ => intro
  | |- PreOrder _ => typeclasses eauto
  | |- keeps _ (bind _ _) => apply keeps_bind
  | |- keeps _ (try_except _ _) => apply keeps_try_except
  | |- keeps _ (try_finally _ _) => apply keeps_try_finally
  | |- keeps _ (for_in _ _) => apply keeps_for_in
  | |- keeps _ (with_locals _ _) => apply keeps_with_locals
  | |- keeps _ (lift _) => apply keeps_lift
  | |- keeps _ (ret _) => apply keeps_ret
  | |- keeps _ (raise _) => apply keeps_raise
  | |- keeps _ (index _ _) => apply keeps_index
  | |- keeps _ (locals _) => apply keeps_locals
  | |- keeps _ (set_locals _) => apply keeps_set_locals
  | |- keeps _ (float _ _) => unfold float
  | |- keeps _ (if ?b then _ else _) => destruct b
  | |- keeps _ (match ?x with Some _ => _ | None => _ end) => destruct x
  | |- keeps _ (let _ := _ in _) => cbv zeta
  | H : DriverKeeps _ _ |- keeps _ _ => solve [destruct H; auto]
  | |- keeps _ _ => solve [auto]
  end.

Section ScraperKeeps.
Context {F : Type} (py_float : str -> option F).
Context {W E : Type} (d : Driver W E) (R : W -> W -> Prop) `{!PreOrder R}.
Hypothesis Hd : DriverKeeps R d.

Lemma init_keeps : keeps R (GoogleMapsScraper.__init__ d).
Proof. unfold GoogleMapsScraper.__init__. repeat keeps_step. Qed.

Lemma safe_extract_text_keeps sel : keeps R (GoogleMapsScraper._safe_extract_text d sel).
Proof. unfold GoogleMapsScraper._safe_extract_text. repeat keeps_step. Qed.

Lemma safe_extract_attribute_keeps sel a :
  keeps R (GoogleMapsScraper._safe_extract_attribute d sel a).
Proof. unfold GoogleMapsScraper._safe_extract_attribute. repeat keeps_step. Qed.

Lemma extract_categories_keeps : keeps R (GoogleMapsScraper._extract_categories d).
Proof. unfold GoogleMapsScraper._extract_categories. repeat keeps_step. Qed.

Lemma extract_hours_keeps : keeps R (GoogleMapsScraper._extract_hours d).
Proof. unfold GoogleMapsScraper._extract_hours. repeat keeps_step. Qed.

Lemma extract_coordinates_keeps :
  keeps R (GoogleMapsScraper._extract_coordinates py_float d).
Proof. unfold GoogleMapsScraper._extract_coordinates. repeat keeps_step. Qed.

Lemma extract_business_details_keeps :
  keeps R (GoogleMapsScraper._extract_business_details py_float d).
Proof.
  pose proof safe_extract_text_keeps. pose proof safe_extract_attribute_keeps.
  pose proof extract_categories_keeps. pose proof extract_hours_keeps.
  pose proof extract_coordinates_keeps.
  unfold GoogleMapsScraper._extract_business_details. repeat keeps_step.
Qed.

Lemma scrape_keeps kw loc mx (cb : Z -> Z -> M W unit) :
  (forall a b, keeps R (cb a b)) ->
  keeps R (GoogleMapsScraper.scrape_google_maps_sync py_float d kw loc mx cb).
Proof.
  intros Hcb. pose proof extract_business_details_keeps.
  unfold GoogleMapsScraper.scrape_google_maps_sync,
    GoogleMapsScraper.paginating, GoogleMapsScraper.iterating,
    GoogleMapsScraper.scroll_once, GoogleMapsScraper.process_listing.
  repeat keeps_step.
Qed.

End ScraperKeeps.

(** ** The run of a session *)

Section Run.
Context {F : Type} (py_float : str -> option F).
Context {W E : Type} (d : Driver W E).
Context (datetime_now : W -> Z * W) (exn_str : exn -> str).

Abbreviation St := (Main.St (F:=F) (W:=W)).
Abbreviation App := (Main.App (F:=F)).
Abbreviation quiet_in := (quiet_st (F:=F) (W:=W)).

Lemma quiet_refl session (a : App) : quiet session a a.
Proof. split; [reflexivity|]. exists []. rewrite app_nil_r. auto. Qed.

#[local] Instance quiet_preorder session :
  PreOrder (quiet_in session).
Proof.
  split.
  - intros st. apply quiet_refl.
  - intros x y z [H1 (n1 & Hn1 & F1)] [H2 (n2 & Hn2 & F2)].
    split; [congruence|]. exists (n1 ++ n2). split.
    + rewrite Hn2, Hn1, app_assoc. reflexivity.
    + apply Forall_app. split; [exact F1|].
      rewrite H1 in F2. exact F2.
Qed.

Lemma lift_quiet session {A} (m : M W A) : keeps (quiet_in session) (lift m).
Proof.
  intros [w a]. unfold lift. simpl. destruct (m w) as [r w']. simpl.
  apply quiet_refl.
Qed.

Lemma app_driver_quiet session : DriverKeeps (quiet_in session) (Main.app_driver d).
Proof. split; intros; apply lift_quiet. Qed.

Lemma progress_callback_quiet session c t :
  keeps (quiet_in session) (Main.progress_callback session c t).
Proof.
  intros [w a]. unfold quiet_st, quiet. simpl. rewrite Nat.eqb_refl. simpl.
  split; [reflexivity|]. eexists. rewrite <- app_assoc. split; [reflexivity|].
  repeat constructor.
Qed.

(** Facts about sequences of statuses. *)
Lemma terminal_stays p l :
  Main.terminal p = true -> Main.follows p l = true -> List.Forall (eq p) l.
Proof.
  revert p. induction l as [|x l IH]; intros p Hp Hf; [constructor|].
  simpl in Hf. apply andb_true_iff in Hf as [Hstep Hf].
  assert (p = x) as <-.
  { destruct p, x; simpl in *; congruence. }
  constructor; [reflexivity | apply IH; assumption].
Qed.

Lemma follows_absorbing l : forall p i j a b,
  Main.follows p l = true -> (i <= j)%nat ->
  nth_error l i = Some a -> nth_error l j = Some b ->
  Main.terminal a = true -> b = a.
Proof.
  induction l as [|x l IH]; intros p i j a b Hf Hij Hi Hj Ha.
  - destruct i; discriminate.
  - simpl in Hf. apply andb_true_iff in Hf as [_ Hf].
    destruct i as [|i].
    + injection Hi as ->. destruct j as [|j]; [simpl in Hj; congruence|].
      simpl in Hj. apply nth_error_In in Hj.
      pose proof (terminal_stays a l Ha Hf) as Hall.
      rewrite List.Forall_forall in Hall. symmetry. apply Hall. exact Hj.
    + destruct j as [|j]; [lia|]. simpl in Hi, Hj.
      apply (IH x i j a b); try assumption. lia.
Qed.

Lemma follows_repeat p x k l :
  Main.status_eqb p x || Main.transition p x = true ->
  Main.follows x l = true ->
  Main.follows p (repeat x (S k) ++ l) = true.
Proof.
  intros Hstep Hl. simpl. rewrite Hstep. simpl.
  induction k as [|k IH]; simpl; [exact Hl|].
  rewrite IH. destruct x; reflexivity.
Qed.

Lemma last_repeat {A} (x dflt : A) l k : List.last (l ++ repeat x (S k)) dflt = x.
Proof.
  cbn [repeat]. rewrite repeat_cons, app_assoc. apply last_last.
Qed.

Lemma quiet_running session (a a' : App) :
  quiet session a a' ->
  Main.status (Main.heap a session) = Main.StRunning ->
  Main.status (Main.heap a' session) = Main.StRunning
  /\ exists new,
       Main.history a' = Main.history a ++ new
       /\ Forall (fun e => fst e = session) new
       /\ map (fun e => Main.status (snd e)) new
          = repeat Main.StRunning (length new).
Proof.
  intros [Hs (new & Hh & Hall)] Hrun. split; [congruence|].
  exists new. split; [exact Hh|]. rewrite Hrun in Hall. clear Hh.
  induction new as [|e new IH]; [split; constructor|].
  apply Forall_cons in Hall as [[He1 He2] Hall]. destruct (IH Hall) as [IH1 IH2].
  split; [constructor; assumption|]. simpl. rewrite He2, IH2. reflexivity.
Qed.

Ltac proj :=
  cbn [Main.heap Main.next_ref Main.scraping_sessions Main.background_tasks
       Main.history Main.status Main.set_status Main.set_start_time
       Main.set_end_time Main.set_results Main.set_error_message
       Main.set_completed Main.set_total fst snd] in *.

Lemma run_shape session (st st' : St) r :
  Main.run_scraping_task py_float d datetime_now exn_str session st = (r, st') ->
  r = Ok tt
  /\ exists n m t, (t = Main.StCompleted \/ t = Main.StError)
       /\ shaped session (S n) (S m) t (snd st) (snd st').
Proof.
  destruct st as [w a]. intros H.
  unfold Main.run_scraping_task, Main.setattr, Main.now, Main.getattr in H.
  run_in H.
  destruct (datetime_now w) as [t0 w1]. proj.
  match type of H with context [GoogleMapsScraper.__init__ ?drv (?w2, ?a2)] =>
    assert (R2 : Main.status (Main.heap a2 session) = Main.StRunning)
      by (proj; rewrite Nat.eqb_refl; reflexivity);
    pose proof (init_keeps drv (quiet_in session) (app_driver_quiet session) (w2, a2)) as K3;
    destruct (GoogleMapsScraper.__init__ drv (w2, a2)) as [[[]|e3] [w3 a3]];
    apply (fun K => quiet_running session a2 a3 K R2) in K3
      as [S3 (new3 & H3 & F3 & M3)]
  end; clear R2; proj.
  - match type of H with
    | context [GoogleMapsScraper.scrape_google_maps_sync ?pf ?drv ?kw ?loc ?mx ?cb ?s] =>
      pose proof (scrape_keeps pf drv (quiet_in session) (app_driver_quiet session)
                    kw loc mx cb (progress_callback_quiet session) s) as K4;
      destruct (GoogleMapsScraper.scrape_google_maps_sync pf drv kw loc mx cb s)
        as [[res|e4] [w4 a4]];
      apply (fun K => quiet_running session a3 a4 K S3) in K4
        as [S4 (new4 & H4 & F4 & M4)]
    end; proj.
    + destruct (datetime_now w4) as [t1 w5].
      injection H as <- <-. split; [reflexivity|].
      exists (1 + (length new3 + (length new4 + 1)))%nat, 1%nat, Main.StCompleted.
      split; [auto|]. unfold shaped. proj. rewrite ?Nat.eqb_refl. proj.
      split; [reflexivity|]. eexists. rewrite H4, H3.
      split; [rewrite <- !app_assoc; reflexivity|].
      split.
      * repeat (apply Forall_app; split); auto; repeat constructor.
      * rewrite !map_app, M3, M4. cbn [map]. proj. rewrite ?Nat.eqb_refl. proj.
        rewrite S4.
        change (S (1 + (length new3 + (length new4 + 1))))
          with (2 + (length new3 + (length new4 + 1)))%nat.
        rewrite !repeat_app. simpl. rewrite <- ?app_assoc. reflexivity.
    + destruct (datetime_now w4) as [t1 w5].
      injection H as <- <-. split; [reflexivity|].
      exists (1 + (length new3 + length new4))%nat, 2%nat, Main.StError.
      split; [auto|]. unfold shaped. proj. rewrite ?Nat.eqb_refl. proj.
      split; [reflexivity|]. eexists. rewrite H4, H3.
      split; [rewrite <- !app_assoc; reflexivity|].
      split.
      * repeat (apply Forall_app; split); auto; repeat constructor.
      * rewrite !map_app, M3, M4. cbn [map]. proj. rewrite ?Nat.eqb_refl. proj.
        change (S (1 + (length new3 + length new4)))
          with (2 + (length new3 + length new4))%nat.
        rewrite !repeat_app. simpl. rewrite <- ?app_assoc. reflexivity.
  - destruct (datetime_now w3) as [t1 w5].
    injection H as <- <-. split; [reflexivity|].
    exists (1 + length new3)%nat, 2%nat, Main.StError.
    split; [auto|]. unfold shaped. proj. rewrite ?Nat.eqb_refl. proj.
    split; [reflexivity|]. eexists. rewrite H3.
    split; [rewrite <- !app_assoc; reflexivity|].
    split.
    * repeat (apply Forall_app; split); auto; repeat constructor.
    * rewrite !map_app, M3. cbn [map]. proj. rewrite ?Nat.eqb_refl. proj.
      change (S (1 + length new3)) with (2 + length new3)%nat.
      rewrite !repeat_app. simpl. rewrite <- ?app_assoc. reflexivity.
Qed.
(** C9: a run of the background task on an idle session follows the state
    machine [idle -> running -> completed | error]: the task assigns only
    to its own session, the statuses it assigns are [running] one or more
    times and then one terminal status, [completed] or [error], which the
    session has when the task returns; after a terminal status no later
    assignment of the run changes the status.  The task itself never
    raises. *)
Theorem run_scraping_task_monotone session (st : St)
    (Hidle : Main.status (Main.heap (snd st) session) = Main.StIdle) :
  Main.monotone_run session st
    (Main.run_scraping_task py_float d datetime_now exn_str session st).
Proof.
  destruct (Main.run_scraping_task py_float d datetime_now exn_str session st)
    as [r st'] eqn:Hrun.
  destruct (run_shape session st st' r Hrun)
    as (-> & n & m & t & Ht & Hfin & new & Hhist & Hown & Htrace).
  unfold Main.monotone_run. cbn [fst snd].
  split; [reflexivity|]. exists new.
  split; [exact Hhist|]. split; [exact Hown|].
  cbv zeta. rewrite Htrace.
  assert (Hf : Main.follows Main.StIdle
                 (repeat Main.StRunning (S n) ++ repeat t (S m)) = true).
  { apply follows_repeat; [reflexivity|].
    rewrite <- (app_nil_r (repeat t (S m))).
    apply follows_repeat; [destruct Ht; subst t; reflexivity | reflexivity]. }
  split; [exact Hf|].
  rewrite last_repeat.
  split; [destruct Ht; subst t; reflexivity|].
  split; [exact Hfin|].
  intros i j a b. apply follows_absorbing with (p := Main.StIdle). exact Hf.
Qed.

End Run.

(** ** The loops of the extraction engine *)

Section Loops.
Context {F : Type} (py_float : str -> option F).
Context {W E : Type} (d : Driver W E).

Lemma extract_business_details_ok (w : W) :
  exists bd w', GoogleMapsScraper._extract_business_details py_float d w = (Ok bd, w').
Proof.
  unfold GoogleMapsScraper._extract_business_details, try_except.
  match goal with |- context [match ?m w with _ => _ end] =>
    destruct (m w) as [[bd|e] w'] end; eauto.
Qed.


Lemma process_listing_eq mx (cb : Z -> Z -> M W unit) listing (w : W)
    (fr : GoogleMapsScraper.Frame (F:=F)) :
  GoogleMapsScraper.process_listing py_float d mx cb listing (w, fr) =
  match el_click d listing w with
  | (Raise _, w1) => (Ok Next, (w1, fr))
  | (Ok _, w1) =>
      match GoogleMapsScraper._extract_business_details py_float d w1 with
      | (Ok business_data, w2) =>
          let fr' := GoogleMapsScraper.append_result business_data fr in
          (Ok Next, (snd (cb (len (GoogleMapsScraper.results fr')) mx w2), fr'))
      | (Raise _, w2) => (Ok Next, (w2, fr))
      end
  end.
Proof.
  unfold GoogleMapsScraper.process_listing. run.
  destruct (el_click d listing w) as [[[]|e] w1]; [|reflexivity].
  destruct (GoogleMapsScraper._extract_business_details py_float d w1) as [[bd|e] w2];
    [|reflexivity].
  destruct (cb _ mx w2) as [[[]|e] w3]; reflexivity.
Qed.


Lemma scroll_once_ticks mx scroll (w : W) (ticks : list (Z * Z))
    (fr : GoogleMapsScraper.Frame (F:=F)) :
  GoogleMapsScraper.results fr = [] ->
  exists c w' k fr',
    GoogleMapsScraper.scroll_once (lift_driver d) mx record_tick scroll ((w, ticks), fr)
      = (Ok c, ((w', ticks ++ repeat (0, mx) k), fr'))
    /\ (k <= 1)%nat /\ GoogleMapsScraper.results fr' = [].
Proof.
  intros Hres. unfold GoogleMapsScraper.scroll_once, record_tick.
  cbn [lift_driver drv_wait_presence drv_execute_script]. run.
  destruct (drv_wait_presence d By_CSS_SELECTOR _ w) as [[panel|e] w1].
  - destruct (drv_execute_script d _ panel w1) as [[[]|e] w2].
    + rewrite Hres. change (len (@nil (dict F))) with 0.
      change (GoogleMapsScraper.results_found
                (GoogleMapsScraper.set_results_found 0 fr)) with 0.
      exists (if 0 >=? mx then Break else Next), w2, 1%nat,
        (GoogleMapsScraper.set_results_found 0 fr).
      split; [destruct (0 >=? mx); reflexivity|]. split; [lia | exact Hres].
    + exists Next, w2, 0%nat, fr. rewrite app_nil_r. auto.
  - exists Next, w1, 0%nat, fr. rewrite app_nil_r. auto.
Qed.

Lemma for_in_scroll_ticks mx (xs : list Z) (w : W) (ticks : list (Z * Z))
    (fr : GoogleMapsScraper.Frame (F:=F)) :
  GoogleMapsScraper.results fr = [] ->
  exists w' k fr',
    for_in xs (GoogleMapsScraper.scroll_once (lift_driver d) mx record_tick)
      ((w, ticks), fr)
      = (Ok tt, ((w', ticks ++ repeat (0, mx) k), fr'))
    /\ (k <= length xs)%nat /\ GoogleMapsScraper.results fr' = [].
Proof.
  revert w ticks fr. induction xs as [|x xs IH]; intros w ticks fr Hres.
  - exists w, 0%nat, fr. simpl. rewrite app_nil_r. auto.
  - cbn [for_in]. unfold bind.
    destruct (scroll_once_ticks mx x w ticks fr Hres) as (c & w1 & k1 & fr1 & -> & Hk1 & Hr1).
    destruct c.
    + destruct (IH w1 (ticks ++ repeat (0, mx) k1) fr1 Hr1) as (w2 & k2 & fr2 & -> & Hk2 & Hr2).
      exists w2, (k1 + k2)%nat, fr2. rewrite repeat_app, app_assoc.
      split; [reflexivity|]. split; [simpl; lia | exact Hr2].
    + exists w1, k1, fr1. split; [reflexivity|]. split; [simpl; lia | exact Hr1].
Qed.

Lemma length_range n : length (range n) = Z.to_nat n.
Proof. unfold range. rewrite length_map, length_seq. reflexivity. Qed.

Lemma paginating_ticks mx (w : W) (ticks : list (Z * Z))
    (fr : GoogleMapsScraper.Frame (F:=F)) :
  GoogleMapsScraper.results fr = [] ->
  exists w' k fr',
    GoogleMapsScraper.paginating (lift_driver d) mx record_tick ((w, ticks), fr)
      = (Ok tt, ((w', ticks ++ repeat (0, mx) k), fr'))
    /\ (k <= Z.to_nat (mx / 20))%nat /\ GoogleMapsScraper.results fr' = [].
Proof.
  intros Hres. unfold GoogleMapsScraper.paginating. cbv zeta.
  unfold bind at 1. unfold set_locals at 1, modify. cbn [fst snd].
  rewrite <- (length_range (mx / 20)).
  apply for_in_scroll_ticks. exact Hres.
Qed.
End Loops.



(** C2, on a page where the code and the claim differ: the cap is 40 and
    the site has forty results, twenty rendered by the search and all
    forty after the first scroll.  The loop scrolls twice, and each of its
    ticks has [completed] 0, the number of records extracted so far, with
    [total] 40; the forty listings discovered by the first scroll neither
    show in a tick nor end the loop. *)
Theorem pagination_ticks_count_records :
  Runs.discovered Runs.searched40 = 20
  /\ Runs.discovered
       (snd (Sim.execute_script GoogleMapsScraper.scroll_script Sim.Feed
               Runs.searched40)) = 40
  /\ fst Runs.paginated40 = Ok tt
  /\ snd (fst (snd Runs.paginated40)) = [(0, 40); (0, 40)]
  /\ Sim.scrolls (fst (fst (snd Runs.paginated40))) = 2%nat.
Proof. vm_compute. repeat split. Qed.

(** The run of the task on the simulated site starts from an idle
    session. *)
Lemma run_scraping_task_monotone_witness :
  Main.status (Main.heap (snd (Runs.started (Runs.ten Runs.no_panel))) 0%nat)
    = Main.StIdle
  /\ Main.monotone_run 0 (Runs.started (Runs.ten Runs.no_panel))
       (Runs.finished (Runs.ten Runs.no_panel)).
Proof.
  split; [reflexivity|].
  apply (run_scraping_task_monotone Sim.py_float Sim.driver Sim.datetime_now
           Sim.exn_str 0%nat (Runs.started (Runs.ten Runs.no_panel))).
  reflexivity.
Defined.

(** A completed session with no record exists: the one of a site with no
    result. *)
Lemma downloads_need_a_record_witness :
  (Main.scraping_sessions (snd Runs.empty_done) !! lit "id-1" = Some 0%nat
   /\ Main.status (Main.heap (snd Runs.empty_done) 0%nat) = Main.StCompleted
   /\ Main.results (Main.heap (snd Runs.empty_done) 0%nat) = [])
  /\ Main.download_csv Runs.create_csv_file (lit "id-1") Runs.empty_done =
       (Raise (HTTPException 400 (lit "No results to download")), Runs.empty_done)
  /\ Main.download_json Runs.json_dump (lit "id-1") Runs.empty_done =
       (Raise (HTTPException 400 (lit "No results to download")), Runs.empty_done).
Proof.
  assert (H1 : Main.scraping_sessions (snd Runs.empty_done) !! lit "id-1" = Some 0%nat)
    by (vm_compute; reflexivity).
  assert (H2 : Main.status (Main.heap (snd Runs.empty_done) 0%nat) = Main.StCompleted)
    by (vm_compute; reflexivity).
  assert (H3 : Main.results (Main.heap (snd Runs.empty_done) 0%nat) = [])
    by (vm_compute; reflexivity).
  split; [auto|].
  destruct (downloads_need_a_record Runs.create_csv_file Runs.json_dump
              (lit "id-1") Runs.empty_done 0%nat H1 H2 H3) as (Hc & Hj & _).
  split; [exact Hc | exact Hj].
Defined.

(** A cap of 0 and a cap of 501 on the simulated server: the answer is
    the status 500 and nothing is stored. *)
Example start_scraping_cap_bounds :
  Main.start_scraping Sim.uuid4 Sim.exn_str (Runs.request 0)
    (Sim.world [] 20 20, Runs.app0)
  = (Raise (HTTPException 500 (lit "400: Max results must be between 1 and 500")),
     (Sim.world [] 20 20, Runs.app0))
  /\ Main.start_scraping Sim.uuid4 Sim.exn_str (Runs.request 501)
    (Sim.world [] 20 20, Runs.app0)
  = (Raise (HTTPException 500 (lit "400: Max results must be between 1 and 500")),
     (Sim.world [] 20 20, Runs.app0))
  /\ fst (Main.start_scraping Sim.uuid4 Sim.exn_str (Runs.request 500)
            (Sim.world [] 20 20, Runs.app0))
     = Ok (lit "id-1", lit "started")
  /\ Main.status (Main.heap (snd (Runs.started [])) 0%nat) = Main.StIdle
  /\ Main.background_tasks (snd (Runs.started [])) = [0%nat].
Proof. repeat (split; [reflexivity|]). reflexivity. Qed.

(** * Further properties of the code *)

(** ** [backend/utils.py]: file names, hours, review counts *)

Section UtilsFacts.

(** Replacing a one-character [old] by a one-character [new] works
    character by character. *)
Lemma replace_go_single (c n : char) cur s :
  join [n] (split_go [c] 0 cur s)
  = rev cur ++ map (fun x => if (c =? x)%N then n else x) s.
Proof.
  revert cur. induction s as [|b s IH]; intros cur.
  - simpl. rewrite app_nil_r. reflexivity.
  - cbn [split_go map]. rewrite startswith_single.
    destruct (c =? b)%N.
    + rewrite join_cons by apply split_go_nonempty.
      simpl length. rewrite IH. reflexivity.
    + rewrite IH. simpl. rewrite <- app_assoc. reflexivity.
Qed.

Lemma replace_single (c n : char) s :
  replace s [c] [n] = map (fun x => if (c =? x)%N then n else x) s.
Proof. unfold replace, split. rewrite replace_go_single. reflexivity. Qed.

(** What the successive replacements do to one character. *)
Lemma clean_char (cs : str) (x : char) :
  existsb (N.eqb 95) cs = false ->
  fold_left (fun y c => if (c =? y)%N then 95%N else y) cs x
  = if existsb (N.eqb x) cs then 95%N else x.
Proof.
  revert x. induction cs as [|c cs IH]; intros x H95; [reflexivity|].
  simpl in H95. apply orb_false_iff in H95 as [Hc H95].
  cbn [fold_left existsb]. rewrite IH by exact H95.
  rewrite (N.eqb_sym c x).
  destruct (x =? c)%N eqn:E; [|reflexivity].
  simpl. rewrite H95. reflexivity.
Qed.

Lemma clean_fold (cs : str) (filename : str) :
  fold_left (fun f char => replace f [char] (lit "_")) cs filename
  = map (fun x => fold_left (fun y c => if (c =? y)%N then 95%N else y) cs x)
      filename.
Proof.
  revert filename. induction cs as [|c cs IH]; intros filename.
  - simpl. rewrite map_id. reflexivity.
  - cbn [fold_left]. rewrite IH.
    change (lit "_") with [95%N]. rewrite replace_single, map_map. reflexivity.
Qed.

Lemma clean_filename_map (filename : str) :
  Utils.clean_filename filename
  = map (fun x => if existsb (N.eqb x) Utils.invalid_chars then 95%N else x)
      filename.
Proof.
  unfold Utils.clean_filename. rewrite clean_fold.
  apply map_ext. intros x. apply clean_char. reflexivity.
Qed.

(** [clean_filename] turns each of the nine invalid characters into an
    underscore and touches nothing else: the result has the length of the
    name and no invalid character, a name without invalid characters is
    returned as it is, and cleaning twice is cleaning once. *)
Theorem clean_filename_valid (filename : str) :
  Utils.clean_filename filename
    = map (fun x => if existsb (N.eqb x) Utils.invalid_chars then 95%N else x)
        filename
  /\ length (Utils.clean_filename filename) = length filename
  /\ List.Forall (fun x => existsb (N.eqb x) Utils.invalid_chars = false)
       (Utils.clean_filename filename)
  /\ (List.Forall (fun x => existsb (N.eqb x) Utils.invalid_chars = false) filename ->
      Utils.clean_filename filename = filename)
  /\ Utils.clean_filename (Utils.clean_filename filename)
     = Utils.clean_filename filename.
Proof.
  assert (Hclean : List.Forall
            (fun x => existsb (N.eqb x) Utils.invalid_chars = false)
            (Utils.clean_filename filename)).
  { rewrite clean_filename_map. apply List.Forall_forall. intros y Hy.
    apply in_map_iff in Hy as (x & <- & _).
    destruct (existsb (N.eqb x) Utils.invalid_chars) eqn:E; [reflexivity | exact E]. }
  assert (Hid : forall f,
            List.Forall (fun x => existsb (N.eqb x) Utils.invalid_chars = false) f ->
            Utils.clean_filename f = f).
  { intros f Hf. rewrite clean_filename_map.
    induction Hf as [|x f Hx Hf IH]; [reflexivity|].
    cbn [map]. rewrite Hx, IH. reflexivity. }
  split; [apply clean_filename_map|].
  split; [rewrite clean_filename_map; apply length_map|].
  split; [exact Hclean|]. split; [apply Hid|].
  apply Hid. exact Hclean.
Qed.

(** Splitting what was joined with a one-character separator gives the
    segments back when none of them holds the separator. *)
Lemma split_go_segment (c : char) cur x rest :
  ~ List.In c x ->
  split_go [c] 0 cur (x ++ rest) = split_go [c] 0 (rev x ++ cur) rest.
Proof.
  revert cur. induction x as [|b x IH]; intros cur Hc; [reflexivity|].
  cbn [app split_go]. rewrite startswith_single.
  destruct (c =? b)%N eqn:E.
  - apply N.eqb_eq in E. subst b. exfalso. apply Hc. left. reflexivity.
  - rewrite IH by (intros H; apply Hc; right; exact H).
    simpl. rewrite <- app_assoc. reflexivity.
Qed.

Lemma split_go_join (c : char) cur x l :
  List.Forall (fun y => ~ List.In c y) (x :: l) ->
  split_go [c] 0 cur (join [c] (x :: l)) = (rev cur ++ x) :: l.
Proof.
  revert cur x. induction l as [|y l IH]; intros cur x Hall.
  - cbn [join]. rewrite <- (app_nil_r x) at 1.
    rewrite split_go_segment by (inversion Hall; assumption).
    simpl. rewrite rev_app_distr, rev_involutive. reflexivity.
  - rewrite join_cons by discriminate.
    inversion Hall as [|? ? Hx Hrest]; subst.
    rewrite split_go_segment by exact Hx.
    cbn [app split_go]. rewrite startswith_single, N.eqb_refl.
    simpl length. rewrite Nat.sub_diag.
    rewrite (IH [] y Hrest).
    rewrite rev_app_distr, rev_involutive. reflexivity.
Qed.

(** [format_business_hours] writes one line [day: hours] per entry of the
    dict, in the order of the dict: when no day and no hours text holds a
    line break, splitting the result of a non-empty dict on line breaks
    gives exactly these lines; the empty dict gives the empty string. *)
Theorem format_business_hours_lines (hours_dict : list (str * str))
    (Hsome : hours_dict <> [])
    (Hline : List.Forall
               (fun item => ~ List.In 10%N (fst item) /\ ~ List.In 10%N (snd item))
               hours_dict) :
  split (Utils.format_business_hours hours_dict) [10%N]
    = map (fun item => fst item ++ lit ": " ++ snd item) hours_dict
  /\ length (split (Utils.format_business_hours hours_dict) [10%N])
     = length hours_dict
  /\ Utils.format_business_hours [] = [].
Proof.
  assert (Heq : split (Utils.format_business_hours hours_dict) [10%N]
                = map (fun item => fst item ++ lit ": " ++ snd item) hours_dict).
  { destruct hours_dict as [|item rest]; [congruence|].
    unfold Utils.format_business_hours. cbv zeta. cbn [map]. unfold split.
    rewrite split_go_join; [reflexivity|].
    change (List.Forall (fun y => ~ List.In 10%N y)
              (map (fun it => fst it ++ lit ": " ++ snd it) (item :: rest))).
    apply List.Forall_forall. intros y Hy.
    apply in_map_iff in Hy as (it & <- & Hit).
    rewrite List.Forall_forall in Hline. destruct (Hline it Hit) as [Hd Hh].
    intros Hin. apply in_app_or in Hin as [Hin | Hin]; [exact (Hd Hin)|].
    apply in_app_or in Hin as [Hin | Hin]; [|exact (Hh Hin)].
    vm_compute in Hin. intuition discriminate. }
  split; [exact Heq|]. split; [rewrite Heq; apply length_map | reflexivity].
Qed.

Context (isdigit : char -> bool) (py_int : str -> option Z).

Lemma parse_reviews_count_eq {S} (reviews_str : str) (s : S) :
  Utils.parse_reviews_count isdigit py_int reviews_str s =
  (Ok match List.filter isdigit reviews_str with
      | [] => 0
      | _ :: _ =>
          match py_int (List.filter isdigit reviews_str) with
          | Some n => n
          | None => 0
          end
      end, s).
Proof.
  unfold Utils.parse_reviews_count, try_except, Utils.int. cbv zeta.
  destruct (List.filter isdigit reviews_str) as [|c r]; [reflexivity|].
  destruct (py_int (c :: r)); reflexivity.
Qed.

(** [parse_reviews_count] never raises and reads the digits of the text
    only: a character that is not a digit can be dropped from anywhere in
    the text without changing the count, a text with no digit counts 0,
    the digits of a text count as the text does, and the copy in
    [database.py] agrees with the one in [utils.py].  Digits on which
    [int] raises count 0, and digits that [int] reads count what it
    reads. *)
Theorem parse_reviews_count_digits_only {S} (reviews_str : str) (s : S) :
  (exists n, Utils.parse_reviews_count isdigit py_int reviews_str s = (Ok n, s))
  /\ (forall a b c, isdigit c = false ->
        Utils.parse_reviews_count isdigit py_int (a ++ c :: b) s
        = Utils.parse_reviews_count isdigit py_int (a ++ b) s)
  /\ (List.Forall (fun c => isdigit c = false) reviews_str ->
        Utils.parse_reviews_count isdigit py_int reviews_str s = (Ok 0, s))
  /\ Utils.parse_reviews_count isdigit py_int (List.filter isdigit reviews_str) s
     = Utils.parse_reviews_count isdigit py_int reviews_str s
  /\ DatabaseManager._parse_reviews_count isdigit py_int reviews_str s
     = Utils.parse_reviews_count isdigit py_int reviews_str s
  /\ (py_int (List.filter isdigit reviews_str) = None ->
      Utils.parse_reviews_count isdigit py_int reviews_str s = (Ok 0, s))
  /\ (forall n,
        List.filter isdigit reviews_str <> [] ->
        py_int (List.filter isdigit reviews_str) = Some n ->
        Utils.parse_reviews_count isdigit py_int reviews_str s = (Ok n, s)).
Proof.
  split; [rewrite parse_reviews_count_eq; eauto|].
  split.
  { intros a b c Hc. rewrite !parse_reviews_count_eq.
    rewrite !List.filter_app. cbn [List.filter]. rewrite Hc. reflexivity. }
  split.
  { intros Hnone. rewrite parse_reviews_count_eq.
    replace (List.filter isdigit reviews_str) with (@nil char); [reflexivity|].
    induction Hnone as [|c r Hc Hr IH]; [reflexivity|].
    cbn [List.filter]. rewrite Hc. exact IH. }
  split.
  { rewrite !parse_reviews_count_eq.
    assert (Hff : List.filter isdigit (List.filter isdigit reviews_str)
                  = List.filter isdigit reviews_str).
    { induction reviews_str as [|c r IH]; [reflexivity|].
      cbn [List.filter]. destruct (isdigit c) eqn:E; [|exact IH].
      cbn [List.filter]. rewrite E, IH. reflexivity. }
    rewrite Hff. reflexivity. }
  split; [reflexivity|].
  split.
  - intros H. rewrite parse_reviews_count_eq, H.
    destruct (List.filter isdigit reviews_str); reflexivity.
  - intros n Hne H. rewrite parse_reviews_count_eq, H.
    destruct (List.filter isdigit reviews_str); [congruence | reflexivity].
Qed.

End UtilsFacts.

(** ** [backend/scraper.py]: the panel readers and the whole scrape *)

#[local] Instance on_snd_preorder {S T} (R : T -> T -> Prop) `{!PreOrder R} :
  PreOrder (on_snd (S:=S) R).
Proof.
  split.
  - intros a. unfold on_snd. reflexivity.
  - intros a b c Hab Hbc. unfold on_snd in *. etransitivity; eassumption.
Qed.

#[local] Instance preserved_preorder {T} (P : T -> Prop) :
  PreOrder (fun t t' => P t -> P t').
Proof. split; [intros t H; exact H | intros a b c Hab Hbc H; auto]. Qed.

Section KeepsOnLocals.
Context {S T : Type} (R : T -> T -> Prop) `{!PreOrder R}.

Lemma keeps_lift_on_snd {A} (m : M S A) : keeps (on_snd R) (lift (T:=T) m).
Proof.
  intros [s t]. unfold lift, on_snd. simpl. destruct (m s) as [r s']. simpl.
  reflexivity.
Qed.

Lemma keeps_locals_on_snd {A} (f : T -> A) : keeps (on_snd (S:=S) R) (locals f).
Proof. intros st. unfold on_snd. simpl. reflexivity. Qed.

Lemma keeps_set_locals_on_snd (f : T -> T) :
  (forall t, R t (f t)) -> keeps (on_snd (S:=S) R) (set_locals f).
Proof. intros Hf st. unfold on_snd. simpl. apply Hf. Qed.

End KeepsOnLocals.

Ltac keeps_locals_step :=
  match goal with
  | |- keeps (on_snd _) (lift _) => apply keeps_lift_on_snd
  | |- keeps (on_snd _) (locals _) => apply keeps_locals_on_snd
  | |- keeps (on_snd _) (set_locals _) => apply keeps_set_locals_on_snd
  | |- _ => keeps_step
  end.

Section DictFacts.
Context {V : Type}.

Lemma dict_set_in (k : str) (v : V) d x :
  List.In x (map fst (dict_set k v d)) -> x = k \/ List.In x (map fst d).
Proof.
  induction d as [|[k' v'] d IH]; simpl.
  - intros [<- | []]. left. reflexivity.
  - unfold str_eqb. destruct (bool_decide_reflect (k = k')) as [<- | Hne]; simpl.
    + intros [<- | H]; auto.
    + intros [<- | H]; [auto|]. destruct (IH H); auto.
Qed.

Lemma dict_set_nodup (k : str) (v : V) d :
  List.NoDup (map fst d) -> List.NoDup (map fst (dict_set k v d)).
Proof.
  induction d as [|[k' v'] d IH]; simpl; intros Hd.
  - repeat constructor. intros H. inversion H.
  - apply NoDup_cons_iff in Hd as [Hk' Hd].
    unfold str_eqb. destruct (bool_decide_reflect (k = k')) as [<- | Hne]; simpl.
    + apply NoDup_cons_iff. split; assumption.
    + apply NoDup_cons_iff. split; [|apply IH; exact Hd].
      intros Hin. apply dict_set_in in Hin as [-> | Hin].
      * congruence.
      * apply Hk'. exact Hin.
Qed.

Lemma dict_set_forall (Q : str * V -> Prop) (k : str) (v : V) d :
  Q (k, v) -> List.Forall Q d -> List.Forall Q (dict_set k v d).
Proof.
  intros Hkv Hd. induction Hd as [|[k' v'] d Hx Hd IH]; simpl.
  - repeat constructor. exact Hkv.
  - destruct (str_eqb k k'); constructor; assumption.
Qed.

End DictFacts.

Section ScraperFacts.
Context {F : Type} (py_float : str -> option F).
Context {W E : Type} (d : Driver W E).

Lemma safe_extract_text_ok sel (w : W) :
  exists v w', GoogleMapsScraper._safe_extract_text d sel w = (Ok v, w').
Proof.
  unfold GoogleMapsScraper._safe_extract_text, try_except.
  match goal with |- context [match ?m w with _ => _ end] =>
    destruct (m w) as [[v|e] w'] end; eauto.
Qed.

Lemma safe_extract_attribute_ok sel a (w : W) :
  exists v w', GoogleMapsScraper._safe_extract_attribute d sel a w = (Ok v, w').
Proof.
  unfold GoogleMapsScraper._safe_extract_attribute, try_except.
  match goal with |- context [match ?m w with _ => _ end] =>
    destruct (m w) as [[v|e] w'] end; eauto.
Qed.

Lemma extract_categories_ok (w : W) :
  exists v w', GoogleMapsScraper._extract_categories d w = (Ok v, w').
Proof.
  unfold GoogleMapsScraper._extract_categories, try_except.
  match goal with |- context [match ?m w with _ => _ end] =>
    destruct (m w) as [[v|e] w'] end; eauto.
Qed.

Lemma extract_coordinates_ok (w : W) :
  exists v w', GoogleMapsScraper._extract_coordinates py_float d w = (Ok v, w').
Proof.
  unfold GoogleMapsScraper._extract_coordinates, try_except.
  match goal with |- context [match ?m w with _ => _ end] =>
    destruct (m w) as [[v|e] w'] end; eauto.
Qed.

Lemma extract_hours_ok (w : W) :
  exists v w', GoogleMapsScraper._extract_hours d w = (Ok v, w').
Proof.
  unfold GoogleMapsScraper._extract_hours, with_locals.
  unfold bind at 1. unfold try_except at 1.
  match goal with |- context [match ?m (w, ?t) with _ => _ end] =>
    destruct (m (w, t)) as [[v|e] [w' h]] end; simpl; eauto.
Qed.

(** Reading a panel never raises, whatever the driver does.  When the
    wait for the headline raises the record is the empty dict.  When it
    returns the record has the nine keys of the source, in their order,
    and each key holds what its reader returns, the readers running one
    after the other in the order of the keys; the website is a string or
    [None]. *)
Theorem business_details_keys (w : W) :
  (exists bd w',
     GoogleMapsScraper._extract_business_details py_float d w = (Ok bd, w')
     /\ (bd = [] \/ map fst bd = record_keys))
  /\ (forall e w0,
        drv_wait_presence d By_CSS_SELECTOR (lit "div.fontHeadlineSmall") w
        = (Raise e, w0) ->
        GoogleMapsScraper._extract_business_details py_float d w = (Ok [], w0))
  /\ (forall headline w0,
        drv_wait_presence d By_CSS_SELECTOR (lit "div.fontHeadlineSmall") w
        = (Ok headline, w0) ->
        exists name address phone website rating reviews_count categories hours
               coordinates w1 w2 w3 w4 w5 w6 w7 w8 w9,
          GoogleMapsScraper._safe_extract_text d (lit "div.fontHeadlineSmall") w0
          = (Ok name, w1)
          /\ GoogleMapsScraper._safe_extract_text d
               (lit "button[data-item-id='address']") w1 = (Ok address, w2)
          /\ GoogleMapsScraper._safe_extract_text d
               (lit "button[data-item-id='phone:tel']") w2 = (Ok phone, w3)
          /\ GoogleMapsScraper._safe_extract_attribute d
               (lit "a[data-item-id='authority']") (lit "href") w3 = (Ok website, w4)
          /\ GoogleMapsScraper._safe_extract_text d (lit "span.fontDisplayLarge") w4
             = (Ok rating, w5)
          /\ GoogleMapsScraper._safe_extract_text d
               (lit "button[jsaction='pane.rating.moreReviews']") w5
             = (Ok reviews_count, w6)
          /\ GoogleMapsScraper._extract_categories d w6 = (Ok categories, w7)
          /\ GoogleMapsScraper._extract_hours d w7 = (Ok hours, w8)
          /\ GoogleMapsScraper._extract_coordinates py_float d w8 = (Ok coordinates, w9)
          /\ GoogleMapsScraper._extract_business_details py_float d w
             = (Ok [ (lit "name", VStr name);
                     (lit "address", VStr address);
                     (lit "phone", VStr phone);
                     (lit "website", optional website);
                     (lit "rating", VStr rating);
                     (lit "reviews_count", VStr reviews_count);
                     (lit "categories", VList categories);
                     (lit "hours", VHours hours);
                     (lit "coordinates", VCoords coordinates) ], w9)).
Proof.
  assert (Hread : forall headline w0,
    drv_wait_presence d By_CSS_SELECTOR (lit "div.fontHeadlineSmall") w
    = (Ok headline, w0) ->
    exists name address phone website rating reviews_count categories hours
           coordinates w1 w2 w3 w4 w5 w6 w7 w8 w9,
      GoogleMapsScraper._safe_extract_text d (lit "div.fontHeadlineSmall") w0
      = (Ok name, w1)
      /\ GoogleMapsScraper._safe_extract_text d
           (lit "button[data-item-id='address']") w1 = (Ok address, w2)
      /\ GoogleMapsScraper._safe_extract_text d
           (lit "button[data-item-id='phone:tel']") w2 = (Ok phone, w3)
      /\ GoogleMapsScraper._safe_extract_attribute d
           (lit "a[data-item-id='authority']") (lit "href") w3 = (Ok website, w4)
      /\ GoogleMapsScraper._safe_extract_text d (lit "span.fontDisplayLarge") w4
         = (Ok rating, w5)
      /\ GoogleMapsScraper._safe_extract_text d
           (lit "button[jsaction='pane.rating.moreReviews']") w5
         = (Ok reviews_count, w6)
      /\ GoogleMapsScraper._extract_categories d w6 = (Ok categories, w7)
      /\ GoogleMapsScraper._extract_hours d w7 = (Ok hours, w8)
      /\ GoogleMapsScraper._extract_coordinates py_float d w8 = (Ok coordinates, w9)
      /\ GoogleMapsScraper._extract_business_details py_float d w
         = (Ok [ (lit "name", VStr name);
                 (lit "address", VStr address);
                 (lit "phone", VStr phone);
                 (lit "website", optional website);
                 (lit "rating", VStr rating);
                 (lit "reviews_count", VStr reviews_count);
                 (lit "categories", VList categories);
                 (lit "hours", VHours hours);
                 (lit "coordinates", VCoords coordinates) ], w9)).
  { intros headline w0 Hwait.
    destruct (safe_extract_text_ok (lit "div.fontHeadlineSmall") w0) as (v1 & w1 & H1).
    destruct (safe_extract_text_ok (lit "button[data-item-id='address']") w1)
      as (v2 & w2 & H2).
    destruct (safe_extract_text_ok (lit "button[data-item-id='phone:tel']") w2)
      as (v3 & w3 & H3).
    destruct (safe_extract_attribute_ok (lit "a[data-item-id='authority']")
                (lit "href") w3) as (v4 & w4 & H4).
    destruct (safe_extract_text_ok (lit "span.fontDisplayLarge") w4) as (v5 & w5 & H5).
    destruct (safe_extract_text_ok (lit "button[jsaction='pane.rating.moreReviews']")
                w5) as (v6 & w6 & H6).
    destruct (extract_categories_ok w6) as (v7 & w7 & H7).
    destruct (extract_hours_ok w7) as (v8 & w8 & H8).
    destruct (extract_coordinates_ok w8) as (v9 & w9 & H9).
    exists v1, v2, v3, v4, v5, v6, v7, v8, v9, w1, w2, w3, w4, w5, w6, w7, w8, w9.
    repeat (split; [assumption|]).
    unfold GoogleMapsScraper._extract_business_details, try_except.
    unfold bind at 1. rewrite Hwait.
    unfold bind at 1. rewrite H1. unfold bind at 1. rewrite H2.
    unfold bind at 1. rewrite H3. unfold bind at 1. rewrite H4.
    unfold bind at 1. rewrite H5. unfold bind at 1. rewrite H6.
    unfold bind at 1. rewrite H7. unfold bind at 1. rewrite H8.
    unfold bind at 1. rewrite H9. reflexivity. }
  assert (Hnone : forall e w0,
    drv_wait_presence d By_CSS_SELECTOR (lit "div.fontHeadlineSmall") w
    = (Raise e, w0) ->
    GoogleMapsScraper._extract_business_details py_float d w = (Ok [], w0)).
  { intros e w0 Hwait.
    unfold GoogleMapsScraper._extract_business_details, try_except.
    unfold bind at 1. rewrite Hwait. reflexivity. }
  split; [|split; assumption].
  destruct (drv_wait_presence d By_CSS_SELECTOR (lit "div.fontHeadlineSmall") w)
    as [[headline|e] w0] eqn:Hwait.
  - destruct (Hread headline w0 eq_refl)
      as (? & ? & ? & ? & ? & ? & ? & ? & ? & ? & ? & ? & ? & ? & ? & ? & ? & w9
          & _ & _ & _ & _ & _ & _ & _ & _ & _ & ->).
    do 2 eexists. split; [reflexivity|]. right. reflexivity.
  - rewrite (Hnone e w0 eq_refl). do 2 eexists. split; [reflexivity|]. left. reflexivity.
Qed.

(** The rows of the hours table, one after the other. *)
Lemma hours_loop (rows : list E) (h : list (str * str)) (w : W) :
  exists h' w',
    for_in rows (fun element =>
      try_except
        (let! th := lift (el_find_element d element (lit "th")) in
         let! day_text := lift (el_text d th) in
         let day := strip day_text in
         let! td := lift (el_find_element d element (lit "td")) in
         let! time_text := lift (el_text d td) in
         let time_range := strip time_text in
         set_locals (dict_set day time_range) ;;
         ret Next)
        (fun _ => ret Next)) (w, h) = (Ok tt, (w', h'))
    /\ hours_rows d rows h w h' w'.
Proof.
  revert h w. induction rows as [|row rows IH]; intros h w.
  - exists h, w. split; [reflexivity | constructor].
  - cbn [for_in]. unfold bind at 1.
    destruct (read_row d row w) as [[[day_text time_text]|] w1] eqn:Hrow.
    + destruct (IH (dict_set (strip day_text) (strip time_text) h) w1)
        as (h' & w' & Hloop & Hrows).
      exists h', w'. split.
      * unfold read_row in Hrow. run.
        destruct (el_find_element d row (lit "th") w) as [[th|?] u1];
          [|discriminate Hrow].
        destruct (el_text d th u1) as [[dt|?] u2]; [|discriminate Hrow].
        destruct (el_find_element d row (lit "td") u2) as [[td|?] u3];
          [|discriminate Hrow].
        destruct (el_text d td u3) as [[tt0|?] u4]; [|discriminate Hrow].
        injection Hrow as <- <- <-. exact Hloop.
      * eapply rows_read; [exact Hrow | apply strip_trims | apply strip_trims
                           | exact Hrows].
    + destruct (IH h w1) as (h' & w' & Hloop & Hrows).
      exists h', w'. split.
      * unfold read_row in Hrow. run.
        destruct (el_find_element d row (lit "th") w) as [[th|?] u1];
          [|injection Hrow as <-; exact Hloop].
        destruct (el_text d th u1) as [[dt|?] u2];
          [|injection Hrow as <-; exact Hloop].
        destruct (el_find_element d row (lit "td") u2) as [[td|?] u3];
          [|injection Hrow as <-; exact Hloop].
        destruct (el_text d td u3) as [[tt0|?] u4];
          [discriminate Hrow | injection Hrow as <-; exact Hloop].
      * eapply rows_skipped; [exact Hrow | exact Hrows].
Qed.

Lemma hours_rows_clean (rows : list E) h w h' w' :
  hours_rows d rows h w h' w' ->
  List.Forall (fun item => clean (fst item) /\ clean (snd item)) h ->
  List.Forall (fun item => clean (fst item) /\ clean (snd item)) h'.
Proof.
  induction 1 as [| ? ? ? ? ? ? ? ? ? ? ? _ Hd Ht _ IH | ? ? ? ? ? ? ? _ _ IH];
    intros Hall; [exact Hall | | apply IH; exact Hall].
  apply IH. apply dict_set_forall; [|exact Hall].
  split; [apply Hd | apply Ht].
Qed.

(** [_extract_hours] never raises.  It gives the empty dict when the hours
    button cannot be found or clicked or the rows cannot be listed.
    Otherwise it goes through the rows in their order: a row whose [th]
    and [td] can be read sets the day to the time range, both being the
    texts without the whitespace at their two ends, and a row of which a
    cell cannot be found or read is passed over.  So the dict has no day
    twice and neither a day nor a time range begins or ends with
    whitespace. *)
Theorem extract_hours_dict (w : W) :
  (exists h w',
     GoogleMapsScraper._extract_hours d w = (Ok h, w') /\ hours_ok h)
  /\ (forall e w',
        drv_find_element d (lit "button[data-item-id='oh']") w = (Raise e, w') ->
        GoogleMapsScraper._extract_hours d w = (Ok [], w'))
  /\ (forall button w1 e w2,
        drv_find_element d (lit "button[data-item-id='oh']") w = (Ok button, w1) ->
        el_click d button w1 = (Raise e, w2) ->
        GoogleMapsScraper._extract_hours d w = (Ok [], w2))
  /\ (forall button w1 w2 e w3,
        drv_find_element d (lit "button[data-item-id='oh']") w = (Ok button, w1) ->
        el_click d button w1 = (Ok tt, w2) ->
        drv_find_elements d (lit "table tr") w2 = (Raise e, w3) ->
        GoogleMapsScraper._extract_hours d w = (Ok [], w3))
  /\ (forall button w1 w2 rows w3,
        drv_find_element d (lit "button[data-item-id='oh']") w = (Ok button, w1) ->
        el_click d button w1 = (Ok tt, w2) ->
        drv_find_elements d (lit "table tr") w2 = (Ok rows, w3) ->
        exists h w',
          GoogleMapsScraper._extract_hours d w = (Ok h, w')
          /\ hours_rows d rows [] w3 h w')
  /\ (forall h w',
        GoogleMapsScraper._extract_hours d w = (Ok h, w') ->
        List.Forall (fun item => clean (fst item) /\ clean (snd item)) h).
Proof.
  assert (Hrows : forall button w1 w2 rows w3,
    drv_find_element d (lit "button[data-item-id='oh']") w = (Ok button, w1) ->
    el_click d button w1 = (Ok tt, w2) ->
    drv_find_elements d (lit "table tr") w2 = (Ok rows, w3) ->
    exists h w',
      GoogleMapsScraper._extract_hours d w = (Ok h, w')
      /\ hours_rows d rows [] w3 h w').
  { intros button w1 w2 rows w3 Hfind Hclick Hlist.
    destruct (hours_loop rows [] w3) as (h & w' & Hloop & Hr).
    exists h, w'. split; [|exact Hr].
    unfold GoogleMapsScraper._extract_hours, with_locals.
    unfold bind at 1. unfold try_except at 1. unfold bind at 1.
    unfold lift at 1. cbn [fst snd]. rewrite Hfind.
    unfold bind at 1. unfold lift at 1. cbn [fst snd]. rewrite Hclick.
    unfold bind at 1. unfold lift at 1. cbn [fst snd]. rewrite Hlist.
    cbv beta zeta. cbv zeta in Hloop. rewrite Hloop. reflexivity. }
  assert (Hbutton : forall e w',
    drv_find_element d (lit "button[data-item-id='oh']") w = (Raise e, w') ->
    GoogleMapsScraper._extract_hours d w = (Ok [], w')).
  { intros e w' H. unfold GoogleMapsScraper._extract_hours, with_locals.
    unfold bind at 1. unfold try_except at 1. unfold bind at 1.
    unfold lift at 1. cbn [fst snd]. rewrite H. reflexivity. }
  assert (Hclick : forall button w1 e w2,
    drv_find_element d (lit "button[data-item-id='oh']") w = (Ok button, w1) ->
    el_click d button w1 = (Raise e, w2) ->
    GoogleMapsScraper._extract_hours d w = (Ok [], w2)).
  { intros button w1 e w2 H1 H2. unfold GoogleMapsScraper._extract_hours, with_locals.
    unfold bind at 1. unfold try_except at 1. unfold bind at 1.
    unfold lift at 1. cbn [fst snd]. rewrite H1.
    unfold bind at 1. unfold lift at 1. cbn [fst snd]. rewrite H2. reflexivity. }
  assert (Hlist : forall button w1 w2 e w3,
    drv_find_element d (lit "button[data-item-id='oh']") w = (Ok button, w1) ->
    el_click d button w1 = (Ok tt, w2) ->
    drv_find_elements d (lit "table tr") w2 = (Raise e, w3) ->
    GoogleMapsScraper._extract_hours d w = (Ok [], w3)).
  { intros button w1 w2 e w3 H1 H2 H3.
    unfold GoogleMapsScraper._extract_hours, with_locals.
    unfold bind at 1. unfold try_except at 1. unfold bind at 1.
    unfold lift at 1. cbn [fst snd]. rewrite H1.
    unfold bind at 1. unfold lift at 1. cbn [fst snd]. rewrite H2.
    unfold bind at 1. unfold lift at 1. cbn [fst snd]. rewrite H3. reflexivity. }
  split; [|split; [exact Hbutton|split; [exact Hclick|split; [exact Hlist|split;
           [exact Hrows|]]]]].
  - unfold GoogleMapsScraper._extract_hours, with_locals.
    unfold bind at 1. unfold try_except at 1.
    match goal with |- context [match ?m (w, ?t0) with _ => _ end] =>
      assert (K : keeps (on_snd (fun h h' => hours_ok h -> hours_ok h')) m);
      [|specialize (K (w, t0)); destruct (m (w, t0)) as [[v|e] [w' h]]]
    end.
    + repeat keeps_locals_step.
      match goal with H : hours_ok _ |- _ => destruct H as [Hnd Hall] end. split.
      * apply dict_set_nodup. exact Hnd.
      * apply dict_set_forall; [|exact Hall].
        split; apply strip_idem.
    + simpl. do 2 eexists. split; [reflexivity|]. apply K. split; constructor.
    + simpl. do 2 eexists. split; [reflexivity|]. apply K. split; constructor.
  - intros h w' Hrun.
    destruct (drv_find_element d (lit "button[data-item-id='oh']") w)
      as [[button|e] w1] eqn:E1.
    2:{ rewrite (Hbutton e w1 eq_refl) in Hrun. injection Hrun as <- _. constructor. }
    destruct (el_click d button w1) as [[[]|e] w2] eqn:E2.
    2:{ rewrite (Hclick button w1 e w2 eq_refl E2) in Hrun.
        injection Hrun as <- _. constructor. }
    destruct (drv_find_elements d (lit "table tr") w2) as [[rows|e] w3] eqn:E3.
    2:{ rewrite (Hlist button w1 w2 e w3 eq_refl E2 E3) in Hrun.
        injection Hrun as <- _. constructor. }
    destruct (Hrows button w1 w2 rows w3 eq_refl E2 E3) as (h0 & w0 & Hrun0 & Hr).
    rewrite Hrun0 in Hrun. injection Hrun as <- _.
    eapply hours_rows_clean; [exact Hr | constructor].
Qed.

Lemma with_locals_finally {S T A} (t0 : T) (b : M (S * T) A) (q : M S unit) (w : S) :
  with_locals t0 (try_finally b (lift q)) w =
  match with_locals t0 (try_finally b (lift (ret tt))) w with
  | (r, w1) =>
      match q w1 with
      | (Ok _, w2) => (r, w2)
      | (Raise e, w2) => (Raise e, w2)
      end
  end.
Proof.
  unfold with_locals, try_finally, lift, ret.
  destruct (b (w, t0)) as [r [w1 t1]]. cbn [fst snd].
  destruct (q w1) as [[[]|e] w2]; reflexivity.
Qed.

(** The scraper is its work, in which [quit] is not called, followed by
    one call of [quit]. *)
Lemma scrape_then_quit kw loc mx (cb : Z -> Z -> M W unit) (w : W) :
  GoogleMapsScraper.scrape_google_maps_sync py_float d kw loc mx cb w =
  match GoogleMapsScraper.scrape_google_maps_sync py_float
          (with_quit d (ret tt)) kw loc mx cb w with
  | (r, w1) =>
      match drv_quit d w1 with
      | (Ok _, w2) => (r, w2)
      | (Raise e, w2) => (Raise e, w2)
      end
  end.
Proof.
  unfold GoogleMapsScraper.scrape_google_maps_sync.
  exact (with_locals_finally _ _ _ w).
Qed.
End ScraperFacts.

Section QuitOnce.
Context {F : Type} (py_float : str -> option F).
Context {W E : Type} (d : Driver W E).

Lemma same_count_preorder : PreOrder (fun a b : W * nat => snd a = snd b).
Proof. split; [intros a; reflexivity | intros a b c; congruence]. Qed.

(** Whatever the driver and the callback do, and whether the scraper
    returns or raises, [scrape_google_maps_sync] calls [quit] exactly
    once. *)
Theorem quit_called_once kw loc mx (cb : Z -> Z -> M W unit) (w : W) (n : nat) :
  snd (snd (GoogleMapsScraper.scrape_google_maps_sync py_float (counting_quit d)
              kw loc mx (fun a b => lift (cb a b)) (w, n))) = S n.
Proof.
  rewrite scrape_then_quit.
  pose proof same_count_preorder as HP.
  assert (Hlift : forall A (m : M W A),
            keeps (fun a b : W * nat => snd a = snd b) (lift m)).
  { intros A m [w0 n0]. unfold lift. simpl. destruct (m w0). reflexivity. }
  assert (Hd : DriverKeeps (fun a b : W * nat => snd a = snd b)
                 (with_quit (counting_quit d) (ret tt))).
  { split; intros; try apply Hlift. intros st. reflexivity. }
  pose proof (scrape_keeps py_float _ _ Hd kw loc mx (fun a b => lift (cb a b))
                (fun a b => Hlift _ (cb a b)) (w, n)) as K.
  destruct (GoogleMapsScraper.scrape_google_maps_sync py_float
              (with_quit (counting_quit d) (ret tt)) kw loc mx
              (fun a b => lift (cb a b)) (w, n)) as [r [w1 n1]].
  cbn [snd] in K. subst n1.
  cbn [counting_quit with_quit drv_quit fst snd].
  destruct (drv_quit d w1) as [[[]|e] w2]; reflexivity.
Qed.
End QuitOnce.


Section Cap.
Context {F : Type} (py_float : str -> option F).
Context {W E : Type} (d : Driver W E).

Lemma scroll_once_results mx (cb : Z -> Z -> M W unit) x (w : W)
    (fr : GoogleMapsScraper.Frame (F:=F)) :
  exists c w' fr',
    GoogleMapsScraper.scroll_once d mx cb x (w, fr) = (Ok c, (w', fr'))
    /\ GoogleMapsScraper.results fr' = GoogleMapsScraper.results fr.
Proof.
  unfold GoogleMapsScraper.scroll_once. run.
  destruct (drv_wait_presence d By_CSS_SELECTOR _ w) as [[panel|e] w1]; [|eauto 6].
  destruct (drv_execute_script d _ panel w1) as [[[]|e] w2]; [|eauto 6].
  destruct (cb _ mx w2) as [[[]|e] w3]; [|eauto 6].
  match goal with |- context [if ?b then _ else _] => destruct b end; eauto 6.
Qed.

Lemma scroll_loop_results mx (cb : Z -> Z -> M W unit) xs (w : W)
    (fr : GoogleMapsScraper.Frame (F:=F)) :
  exists w' fr',
    for_in xs (GoogleMapsScraper.scroll_once d mx cb) (w, fr) = (Ok tt, (w', fr'))
    /\ GoogleMapsScraper.results fr' = GoogleMapsScraper.results fr.
Proof.
  revert w fr. induction xs as [|x xs IH]; intros w fr; [simpl; eauto|].
  cbn [for_in]. unfold bind.
  destruct (scroll_once_results mx cb x w fr) as (c & w1 & fr1 & -> & H1).
  destruct c; [|eauto].
  destruct (IH w1 fr1) as (w2 & fr2 & -> & H2).
  exists w2, fr2. split; [reflexivity | congruence].
Qed.

Lemma listing_loop_bound mx (cb : Z -> Z -> M W unit) ls (w : W)
    (fr : GoogleMapsScraper.Frame (F:=F)) :
  exists w' fr',
    for_in ls (GoogleMapsScraper.process_listing py_float d mx cb) (w, fr)
      = (Ok tt, (w', fr'))
    /\ (length (GoogleMapsScraper.results fr')
        <= length (GoogleMapsScraper.results fr) + length ls)%nat.
Proof.
  revert w fr. induction ls as [|e ls IH]; intros w fr.
  - exists w, fr. split; [reflexivity | simpl; lia].
  - cbn [for_in]. unfold bind. rewrite process_listing_eq.
    destruct (el_click d e w) as [[[]|ex] w1].
    + destruct (extract_business_details_ok py_float d w1) as (bd & w2 & ->). cbv zeta.
      destruct (IH (snd (cb (len (GoogleMapsScraper.results
                                    (GoogleMapsScraper.append_result bd fr))) mx w2))
                  (GoogleMapsScraper.append_result bd fr)) as (w' & fr' & -> & Hlen).
      exists w', fr'. split; [reflexivity|].
      unfold GoogleMapsScraper.append_result in Hlen.
      cbn [GoogleMapsScraper.results] in Hlen.
      rewrite length_app in Hlen. simpl in *. lia.
    + destruct (IH w1 fr) as (w' & fr' & -> & Hlen).
      exists w', fr'. split; [reflexivity | simpl; lia].
Qed.

Lemma slice_to_length {A} (l : list A) (n : Z) :
  0 <= n -> (length (slice_to l n) <= Z.to_nat n)%nat.
Proof.
  intros Hn. unfold slice_to. destruct (0 <=? n) eqn:Hle; [|lia].
  rewrite length_firstn. lia.
Qed.

(** For a cap that is not negative the scraper never returns more records
    than the cap, whatever the page shows and whatever the callback
    does. *)
Theorem records_within_cap kw loc mx (cb : Z -> Z -> M W unit) (w w' : W) rs
    (Hcap : 0 <= mx)
    (Hrun : GoogleMapsScraper.scrape_google_maps_sync py_float d kw loc mx cb w
            = (Ok rs, w')) :
  len rs <= mx.
Proof.
  unfold GoogleMapsScraper.scrape_google_maps_sync,
    GoogleMapsScraper.paginating, GoogleMapsScraper.iterating in Hrun.
  run_in Hrun.
  destruct (drv_get d _ w) as [[[]|e] w1];
    [|destruct (drv_quit d w1) as [[[]|?] ?]; discriminate].
  destruct (drv_wait_presence d By_ID _ w1) as [[box|e] w2];
    [|destruct (drv_quit d w2) as [[[]|?] ?]; discriminate].
  destruct (el_clear d box w2) as [[[]|e] w3];
    [|destruct (drv_quit d w3) as [[[]|?] ?]; discriminate].
  destruct (el_send_keys d box _ w3) as [[[]|e] w4];
    [|destruct (drv_quit d w4) as [[[]|?] ?]; discriminate].
  destruct (el_send_keys d box Keys_ENTER w4) as [[[]|e] w5];
    [|destruct (drv_quit d w5) as [[[]|?] ?]; discriminate].
  match type of Hrun with context [for_in ?xs (GoogleMapsScraper.scroll_once d mx cb) (?s, ?f)] =>
    destruct (scroll_loop_results mx cb xs s f) as (w6 & fr6 & Hscroll & Hres6);
    rewrite Hscroll in Hrun
  end.
  destruct (drv_find_elements d _ w6) as [[ls|e] w7];
    [|destruct (drv_quit d w7) as [[[]|?] ?]; discriminate].
  match type of Hrun with context [for_in ?xs (GoogleMapsScraper.process_listing py_float d mx cb) (?s, ?f)] =>
    destruct (listing_loop_bound mx cb xs s f) as (w8 & fr8 & Hloop & Hlen8);
    rewrite Hloop in Hrun
  end.
  destruct (drv_quit d w8) as [[[]|?] ?]; [|discriminate].
  injection Hrun as <- <-.
  rewrite Hres6 in Hlen8. cbn in Hlen8.
  pose proof (slice_to_length ls mx Hcap). unfold len. lia.
Qed.
End Cap.

Section Ticks.
Context {F : Type} (py_float : str -> option F).
Context {W E : Type} (d : Driver W E).

Lemma details_leave_ticks (w : W) (t : list (Z * Z)) :
  exists bd w',
    GoogleMapsScraper._extract_business_details py_float (lift_driver d) (w, t)
    = (Ok bd, (w', t)).
Proof.
  assert (HP : PreOrder (fun a b : W * list (Z * Z) => snd a = snd b)).
  { split; [intros a; reflexivity | intros a b c; congruence]. }
  assert (Hd : DriverKeeps (fun a b : W * list (Z * Z) => snd a = snd b)
                 (lift_driver d)).
  { split; intros; intros [w0 t0]; cbn [lift_driver drv_start drv_get
      drv_wait_presence drv_execute_script drv_find_element drv_find_elements
      drv_current_url drv_quit el_clear el_send_keys el_click el_text
      el_get_attribute el_find_element]; unfold lift; simpl;
    match goal with |- context [match ?m with _ => _ end] => destruct m end;
    reflexivity. }
  pose proof (extract_business_details_keeps py_float _ _ Hd (w, t)) as K.
  destruct (extract_business_details_ok py_float (lift_driver d) (w, t))
    as (bd & [w' t'] & Heq).
  rewrite Heq in K. cbn [snd] in K. subst t'. eauto.
Qed.

Lemma record_tick_eq (c total : Z) (w : W) (t : list (Z * Z)) :
  record_tick c total (w, t) = (Ok tt, (w, t ++ [(c, total)])).
Proof. reflexivity. Qed.

Lemma listing_loop_ticks mx ls (w : W) (t : list (Z * Z))
    (fr : GoogleMapsScraper.Frame (F:=F)) :
  exists w' j fr',
    for_in ls (GoogleMapsScraper.process_listing py_float (lift_driver d) mx
                 record_tick) ((w, t), fr)
      = (Ok tt, ((w', t ++ ticks_from mx (S (length (GoogleMapsScraper.results fr))) j),
                 fr'))
    /\ length (GoogleMapsScraper.results fr')
       = (length (GoogleMapsScraper.results fr) + j)%nat
    /\ (j <= length ls)%nat.
Proof.
  revert w t fr. induction ls as [|e ls IH]; intros w t fr.
  - exists w, 0%nat, fr. unfold ticks_from. simpl. rewrite app_nil_r.
    split; [reflexivity|]. split; lia.
  - cbn [for_in]. unfold bind. rewrite process_listing_eq.
    cbn [lift_driver el_click]. unfold lift at 1. cbn [fst snd].
    destruct (el_click d e w) as [[[]|ex] w1].
    + destruct (details_leave_ticks w1 t) as (bd & w2 & ->). cbv zeta.
      rewrite record_tick_eq. cbn [snd].
      destruct (IH w2 (t ++ [(len (GoogleMapsScraper.results
                                     (GoogleMapsScraper.append_result bd fr)), mx)])
                  (GoogleMapsScraper.append_result bd fr))
        as (w' & j & fr' & -> & Hlen & Hj).
      exists w', (S j), fr'.
      unfold GoogleMapsScraper.append_result in *.
      cbn [GoogleMapsScraper.results] in *.
      rewrite length_app in *. cbn [length] in *.
      split; [|split; [lia | simpl; lia]].
      unfold ticks_from. cbn [seq map]. rewrite <- app_assoc. cbn [app].
      unfold len. rewrite length_app. cbn [length].
      replace (length (GoogleMapsScraper.results fr) + 1)%nat
        with (S (length (GoogleMapsScraper.results fr))) by lia.
      reflexivity.
    + destruct (IH w1 t fr) as (w' & j & fr' & -> & Hlen & Hj).
      exists w', j, fr'. split; [reflexivity|]. split; [exact Hlen | simpl; lia].
Qed.

Ltac stop_after w0 k0 :=
  match goal with
  | Hrun : _ = (_, (_, _)) |- _ =>
      exists k0, 0%nat;
      destruct (drv_quit d w0) as [[[]|?] ?]; injection Hrun as <- <- <-;
      (split; [unfold ticks_from; simpl; rewrite ?app_nil_r; reflexivity|]);
      (split; [assumption | discriminate])
  end.

(** The ticks of a scrape, for every driver: at most [cap // 20] ticks
    [(0, cap)] from the scroll loop, then [(1, cap)], [(2, cap)], ...,
    [(n, cap)] from the listing loop, where [n] is the number of records
    the scraper returns when it returns.  So [completed] never decreases
    from one tick to the next and [total] is the cap in all of them. *)
Theorem ticks_published kw loc mx (w : W) (t : list (Z * Z)) :
  exists k n,
    snd (snd (GoogleMapsScraper.scrape_google_maps_sync py_float (lift_driver d)
                kw loc mx record_tick (w, t)))
    = t ++ repeat (0, mx) k ++ ticks_from mx 1 n
    /\ (k <= Z.to_nat (mx / 20))%nat
    /\ (forall rs,
          fst (GoogleMapsScraper.scrape_google_maps_sync py_float (lift_driver d)
                 kw loc mx record_tick (w, t)) = Ok rs ->
          length rs = n).
Proof.
  destruct (GoogleMapsScraper.scrape_google_maps_sync py_float (lift_driver d)
              kw loc mx record_tick (w, t)) as [r [wf tf]] eqn:Hrun.
  cbn [fst snd].
  unfold GoogleMapsScraper.scrape_google_maps_sync,
    GoogleMapsScraper.iterating in Hrun.
  cbn [lift_driver drv_get drv_wait_presence drv_find_elements drv_quit
       el_clear el_send_keys] in Hrun.
  run_in Hrun.
  assert (H0 : (0 <= Z.to_nat (mx / 20))%nat) by lia.
  destruct (drv_get d _ w) as [[[]|e] w1]; [|stop_after w1 0%nat].
  destruct (drv_wait_presence d By_ID _ w1) as [[box|e] w2]; [|stop_after w2 0%nat].
  destruct (el_clear d box w2) as [[[]|e] w3]; [|stop_after w3 0%nat].
  destruct (el_send_keys d box _ w3) as [[[]|e] w4]; [|stop_after w4 0%nat].
  destruct (el_send_keys d box Keys_ENTER w4) as [[[]|e] w5]; [|stop_after w5 0%nat].
  match type of Hrun with
  | context [GoogleMapsScraper.paginating _ mx record_tick ((?w0, ?t0), ?f)] =>
    destruct (paginating_ticks d mx w0 t0 f eq_refl)
      as (w6 & k & fr6 & Hpag & Hk & Hres6);
    rewrite Hpag in Hrun
  end.
  destruct (drv_find_elements d _ w6) as [[ls|e] w7]; [|stop_after w7 k].
  match type of Hrun with
  | context [for_in ?xs (GoogleMapsScraper.process_listing _ _ mx record_tick)
               ((?w0, ?t0), ?f)] =>
    destruct (listing_loop_ticks mx xs w0 t0 f)
      as (w8 & n & fr8 & Hloop & Hlen & Hn);
    rewrite Hloop in Hrun
  end.
  rewrite Hres6 in Hlen, Hrun. cbn [length Nat.add] in Hlen, Hrun.
  exists k, n.
  destruct (drv_quit d w8) as [[[]|?] ?]; injection Hrun as <- <- <-;
    (split; [rewrite <- app_assoc; reflexivity|]);
    (split; [exact Hk|]).
  - intros rs Hrs. injection Hrs as <-. exact Hlen.
  - discriminate.
Qed.
End Ticks.

(** ** An invariant carried through a scrape

    [I c s] is any property of the state [s] indexed by a count [c] that
    the browser operations keep, that the callback keeps at count 0, and
    that the callback called with [c + 1] takes from [c] to [c + 1] as
    long as [c + 1] stays within the cap.  Such a property holds after the
    scrape at the number of records returned. *)

Section ScrapeInv.
Context {F : Type} (py_float : str -> option F).
Context {S E : Type} (d : Driver S E).
Context (I : Z -> S -> Prop).
Context (mx : Z) (cb : Z -> Z -> M S unit).
Hypothesis Hd : forall c, DriverKeeps (fun s s' => I c s -> I c s') d.
Hypothesis Hmx : 0 <= mx.
Hypothesis Hcb0 : forall s, I 0 s -> I 0 (snd (cb 0 mx s)).
Hypothesis Hcb1 : forall c s, 0 <= c -> c + 1 <= mx -> I c s -> I (c + 1) (snd (cb (c + 1) mx s)).

Lemma scroll_once_inv x (s : S) (fr : GoogleMapsScraper.Frame (F:=F)) :
  GoogleMapsScraper.results fr = [] -> I 0 s ->
  exists c s' fr',
    GoogleMapsScraper.scroll_once d mx cb x (s, fr) = (Ok c, (s', fr'))
    /\ GoogleMapsScraper.results fr' = [] /\ I 0 s'.
Proof.
  intros Hres HI. unfold GoogleMapsScraper.scroll_once. run.
  pose proof (k_wait _ _ (Hd 0) By_CSS_SELECTOR (lit "div[role='feed']") s) as K1.
  destruct (drv_wait_presence d By_CSS_SELECTOR _ s) as [[panel|e] s1];
    cbn [snd] in K1; [|eauto 8].
  pose proof (k_script _ _ (Hd 0) GoogleMapsScraper.scroll_script panel s1) as K2.
  destruct (drv_execute_script d _ panel s1) as [[[]|e] s2];
    cbn [snd] in K2; [|eauto 8].
  rewrite Hres. change (len (@nil (dict F))) with 0.
  change (GoogleMapsScraper.results_found
            (GoogleMapsScraper.set_results_found 0 fr)) with 0.
  pose proof (Hcb0 s2 (K2 (K1 HI))) as K3.
  destruct (cb 0 mx s2) as [[[]|e] s3]; cbn [snd] in K3.
  - destruct (0 >=? mx); do 3 eexists; (split; [reflexivity|]); split; auto.
  - do 3 eexists. split; [reflexivity|]. split; auto.
Qed.

Lemma scroll_loop_inv xs (s : S) (fr : GoogleMapsScraper.Frame (F:=F)) :
  GoogleMapsScraper.results fr = [] -> I 0 s ->
  exists s' fr',
    for_in xs (GoogleMapsScraper.scroll_once d mx cb) (s, fr) = (Ok tt, (s', fr'))
    /\ GoogleMapsScraper.results fr' = [] /\ I 0 s'.
Proof.
  revert s fr. induction xs as [|x xs IH]; intros s fr Hres HI; [simpl; eauto|].
  cbn [for_in]. unfold bind.
  destruct (scroll_once_inv x s fr Hres HI) as (c & s1 & fr1 & -> & H1 & HI1).
  destruct c; [|eauto].
  destruct (IH s1 fr1 H1 HI1) as (s2 & fr2 & -> & H2 & HI2). eauto.
Qed.

Lemma listing_loop_inv ls (s : S) (fr : GoogleMapsScraper.Frame (F:=F)) :
  len (GoogleMapsScraper.results fr) + len ls <= mx ->
  I (len (GoogleMapsScraper.results fr)) s ->
  exists s' fr',
    for_in ls (GoogleMapsScraper.process_listing py_float d mx cb) (s, fr)
      = (Ok tt, (s', fr'))
    /\ I (len (GoogleMapsScraper.results fr')) s'
    /\ len (GoogleMapsScraper.results fr')
       <= len (GoogleMapsScraper.results fr) + len ls.
Proof.
  revert s fr. induction ls as [|e ls IH]; intros s fr Hlen HI.
  - exists s, fr. split; [reflexivity|]. split; [exact HI | unfold len; simpl; lia].
  - cbn [for_in]. unfold bind. rewrite process_listing_eq.
    assert (Hcons : len (e :: ls) = len ls + 1) by (unfold len; simpl length; lia).
    pose proof (k_click _ _ (Hd (len (GoogleMapsScraper.results fr))) e s) as K1.
    destruct (el_click d e s) as [[[]|ex] s1]; cbn [snd] in K1.
    + pose proof (extract_business_details_keeps py_float d _
                    (Hd (len (GoogleMapsScraper.results fr))) s1) as K2.
      destruct (extract_business_details_ok py_float d s1) as (bd & s2 & Hbd).
      rewrite Hbd in K2 |- *. cbn [snd] in K2. cbv zeta.
      assert (Hnew : len (GoogleMapsScraper.results
                            (GoogleMapsScraper.append_result bd fr))
                     = len (GoogleMapsScraper.results fr) + 1).
      { unfold GoogleMapsScraper.append_result, len.
        cbn [GoogleMapsScraper.results]. rewrite length_app. simpl length. lia. }
      rewrite Hnew.
      assert (Hpos : 0 <= len (GoogleMapsScraper.results fr)) by (unfold len; lia).
      assert (Hle : len (GoogleMapsScraper.results fr) + 1 <= mx)
        by (unfold len in *; lia).
      pose proof (Hcb1 _ s2 Hpos Hle (K2 (K1 HI))) as K3.
      rewrite <- Hnew in K3 at 1.
      destruct (IH (snd (cb (len (GoogleMapsScraper.results fr) + 1) mx s2))
                  (GoogleMapsScraper.append_result bd fr)) as (s' & fr' & -> & HI' & Hb).
      * rewrite Hnew. lia.
      * exact K3.
      * exists s', fr'. split; [reflexivity|]. split; [exact HI'|]. lia.
    + destruct (IH s1 fr) as (s' & fr' & -> & HI' & Hb); [lia | auto |].
      exists s', fr'. split; [reflexivity|]. split; [exact HI' | lia].
Qed.

Lemma len_slice_to {A} (l : list A) : len (slice_to l mx) <= mx.
Proof.
  unfold slice_to, len. destruct (0 <=? mx) eqn:Hle; [|lia].
  rewrite length_firstn. lia.
Qed.

Lemma scrape_inv kw loc (s : S) :
  I 0 s ->
  exists c,
    0 <= c <= mx
    /\ I c (snd (GoogleMapsScraper.scrape_google_maps_sync py_float d kw loc mx cb s))
    /\ (forall rs,
          fst (GoogleMapsScraper.scrape_google_maps_sync py_float d kw loc mx cb s)
          = Ok rs -> len rs = c).
Proof.
  intros HI.
  destruct (GoogleMapsScraper.scrape_google_maps_sync py_float d kw loc mx cb s)
    as [r sf] eqn:Hrun.
  cbn [fst snd].
  unfold GoogleMapsScraper.scrape_google_maps_sync,
    GoogleMapsScraper.paginating, GoogleMapsScraper.iterating in Hrun.
  run_in Hrun.
  assert (Hquit : forall c s0, 0 <= c <= mx -> I c s0 ->
            forall r0 : Res (list (dict F)),
            (forall rs, r0 = Ok rs -> len rs = c) ->
            exists c',
              0 <= c' <= mx
              /\ I c' (snd (drv_quit d s0))
              /\ (forall rs,
                    match fst (drv_quit d s0) with
                    | Ok _ => r0
                    | Raise e => Raise e
                    end = Ok rs -> len rs = c')).
  { intros c s0 Hc Hs0 r0 Hr0. exists c. split; [exact Hc|].
    split; [apply (k_quit _ _ (Hd c)); exact Hs0|].
    destruct (fst (drv_quit d s0)); [exact Hr0 | discriminate]. }
  assert (H00 : 0 <= 0 <= mx) by lia.
  pose proof (k_get _ _ (Hd 0) (lit "https://www.google.com/maps") s) as K1.
  destruct (drv_get d _ s) as [[[]|e] s1]; cbn [snd] in K1.
  2:{ destruct (Hquit 0 s1 H00 (K1 HI) (Raise e)) as (c & Hc & Hq & Hr); [discriminate|].
      exists c. destruct (drv_quit d s1) as [[[]|?] ?]; injection Hrun as <- <-; auto. }
  pose proof (k_wait _ _ (Hd 0) By_ID (lit "searchboxinput") s1) as K2.
  destruct (drv_wait_presence d By_ID _ s1) as [[box|e] s2]; cbn [snd] in K2.
  2:{ destruct (Hquit 0 s2 H00 (K2 (K1 HI)) (Raise e)) as (c & Hc & Hq & Hr); [discriminate|].
      exists c. destruct (drv_quit d s2) as [[[]|?] ?]; injection Hrun as <- <-; auto. }
  pose proof (k_clear _ _ (Hd 0) box s2) as K3.
  destruct (el_clear d box s2) as [[[]|e] s3]; cbn [snd] in K3.
  2:{ destruct (Hquit 0 s3 H00 (K3 (K2 (K1 HI))) (Raise e)) as (c & Hc & Hq & Hr); [discriminate|].
      exists c. destruct (drv_quit d s3) as [[[]|?] ?]; injection Hrun as <- <-; auto. }
  match type of Hrun with context [el_send_keys d box ?k s3] =>
    pose proof (k_keys _ _ (Hd 0) box k s3) as K4;
    destruct (el_send_keys d box k s3) as [[[]|e] s4]; cbn [snd] in K4
  end.
  2:{ destruct (Hquit 0 s4 H00 (K4 (K3 (K2 (K1 HI)))) (Raise e)) as (c & Hc & Hq & Hr); [discriminate|].
      exists c. destruct (drv_quit d s4) as [[[]|?] ?]; injection Hrun as <- <-; auto. }
  pose proof (k_keys _ _ (Hd 0) box Keys_ENTER s4) as K5.
  destruct (el_send_keys d box Keys_ENTER s4) as [[[]|e] s5]; cbn [snd] in K5.
  2:{ destruct (Hquit 0 s5 H00 (K5 (K4 (K3 (K2 (K1 HI))))) (Raise e)) as (c & Hc & Hq & Hr); [discriminate|].
      exists c. destruct (drv_quit d s5) as [[[]|?] ?]; injection Hrun as <- <-; auto. }
  match type of Hrun with
  | context [for_in ?xs (GoogleMapsScraper.scroll_once d mx cb) (?s0, ?f)] =>
    destruct (scroll_loop_inv xs s0 f eq_refl (K5 (K4 (K3 (K2 (K1 HI))))))
      as (s6 & fr6 & Hscroll & Hres6 & HI6);
    rewrite Hscroll in Hrun
  end.
  pose proof (k_finds _ _ (Hd 0) (lit "div[role='article']") s6) as K7.
  destruct (drv_find_elements d _ s6) as [[ls|e] s7]; cbn [snd] in K7.
  2:{ destruct (Hquit 0 s7 H00 (K7 HI6) (Raise e)) as (c & Hc & Hq & Hr); [discriminate|].
      exists c. destruct (drv_quit d s7) as [[[]|?] ?]; injection Hrun as <- <-; auto. }
  match type of Hrun with
  | context [for_in ?xs (GoogleMapsScraper.process_listing py_float d mx cb) (?s0, ?f)] =>
    destruct (listing_loop_inv xs s0 f) as (s8 & fr8 & Hloop & HI8 & Hlen8);
      [rewrite Hres6; pose proof (len_slice_to ls); unfold len in *; simpl; lia
      |rewrite Hres6; exact (K7 HI6)
      |rewrite Hloop in Hrun]
  end.
  rewrite Hres6 in Hlen8. pose proof (len_slice_to ls) as Hsl.
  assert (Hc8 : 0 <= len (GoogleMapsScraper.results fr8) <= mx)
    by (unfold len in *; simpl in *; lia).
  destruct (Hquit _ s8 Hc8 HI8 (Ok (GoogleMapsScraper.results fr8)))
    as (c & Hc & Hq & Hr).
  { intros rs Hrs. injection Hrs as <-. reflexivity. }
  exists c. destruct (drv_quit d s8) as [[[]|?] ?]; injection Hrun as <- <-; auto.
Qed.
End ScrapeInv.

(** ** [backend/main.py]: the life of a session *)

Section Lifecycle.
Context {F : Type} (py_float : str -> option F).
Context {W E : Type} (d : Driver W E).
Context (datetime_now : W -> Z * W) (uuid4 : W -> str * W).
Context (exn_str : exn -> str) (percent : Z -> Z -> F).
Context (json_dump : str -> Main.JsonData (F:=F) -> M W unit).

Abbreviation St := (Main.St (F:=F) (W:=W)).
Abbreviation App := (Main.App (F:=F)).

Lemma keeps_driver_trivial {S0 E0} (d0 : Driver S0 E0) :
  DriverKeeps (fun s s' : S0 => True -> True) d0.
Proof. split; intros; intros ? ?; exact Logic.I. Qed.


Lemma steady_refl session (a : App) : steady session a a.
Proof. unfold steady. repeat split; reflexivity. Qed.

Lemma steady_trans session (a b c : App) :
  steady session a b -> steady session b c -> steady session a c.
Proof.
  unfold steady. intros (H1 & H2 & H3 & H4 & H5 & H6 & H7 & H8)
    (G1 & G2 & G3 & G4 & G5 & G6 & G7 & G8).
  repeat split; try congruence.
  intros r Hr. rewrite G4, H4 by exact Hr. reflexivity.
Qed.

#[local] Instance untouched_preorder session :
  PreOrder (fun st st' : St => untouched session (snd st) (snd st')).
Proof.
  split.
  - intros st. split; [apply steady_refl | repeat split; reflexivity].
  - intros x y z (H0 & H1 & H2 & H3 & H4 & H5) (G0 & G1 & G2 & G3 & G4 & G5).
    split; [eapply steady_trans; eassumption | repeat split; congruence].
Qed.

Lemma lift_untouched session {A} (m : M W A) :
  keeps (fun st st' : St => untouched session (snd st) (snd st')) (lift m).
Proof.
  intros [w a]. unfold lift. simpl. destruct (m w) as [r w']. simpl.
  split; [apply steady_refl | repeat split; reflexivity].
Qed.

Lemma app_driver_untouched session :
  DriverKeeps (fun st st' : St => untouched session (snd st) (snd st'))
    (Main.app_driver d).
Proof. split; intros; apply lift_untouched. Qed.

Lemma progress_callback_untouched session c t :
  keeps (fun st st' : St => untouched session (snd st) (snd st'))
    (Main.progress_callback session c t).
Proof.
  intros [w a]. unfold untouched, steady. simpl. rewrite Nat.eqb_refl. simpl.
  repeat split; try reflexivity.
  intros r Hr. apply Nat.eqb_neq in Hr. rewrite Hr. reflexivity.
Qed.

Ltac fields :=
  cbn [Main.heap Main.next_ref Main.scraping_sessions Main.background_tasks
       Main.history Main.status Main.results Main.error_message Main.start_time
       Main.end_time Main.session_id Main.keywords Main.location Main.max_results
       Main.completed Main.total
       Main.set_status Main.set_start_time Main.set_end_time Main.set_results
       Main.set_error_message Main.set_completed Main.set_total fst snd] in *.

Ltac finish K3 K4 :=
  unfold outcome, untouched, steady in *; fields;
  rewrite ?Nat.eqb_refl in *; fields;
  destruct K3 as ((H1 & H2 & H3 & H4 & H5 & H6 & H7 & H8) & H9 & H10 & H11 & H12 & H13);
  destruct K4 as ((G1 & G2 & G3 & G4 & G5 & G6 & G7 & G8) & G9 & G10 & G11 & G12 & G13);
  split; [split; [congruence|]; split; [congruence|]; split; [congruence|];
          split; [intros r0 Hr0; pose proof Hr0 as Hr1; apply Nat.eqb_neq in Hr1;
                  rewrite Hr1; etransitivity; [apply G4; exact Hr0|];
                  etransitivity; [apply H4; exact Hr0|]; rewrite Hr1; reflexivity|];
          repeat split; congruence|];
  split; [eexists; etransitivity; [apply G12|]; etransitivity; [apply H12|]; reflexivity|];
  split; [eexists; reflexivity|].

Lemma run_outcome session (st : St) :
  outcome exn_str session (snd st)
    (snd (snd (Main.run_scraping_task py_float d datetime_now exn_str session st))).
Proof.
  destruct (Main.run_scraping_task py_float d datetime_now exn_str session st)
    as [r st'] eqn:H.
  destruct st as [w a]. cbn [snd].
  unfold Main.run_scraping_task, Main.setattr, Main.now, Main.getattr in H.
  run_in H.
  destruct (datetime_now w) as [t0 w1]. fields.
  match type of H with context [GoogleMapsScraper.__init__ ?drv (?w2, ?a2)] =>
    pose proof (init_keeps drv _ (app_driver_untouched session) (w2, a2)) as K3;
    destruct (GoogleMapsScraper.__init__ drv (w2, a2)) as [[[]|e3] [w3 a3]]
  end; fields; rewrite ?Nat.eqb_refl in K3; fields.
  - match type of H with
    | context [GoogleMapsScraper.scrape_google_maps_sync ?pf ?drv ?kw ?loc ?mx ?cb ?s] =>
      pose proof (scrape_keeps pf drv _ (app_driver_untouched session)
                    kw loc mx cb (progress_callback_untouched session) s) as K4;
      pose proof (fun Hmx : 0 <= mx =>
                    scrape_inv pf drv (fun _ _ => True) mx cb
                      (fun _ => keeps_driver_trivial drv) Hmx
                      (fun _ _ => Logic.I) (fun _ _ _ _ _ => Logic.I) kw loc s Logic.I) as Hcap;
      destruct (GoogleMapsScraper.scrape_google_maps_sync pf drv kw loc mx cb s)
        as [[res|e4] [w4 a4]]
    end; fields.
    + destruct (datetime_now w4) as [t1 w5]. fields. injection H as <- <-.
      finish K3 K4.
      left. split; [reflexivity|]. split; [congruence|].
      intros Hmx. destruct Hcap as (c & Hc & _ & Hlen); [congruence|].
      rewrite (Hlen res eq_refl). assert (Main.max_results (Main.heap a3 session) = Main.max_results (Main.heap a session)) by congruence. lia.
    + destruct (datetime_now w4) as [t1 w5]. fields. injection H as <- <-.
      finish K3 K4.
      right. split; [reflexivity|]. split; [congruence|]. eexists; reflexivity.
  - destruct (datetime_now w3) as [t1 w5]. fields. injection H as <- <-.
    assert (K4 : untouched session a3 a3)
      by (split; [apply steady_refl | repeat split; reflexivity]).
    finish K3 K4.
    right. split; [reflexivity|]. split; [congruence|]. eexists; reflexivity.
Qed.
Lemma nondecreasing_snoc (l : list Z) (c : Z) :
  nondecreasing l -> List.Forall (fun x => x <= c) l -> nondecreasing (l ++ [c]).
Proof.
  intros Hl Hc i j x y Hij Hi Hj.
  destruct (Nat.lt_ge_cases j (length l)) as [Hjl|Hjl].
  - rewrite nth_error_app1 in Hi, Hj by lia. exact (Hl i j x y Hij Hi Hj).
  - rewrite (nth_error_app2 l [c]) in Hj by lia.
    destruct (j - length l)%nat as [|k] eqn:Hk; [|destruct k; discriminate].
    injection Hj as <-.
    destruct (Nat.lt_ge_cases i (length l)) as [Hil|Hil].
    + rewrite nth_error_app1 in Hi by lia.
      rewrite List.Forall_forall in Hc. apply Hc. eapply nth_error_In; eassumption.
    + rewrite (nth_error_app2 l [c]) in Hi by lia.
      destruct (i - length l)%nat as [|k]; [|destruct k; discriminate].
      injection Hi as <-. lia.
Qed.

Lemma counted_setattr session mx (a0 : App) c c' set (st : St) :
  counted session mx a0 (snd st) c -> c <= c' <= mx ->
  Main.max_results (set (Main.heap (snd st) session))
  = Main.max_results (Main.heap (snd st) session) ->
  Main.total (set (Main.heap (snd st) session)) = mx ->
  Main.completed (set (Main.heap (snd st) session)) = c' ->
  counted session mx a0 (snd (snd (Main.setattr session set st))) c'.
Proof.
  intros (Hc & Hmx & Htot & Hcomp & new & Hh & Hall & Hnd) Hc' S1 S2 S3.
  destruct st as [w a]. unfold Main.setattr, modify. cbn [fst snd] in *.
  unfold counted. cbn [Main.heap Main.history]. rewrite Nat.eqb_refl.
  split; [lia|]. split; [congruence|]. split; [exact S2|]. split; [exact S3|].
  exists (new ++ [(session, set (Main.heap a session))]).
  split; [rewrite Hh, <- app_assoc; reflexivity|].
  split.
  - apply Forall_app. split.
    + eapply List.Forall_impl; [|exact Hall]. cbv beta. intros e (? & ? & ?).
      split; [assumption|]. split; [assumption|]. lia.
    + constructor; [|constructor]. cbn [fst snd]. split; [reflexivity|].
      split; [exact S2|]. lia.
  - rewrite map_app. cbn [map snd]. rewrite S3. apply nondecreasing_snoc; [exact Hnd|].
    rewrite List.Forall_map. eapply List.Forall_impl; [|exact Hall].
    cbv beta. intros e (? & ? & ?). lia.
Qed.

Lemma counted_callback session mx (a0 : App) c c' (st : St) :
  counted session mx a0 (snd st) c -> c <= c' <= mx ->
  counted session mx a0 (snd (snd (Main.progress_callback session c' mx st))) c'.
Proof.
  intros H Hc'. unfold Main.progress_callback, bind.
  assert (Htot : Main.total (Main.heap (snd st) session) = mx) by apply H.
  pose proof (counted_setattr session mx a0 c c' (Main.set_completed c') st H Hc'
                eq_refl Htot eq_refl) as K1.
  destruct (Main.setattr session (Main.set_completed c') st) as [[[]|e] st1] eqn:E1;
    [|discriminate E1].
  cbn [snd] in K1.
  apply (counted_setattr session mx a0 c' c' (Main.set_total mx) st1 K1);
    [lia | reflexivity | reflexivity | apply K1].
Qed.

Lemma lift_counted session mx (a0 : App) c {A} (m : M W A) :
  keeps (fun st st' : St => counted session mx a0 (snd st) c
                            -> counted session mx a0 (snd st') c) (lift m).
Proof.
  intros [w a]. unfold lift. simpl. destruct (m w) as [r w']. simpl. auto.
Qed.

Lemma app_driver_counted session mx (a0 : App) c :
  DriverKeeps (fun st st' : St => counted session mx a0 (snd st) c
                                  -> counted session mx a0 (snd st') c)
    (Main.app_driver d).
Proof. split; intros; apply lift_counted. Qed.

Lemma counted_start session (a : App) :
  Main.completed (Main.heap a session) = 0 ->
  Main.total (Main.heap a session) = Main.max_results (Main.heap a session) ->
  0 <= Main.max_results (Main.heap a session) ->
  counted session (Main.max_results (Main.heap a session)) a a 0.
Proof.
  intros H0 Ht Hmx. split; [lia|]. split; [reflexivity|]. split; [exact Ht|].
  split; [exact H0|]. exists []. split; [rewrite app_nil_r; reflexivity|].
  split; [constructor|]. intros i j x y _ Hi. destruct i; discriminate.
Qed.

Lemma counted_extend session mx (a0 a a' : App) c extra :
  counted session mx a0 a c ->
  Main.history a' = Main.history a ++ extra ->
  List.Forall (fun e => fst e = session /\ Main.total (snd e) = mx
                        /\ Main.completed (snd e) = c) extra ->
  Main.max_results (Main.heap a' session) = mx ->
  Main.total (Main.heap a' session) = mx ->
  Main.completed (Main.heap a' session) = c ->
  counted session mx a0 a' c.
Proof.
  intros (Hc & _ & _ & _ & new & Hh & Hall & Hnd) Hh' Hex H1 H2 H3.
  split; [exact Hc|]. split; [exact H1|]. split; [exact H2|]. split; [exact H3|].
  exists (new ++ extra). split; [rewrite Hh', Hh, <- app_assoc; reflexivity|].
  clear Hh Hh' H1 H2 H3.
  induction extra as [|e extra IH] using rev_ind.
  - rewrite app_nil_r. split; assumption.
  - apply Forall_app in Hex as [Hex He]. apply List.Forall_inv in He.
    destruct (IH Hex) as [IH1 IH2]. destruct He as (E1 & E2 & E3).
    rewrite app_assoc. split.
    + apply Forall_app. split; [exact IH1|]. constructor; [|constructor].
      split; [exact E1|]. split; [exact E2|]. lia.
    + rewrite map_app. cbn [map]. rewrite E3. apply nondecreasing_snoc; [exact IH2|].
      rewrite List.Forall_map. eapply List.Forall_impl; [|exact IH1].
      cbv beta. intros x (? & ? & ?). lia.
Qed.

Ltac extend K :=
  let Km := fresh "Km" in let Kt := fresh "Kt" in let Kc := fresh "Kc" in
  pose proof K as (_ & Km & Kt & Kc & _);
  eapply counted_extend;
  [exact K
  |cbn [Main.history]; rewrite <- ?app_assoc; reflexivity
  |repeat (constructor;
           [fields; rewrite ?Nat.eqb_refl; fields;
            split; [reflexivity|split; assumption]|]);
   constructor
  |fields; rewrite ?Nat.eqb_refl; fields; assumption ..].

Lemma run_counted session (st : St)
    (Hzero : Main.completed (Main.heap (snd st) session) = 0)
    (Htotal : Main.total (Main.heap (snd st) session)
              = Main.max_results (Main.heap (snd st) session))
    (Hcap : 0 <= Main.max_results (Main.heap (snd st) session)) :
  let mx := Main.max_results (Main.heap (snd st) session) in
  let a' := snd (snd (Main.run_scraping_task py_float d datetime_now exn_str session st)) in
  exists c, counted session mx (snd st) a' c
    /\ (Main.status (Main.heap a' session) = Main.StCompleted ->
        len (Main.results (Main.heap a' session)) = c).
Proof.
  intros mx a'. subst a'.
  pose proof (counted_start session (snd st) Hzero Htotal Hcap) as K0.
  fold mx in K0, Hcap. clearbody mx. clear Hzero Htotal.
  destruct (Main.run_scraping_task py_float d datetime_now exn_str session st)
    as [r st'] eqn:H.
  destruct st as [w a]. cbn [snd] in *.
  unfold Main.run_scraping_task, Main.setattr, Main.now, Main.getattr in H.
  run_in H.
  destruct (datetime_now w) as [t0 w1]. fields.
  match type of H with context [GoogleMapsScraper.__init__ ?drv (?w2, ?a2)] =>
    assert (K2 : counted session mx a a2 0) by extend K0;
    pose proof (init_keeps drv _ (app_driver_counted session mx a 0) (w2, a2) K2) as K3;
    destruct (GoogleMapsScraper.__init__ drv (w2, a2)) as [[[]|e3] [w3 a3]]
  end; fields; clear K2.
  - pose proof K3 as (_ & Km & _).
    rewrite Km in H.
    match type of H with
    | context [GoogleMapsScraper.scrape_google_maps_sync ?pf ?drv ?kw ?loc mx ?cb ?s] =>
      destruct (scrape_inv pf drv
                  (fun c (s0 : St) => counted session mx a (snd s0) c) mx cb
                  (app_driver_counted session mx a) Hcap
                  (fun s0 K => counted_callback session mx a 0 0 s0 K
                                 (conj (Z.le_refl 0) Hcap))
                  (fun c s0 Hc Hc' K => counted_callback session mx a c (c + 1) s0 K
                                 (conj (Z.le_succ_diag_r c) Hc'))
                  kw loc s K3) as (c & Hc & K4 & Hlen);
      destruct (GoogleMapsScraper.scrape_google_maps_sync pf drv kw loc mx cb s)
        as [[res|e4] [w4 a4]]
    end; fields.
    + destruct (datetime_now w4) as [t1 w5]. fields. injection H as <- <-.
      exists c. split; [extend K4|].
      intros _. fields. rewrite ?Nat.eqb_refl. fields. apply Hlen. reflexivity.
    + destruct (datetime_now w4) as [t1 w5]. fields. injection H as <- <-.
      exists c. split; [extend K4|].
      fields. rewrite ?Nat.eqb_refl. fields. discriminate.
  - destruct (datetime_now w3) as [t1 w5]. fields. injection H as <- <-.
    exists 0. split; [extend K3|].
    fields. rewrite ?Nat.eqb_refl. fields. discriminate.
Qed.

Lemma get_progress_eq (sid : str) (st : St) :
  Main.get_progress percent sid st =
  match Main.scraping_sessions (snd st) !! sid with
  | None => (Raise (HTTPException 404 (lit "Session not found")), st)
  | Some session =>
      let s := Main.heap (snd st) session in
      (Ok {| Main.pr_session_id := sid;
             Main.pr_status := Main.status s;
             Main.pr_completed := Main.completed s;
             Main.pr_total := Main.total s;
             Main.pr_progress_percentage :=
               if Main.total s >? 0
               then inl (percent (Main.completed s) (Main.total s)) else inr 0;
             Main.pr_error_message := Main.error_message s;
             Main.pr_start_time := Main.start_time s;
             Main.pr_end_time := Main.end_time s |}, st)
  end.
Proof.
  unfold Main.get_progress. unfold bind at 1. rewrite lookup_session_eq.
  destruct (Main.scraping_sessions (snd st) !! sid) as [session|]; [|reflexivity].
  destruct st as [w a]. reflexivity.
Qed.

Lemma start_scraping_valid (request : Main.ScrapeRequest) (st : St) :
  Main.req_keywords request <> [] -> Main.req_location request <> [] ->
  1 <= Main.req_max_results request <= 500 ->
  Main.start_scraping uuid4 exn_str request st =
    (Ok (fst (uuid4 (fst st)), lit "started"),
     Main.created request (fst (uuid4 (fst st))) (snd (uuid4 (fst st))) (snd st)).
Proof.
  intros Hkw Hloc Hmx. unfold Main.start_scraping, try_except, bind.
  replace (Main.is_empty (Main.req_keywords request)
           || Main.is_empty (Main.req_location request)) with false
    by (destruct (Main.req_keywords request); [congruence|];
        destruct (Main.req_location request); [congruence | reflexivity]).
  simpl.
  replace ((Main.req_max_results request <=? 0)
           || (Main.req_max_results request >? 500)) with false
    by (symmetry; apply orb_false_intro;
        [apply Z.leb_gt | rewrite Z.gtb_ltb; apply Z.ltb_ge]; lia).
  simpl. unfold Main.new_uuid. destruct st as [w a]; simpl.
  destruct (uuid4 w) as [sid w']. reflexivity.
Qed.

(** [run_scraping_task] never raises and works on its own session only:
    the registry, the task queue and every other session object are as
    before, and so are the identifier and the query of the session.  When
    it returns both timestamps are set and the session is either
    completed, with the error message it had and, for a cap that is not
    negative, at most [max_results] records, or in error, with the records
    it had and the text of the exception as its message. *)
Theorem task_outcome session (st : St) :
  let out := Main.run_scraping_task py_float d datetime_now exn_str session st in
  fst out = Ok tt /\ outcome exn_str session (snd st) (snd (snd out)).
Proof.
  cbv zeta. split; [|apply run_outcome].
  destruct (Main.run_scraping_task py_float d datetime_now exn_str session st)
    as [r st'] eqn:H.
  apply run_shape in H. apply H.
Qed.

(** The counter of a session made for a cap that is not negative
    ([completed] 0, [total] the cap): whatever the browser does, every
    assignment of the run leaves [total] at the cap and [completed]
    between 0 and its final value, which is at most the cap; [completed]
    never goes down; and when the session ends completed the counter is
    the number of records stored. *)
Theorem progress_counts session (st : St)
    (Hzero : Main.completed (Main.heap (snd st) session) = 0)
    (Htotal : Main.total (Main.heap (snd st) session)
              = Main.max_results (Main.heap (snd st) session))
    (Hcap : 0 <= Main.max_results (Main.heap (snd st) session)) :
  let mx := Main.max_results (Main.heap (snd st) session) in
  let a' := snd (snd (Main.run_scraping_task py_float d datetime_now exn_str session st)) in
  let s' := Main.heap a' session in
  Main.total s' = mx
  /\ 0 <= Main.completed s' <= mx
  /\ (Main.status s' = Main.StCompleted -> Main.completed s' = len (Main.results s'))
  /\ exists new,
       Main.history a' = Main.history (snd st) ++ new
       /\ List.Forall (fun e => Main.total (snd e) = mx
                                /\ 0 <= Main.completed (snd e) <= Main.completed s') new
       /\ nondecreasing (map (fun e => Main.completed (snd e)) new).
Proof.
  intros mx a' s'.
  destruct (run_counted session st Hzero Htotal Hcap)
    as (c & (Hc & _ & Ht & Hcomp & new & Hh & Hall & Hnd) & Hlen).
  fold mx a' s' in Ht, Hcomp, Hh, Hall, Hlen.
  split; [exact Ht|]. split; [lia|].
  split; [intros Hs; rewrite Hcomp; symmetry; apply Hlen; exact Hs|].
  exists new. split; [exact Hh|]. split; [|exact Hnd].
  eapply List.Forall_impl; [|exact Hall]. cbv beta. intros e (_ & ? & ?).
  split; [assumption | lia].
Qed.

(** After [start_scraping] has accepted a request, polling the identifier
    it returned gives an idle session with nothing counted of
    [max_results], a percentage that is a float and no timestamps;
    [get_results] for it answers 400; the answers for every other
    identifier are those from before the request; and the registry still
    refers to objects that were made. *)
Theorem start_then_poll (request : Main.ScrapeRequest) (st : St)
    (Hkw : Main.req_keywords request <> [])
    (Hloc : Main.req_location request <> [])
    (Hmx : 1 <= Main.req_max_results request <= 500)
    (Hreg : registered_below (snd st)) :
  let out := Main.start_scraping uuid4 exn_str request st in
  let sid := fst (uuid4 (fst st)) in
  let mx := Main.req_max_results request in
  fst out = Ok (sid, lit "started")
  /\ Main.get_progress percent sid (snd out) =
       (Ok {| Main.pr_session_id := sid; Main.pr_status := Main.StIdle;
              Main.pr_completed := 0; Main.pr_total := mx;
              Main.pr_progress_percentage := inl (percent 0 mx);
              Main.pr_error_message := None; Main.pr_start_time := None;
              Main.pr_end_time := None |}, snd out)
  /\ Main.get_results sid (snd out) =
       (Raise (HTTPException 400 (lit "Scraping not completed yet")), snd out)
  /\ (forall sid', sid' <> sid ->
        fst (Main.get_progress percent sid' (snd out))
          = fst (Main.get_progress percent sid' st)
        /\ fst (Main.get_results sid' (snd out)) = fst (Main.get_results sid' st))
  /\ registered_below (snd (snd out)).
Proof.
  intros out sid mx. subst out.
  rewrite (start_scraping_valid request st Hkw Hloc Hmx). fold sid. cbn [fst snd].
  destruct st as [w a]. cbn [fst snd] in *.
  set (w' := snd (uuid4 w)). clearbody w' sid.
  split; [reflexivity|].
  split.
  { rewrite get_progress_eq. unfold Main.created. cbn [snd Main.scraping_sessions].
    rewrite lookup_insert_eq. cbv zeta. cbn [Main.heap]. rewrite Nat.eqb_refl.
    cbn [Main.new_session Main.status Main.completed Main.total Main.error_message
         Main.start_time Main.end_time]. fold mx.
    replace (mx >? 0) with true by (symmetry; rewrite Z.gtb_ltb; apply Z.ltb_lt; lia).
    reflexivity. }
  split.
  { rewrite get_results_eq. unfold Main.created. cbn [snd Main.scraping_sessions].
    rewrite lookup_insert_eq. cbv zeta. cbn [Main.heap]. rewrite Nat.eqb_refl.
    reflexivity. }
  split.
  { intros sid' Hne. rewrite !get_progress_eq, !get_results_eq.
    unfold Main.created. cbn [snd Main.scraping_sessions Main.heap].
    rewrite lookup_insert_ne by congruence.
    destruct (Main.scraping_sessions a !! sid') as [r|] eqn:Er; [|split; reflexivity].
    cbv zeta.
    assert (Hr : (r =? Main.next_ref a)%nat = false)
      by (apply Nat.eqb_neq; specialize (Hreg sid' r Er); lia).
    rewrite Hr. split; [reflexivity|].
    destruct (Main.status (Main.heap a r)); reflexivity. }
  intros sid' r. unfold Main.created. cbn [snd Main.scraping_sessions Main.next_ref].
  destruct (decide (sid = sid')) as [<-|Hne].
  - rewrite lookup_insert_eq. intros [= <-]. lia.
  - rewrite lookup_insert_ne by exact Hne. intros Hr. specialize (Hreg sid' r Hr). lia.
Qed.

(** From request to results: once the task of an accepted request has
    run, [get_progress] for the returned identifier succeeds with [total]
    the requested cap, [completed] between 0 and the cap, a float
    percentage and both timestamps; either the status is completed with no
    error message, and [get_results] returns the query of the request and
    as many records as [completed] says, or the status is error with the
    text of an exception, and [get_results] answers 400.  Neither call
    changes the state. *)
Theorem session_lifecycle (request : Main.ScrapeRequest) (st : St)
    (Hkw : Main.req_keywords request <> [])
    (Hloc : Main.req_location request <> [])
    (Hmx : 1 <= Main.req_max_results request <= 500) :
  let sid := fst (uuid4 (fst st)) in
  let mx := Main.req_max_results request in
  let started := snd (Main.start_scraping uuid4 exn_str request st) in
  let done := snd (Main.run_scraping_task py_float d datetime_now exn_str
                     (Main.next_ref (snd st)) started) in
  exists p,
    Main.get_progress percent sid done = (Ok p, done)
    /\ Main.pr_total p = mx
    /\ 0 <= Main.pr_completed p <= mx
    /\ Main.pr_progress_percentage p = inl (percent (Main.pr_completed p) mx)
    /\ is_Some (Main.pr_start_time p)
    /\ is_Some (Main.pr_end_time p)
    /\ ((Main.pr_status p = Main.StCompleted
         /\ Main.pr_error_message p = None
         /\ exists rs,
              Main.get_results sid done =
                (Ok {| Main.res_session_id := sid;
                       Main.res_keywords := Main.req_keywords request;
                       Main.res_location := Main.req_location request;
                       Main.res_total_results := Main.pr_completed p;
                       Main.res_results := rs |}, done)
              /\ len rs = Main.pr_completed p)
        \/ (Main.pr_status p = Main.StError
            /\ (exists e, Main.pr_error_message p = Some (exn_str e))
            /\ Main.get_results sid done =
                 (Raise (HTTPException 400 (lit "Scraping not completed yet")), done))).
Proof.
  intros sid mx started done. subst done started.
  rewrite (start_scraping_valid request st Hkw Hloc Hmx). fold sid. cbn [snd].
  set (s1 := Main.created request sid (snd (uuid4 (fst st))) (snd st)).
  set (session := Main.next_ref (snd st)).
  set (done := snd (Main.run_scraping_task py_float d datetime_now exn_str session s1)).
  assert (Hnew : Main.heap (snd s1) session
                 = Main.new_session sid (Main.req_keywords request)
                     (Main.req_location request) mx).
  { unfold s1, Main.created. cbn [snd Main.heap]. unfold session.
    rewrite Nat.eqb_refl. reflexivity. }
  assert (Hlook : Main.scraping_sessions (snd s1) !! sid = Some session).
  { unfold s1, Main.created. cbn [snd Main.scraping_sessions].
    apply lookup_insert_eq. }
  destruct (run_outcome session s1)
    as ((_ & Hreg & _ & _ & _ & Hk & Hl & _) & Hst & Het & Hout).
  destruct (run_counted session s1) as (c & (Hc & _ & Ht & Hcomp & _) & Hlen).
  { rewrite Hnew. reflexivity. }
  { rewrite Hnew. reflexivity. }
  { rewrite Hnew. cbn [Main.new_session Main.max_results]. lia. }
  fold done in Hreg, Hk, Hl, Hst, Het, Hout, Ht, Hcomp, Hlen.
  rewrite Hnew in Hk, Hl, Hout, Ht, Hc.
  cbn [Main.new_session Main.max_results Main.keywords Main.location
       Main.error_message Main.results] in Hk, Hl, Hout, Ht, Hc.
  rewrite get_progress_eq, get_results_eq, Hreg, Hlook. cbv zeta.
  eexists. split; [reflexivity|].
  cbn [Main.pr_total Main.pr_completed Main.pr_progress_percentage Main.pr_status
       Main.pr_error_message Main.pr_start_time Main.pr_end_time].
  rewrite Ht, Hcomp.
  split; [reflexivity|]. split; [lia|].
  split.
  { replace (mx >? 0) with true by (symmetry; rewrite Z.gtb_ltb; apply Z.ltb_lt; unfold mx; lia).
    reflexivity. }
  split; [exact Hst|]. split; [exact Het|].
  destruct Hout as [(Hs & Hem & _)|(Hs & _ & Hem)].
  - left. split; [exact Hs|]. split; [exact Hem|].
    exists (Main.results (Main.heap (snd done) session)).
    rewrite Hs, Hk, Hl, (Hlen Hs). split; reflexivity.
  - right. split; [exact Hs|]. split; [exact Hem|]. rewrite Hs. reflexivity.
Qed.

(** [download_json] after the task of a registered session has run: 400
    (not completed) when the task ended in error, 400 (no results) when it
    completed with no record, and otherwise the file named after the
    identifier is written with the query the session was made for, the
    number of records and a [scraped_at] that is a timestamp, never
    [None]. *)
Theorem download_json_after_task (sid : str) (session : nat) (st : St)
    (Hreg : Main.scraping_sessions (snd st) !! sid = Some session) :
  let done := snd (Main.run_scraping_task py_float d datetime_now exn_str session st) in
  let s := Main.heap (snd done) session in
  let name := lit "temp/google_maps_data_" ++ sid ++ lit ".json" in
  (Main.status s = Main.StError ->
     Main.download_json json_dump sid done =
       (Raise (HTTPException 400 (lit "Scraping not completed yet")), done))
  /\ (Main.status s = Main.StCompleted -> Main.results s = [] ->
       Main.download_json json_dump sid done =
         (Raise (HTTPException 400 (lit "No results to download")), done))
  /\ (Main.status s = Main.StCompleted -> Main.results s <> [] ->
       exists t,
         Main.end_time s = Some t
         /\ Main.download_json json_dump sid done =
              match json_dump name
                      {| Main.meta_keywords := Main.keywords (Main.heap (snd st) session);
                         Main.meta_location := Main.location (Main.heap (snd st) session);
                         Main.meta_total_results := len (Main.results s);
                         Main.meta_scraped_at := Some t;
                         Main.json_results := Main.results s |} (fst done) with
              | (Ok _, w) =>
                  (Ok {| Main.path := name;
                         Main.filename :=
                           lit "google_maps_data_"
                             ++ Main.keywords (Main.heap (snd st) session) ++ lit "_"
                             ++ Main.location (Main.heap (snd st) session) ++ lit ".json";
                         Main.media_type := lit "application/json" |}, (w, snd done))
              | (Raise e, w) => (Raise e, (w, snd done))
              end).
Proof.
  intros done s name.
  destruct (run_outcome session st)
    as ((_ & Hr & _ & _ & _ & Hk & Hl & _) & _ & [t Het] & _).
  fold done in Hr, Hk, Hl, Het. fold s in Hk, Hl, Het.
  rewrite download_json_eq, Hr, Hreg. cbv zeta. fold s.
  split; [intros ->; reflexivity|].
  split; [intros -> ->; reflexivity|].
  intros -> Hne. exists t. split; [exact Het|].
  destruct (Main.results s) as [|r rs] eqn:Ers; [congruence|].
  rewrite Het, Hk, Hl. reflexivity.
Qed.
End Lifecycle.

(** ** [backend/database.py]: the store *)

Section StoreFacts.
Context {F : Type} (zero : F) (py_float : str -> option F) (nonzero : F -> bool).
Context (isdigit : char -> bool) (py_int : str -> option Z).
Context (repr : value F -> str).
Context (json_dumps : value F -> str) (json_loads : str -> option (pyval F)).
Context (KeyError AttributeError TypeError : exn).
Context {W : Type} (c : Sqlite W F) (datetime_now : W -> Z * W).
Context (db_path : str).

Lemma try_except_default {S A} (m : M S A) (dflt : A) (s : S) :
  exists a s', try_except m (fun _ => ret dflt) s = (Ok a, s').
Proof.
  unfold try_except. destruct (m s) as [[a|e] s']; [exists a, s' | exists dflt, s'];
    reflexivity.
Qed.

Lemma with_connect_refused {A} (body : M W A) (dflt : A) e (w w1 : W) :
  sql_connect c db_path w = (Raise e, w1) ->
  try_except (with_connect c db_path body) (fun _ => ret dflt) w = (Ok dflt, w1).
Proof.
  intros H. unfold try_except, with_connect, bind. rewrite H. reflexivity.
Qed.

(** No writing method of the store raises: each of them answers [True] or
    [False], and [False] when the connection is refused, after which
    nothing else is tried. *)
Theorem database_writes_never_raise (session_id keywords location status : str)
    (max_results : Z) (error_message : option str) (businesses : list (dict F))
    (w : W) :
  (exists b w', DatabaseManager.save_session c datetime_now db_path session_id
                  keywords location max_results status w = (Ok b, w'))
  /\ (exists b w', DatabaseManager.update_session_status c datetime_now db_path
                     session_id status error_message w = (Ok b, w'))
  /\ (exists b w', DatabaseManager.save_businesses zero py_float isdigit py_int repr
                     json_dumps AttributeError c db_path session_id businesses w
                   = (Ok b, w'))
  /\ (exists b w', DatabaseManager.delete_session c db_path session_id w = (Ok b, w'))
  /\ (forall e w1, sql_connect c db_path w = (Raise e, w1) ->
        DatabaseManager.save_session c datetime_now db_path session_id keywords
          location max_results status w = (Ok false, w1)
        /\ DatabaseManager.update_session_status c datetime_now db_path session_id
             status error_message w = (Ok false, w1)
        /\ DatabaseManager.save_businesses zero py_float isdigit py_int repr
             json_dumps AttributeError c db_path session_id businesses w
           = (Ok false, w1)
        /\ DatabaseManager.delete_session c db_path session_id w = (Ok false, w1)).
Proof.
  repeat (split; [apply try_except_default|]).
  intros e w1 H.
  repeat (split; [apply (with_connect_refused _ _ e); exact H|]).
  apply (with_connect_refused _ _ e). exact H.
Qed.

(** No reading method of the store raises: [get_session] answers a row or
    [None], [get_businesses] and [get_all_sessions] a list, and [None] or
    the empty list when the connection is refused. *)
Theorem database_reads_never_raise (session_id : str) (w : W) :
  (exists r w', DatabaseManager.get_session c db_path session_id w = (Ok r, w'))
  /\ (exists r w', DatabaseManager.get_businesses nonzero json_loads KeyError
                     TypeError c db_path session_id w = (Ok r, w'))
  /\ (exists r w', DatabaseManager.get_all_sessions c db_path w = (Ok r, w'))
  /\ (forall e w1, sql_connect c db_path w = (Raise e, w1) ->
        DatabaseManager.get_session c db_path session_id w = (Ok None, w1)
        /\ DatabaseManager.get_businesses nonzero json_loads KeyError TypeError c
             db_path session_id w = (Ok [], w1)
        /\ DatabaseManager.get_all_sessions c db_path w = (Ok [], w1)).
Proof.
  repeat (split; [apply try_except_default|]).
  intros e w1 H.
  repeat (split; [apply (with_connect_refused _ _ e); exact H|]).
  apply (with_connect_refused _ _ e). exact H.
Qed.

Lemma parse_reviews_count_total_db {S} (reviews_str : str) (s : S) :
  exists n, DatabaseManager._parse_reviews_count isdigit py_int reviews_str s = (Ok n, s).
Proof.
  unfold DatabaseManager._parse_reviews_count, try_except, Utils.int.
  destruct (List.filter isdigit reviews_str) as [|x r]; [eexists; reflexivity|].
  destruct (py_int (x :: r)); eexists; reflexivity.
Qed.

Lemma parse_rating_total_db {S} (rating_str : str) (s : S) :
  exists x, DatabaseManager._parse_rating zero py_float rating_str s = (Ok x, s).
Proof.
  unfold DatabaseManager._parse_rating, try_except, bind, index, float.
  destruct (nth_error (split_ws rating_str) 0) as [tok|]; [|eexists; reflexivity].
  cbn. destruct (py_float tok); eexists; reflexivity.
Qed.

Lemma save_business_logged session_id (business : dict F) (w : W)
    (log : list (statement * list (pyval F))) r w' log' :
  DatabaseManager.save_business zero py_float isdigit py_int repr json_dumps AttributeError
    (logging c) session_id business (w, log) = (r, (w', log')) ->
  (log' = log /\ exists e, r = Raise e)
  \/ (exists ps rating reviews_count,
        log' = log ++ [(INSERT_business, ps)]
        /\ length ps = 11%nat
        /\ nth_error ps 0 = Some (PStr session_id)
        /\ nth_error ps 1 = Some (to_py (DatabaseManager.get business (lit "name") (VStr [])))
        /\ nth_error ps 5 = Some (PFloat rating)
        /\ nth_error ps 6 = Some (PInt reviews_count)
        /\ r <> Ok Break).
Proof.
  unfold DatabaseManager.save_business. intros H.
  unfold bind at 1 in H.
  destruct (DatabaseManager.coordinate AttributeError _ (lit "latitude") (w, log))
    as [[lat|e] st1] eqn:E1.
  2:{ left. unfold DatabaseManager.coordinate in E1.
      destruct (DatabaseManager.get business (lit "coordinates") (VCoords [])) as [|[|]|[|]| |];
        try discriminate E1; injection E1 as <- <-; injection H as <- <- <-; eauto. }
  assert (st1 = (w, log)) as ->.
  { unfold DatabaseManager.coordinate in E1.
    destruct (DatabaseManager.get business (lit "coordinates") (VCoords [])) as [|[|]|[|]| |];
      try discriminate E1; injection E1 as _ <-; reflexivity. }
  unfold bind at 1 in H.
  destruct (DatabaseManager.coordinate AttributeError _ (lit "longitude") (w, log))
    as [[lng|e] st2] eqn:E2.
  2:{ left. unfold DatabaseManager.coordinate in E2.
      destruct (DatabaseManager.get business (lit "coordinates") (VCoords [])) as [|[|]|[|]| |];
        try discriminate E2; injection E2 as <- <-; injection H as <- <- <-; eauto. }
  assert (st2 = (w, log)) as ->.
  { unfold DatabaseManager.coordinate in E2.
    destruct (DatabaseManager.get business (lit "coordinates") (VCoords [])) as [|[|]|[|]| |];
      try discriminate E2; injection E2 as _ <-; reflexivity. }
  cbv zeta in H. unfold bind at 1 in H.
  destruct (parse_reviews_count_total_db (DatabaseManager.py_str repr (DatabaseManager.get business (lit "reviews_count") (VStr []))) (w, log))
    as (n & Hn).
  rewrite Hn in H. unfold bind at 1 in H.
  destruct (parse_rating_total_db (DatabaseManager.py_str repr (DatabaseManager.get business (lit "rating") (VStr []))) (w, log))
    as (x & Hx).
  rewrite Hx in H.
  right. do 3 eexists.
  unfold logging in H. cbn [sql_execute] in H. run_in H.
  destruct (sql_execute c _ _ w) as [[[]|e] w1]; injection H as <- <- <-;
    (split; [reflexivity|]); repeat split; try reflexivity; discriminate.
Qed.

Lemma save_loop_logged session_id (businesses : list (dict F)) (w : W)
    (log : list (statement * list (pyval F))) w' log' :
  for_in businesses
    (DatabaseManager.save_business zero py_float isdigit py_int repr json_dumps AttributeError
       (logging c) session_id) (w, log) = (Ok tt, (w', log')) ->
  exists inserts,
    log' = log ++ inserts
    /\ List.Forall2 (inserts_business session_id) businesses inserts.
Proof.
  revert w log. induction businesses as [|business rest IH]; intros w log H.
  - injection H as <- <-. exists []. rewrite app_nil_r. split; [reflexivity|constructor].
  - cbn [for_in] in H. unfold bind at 1 in H.
    destruct (DatabaseManager.save_business zero py_float isdigit py_int repr json_dumps
                AttributeError (logging c) session_id business (w, log))
      as [[ctl|e] [w1 log1]] eqn:E; [|discriminate H].
    apply save_business_logged in E.
    destruct E as [(_ & e & He)|(ps & x & n & -> & L1 & L2 & L3 & L4 & L5 & L6)];
      [discriminate He|].
    assert (Hnext : for_in rest
              (DatabaseManager.save_business zero py_float isdigit py_int repr json_dumps
                 AttributeError (logging c) session_id)
              (w1, log ++ [(INSERT_business, ps)]) = (Ok tt, (w', log'))).
    { destruct ctl; [exact H | congruence]. }
    destruct (IH _ _ Hnext) as (inserts & -> & Hall).
    exists ((INSERT_business, ps) :: inserts).
    split; [rewrite <- app_assoc; reflexivity|].
    constructor; [|exact Hall].
    unfold inserts_business. cbn [fst snd].
    split; [reflexivity|]. split; [exact L1|]. split; [exact L2|].
    split; [exact L3|]. split; eauto.
Qed.

(** A [save_businesses] that answers [True] has executed, in this order,
    one insertion per record, in the order of the records, and then the
    update of [total_results] to the number of records; each insertion
    has eleven parameters, the session identifier first, the name of the
    record or the empty string second, a float as rating and an integer
    as count. *)
Theorem save_businesses_statements session_id (businesses : list (dict F)) (w w' : W)
    (log log' : list (statement * list (pyval F)))
    (Hrun : DatabaseManager.save_businesses zero py_float isdigit py_int repr json_dumps
              AttributeError (logging c) db_path session_id businesses (w, log)
            = (Ok true, (w', log'))) :
  exists inserts,
    log' = log ++ inserts
           ++ [(UPDATE_total_results, [PInt (len businesses); PStr session_id])]
    /\ List.Forall2 (inserts_business session_id) businesses inserts.
Proof.
  unfold DatabaseManager.save_businesses, with_connect in Hrun.
  set (loop := for_in businesses _) in Hrun.
  unfold logging in Hrun.
  cbn [sql_connect sql_cursor sql_execute sql_commit sql_exit] in Hrun.
  run_in Hrun.
  destruct (sql_connect c db_path w) as [[[]|e] w1]; [|discriminate Hrun].
  destruct (sql_cursor c w1) as [[[]|e] w2].
  2:{ destruct (sql_exit c false w2) as [[[]|?] ?]; discriminate Hrun. }
  destruct (loop (w2, log)) as [[[]|e] [w3 log3]] eqn:Eloop.
  2:{ destruct (sql_exit c false w3) as [[[]|?] ?]; discriminate Hrun. }
  apply save_loop_logged in Eloop. destruct Eloop as (inserts & -> & Hall).
  exists inserts. split; [|exact Hall].
  destruct (sql_execute c _ _ w3) as [[[]|e] w4].
  2:{ destruct (sql_exit c false w4) as [[[]|?] ?]; discriminate Hrun. }
  destruct (sql_commit c w4) as [[[]|e] w5].
  2:{ destruct (sql_exit c false w5) as [[[]|?] ?]; discriminate Hrun. }
  destruct (sql_exit c true w5) as [[[]|?] ?]; [|discriminate Hrun].
  injection Hrun as <- <-. rewrite <- app_assoc. reflexivity.
Qed.

Lemma dict_get_set_eq {V} (k : str) (v : V) (dd : list (str * V)) :
  dict_get k (dict_set k v dd) = Some v.
Proof.
  induction dd as [|[k' v'] dd IH]; cbn [dict_set dict_get].
  - unfold str_eqb. rewrite bool_decide_eq_true_2 by reflexivity. reflexivity.
  - destruct (str_eqb k k') eqn:E; cbn [dict_get].
    + unfold str_eqb. rewrite bool_decide_eq_true_2 by reflexivity. reflexivity.
    + rewrite E. exact IH.
Qed.

Lemma dict_get_set_ne {V} (k k' : str) (v : V) (dd : list (str * V)) :
  k <> k' -> dict_get k (dict_set k' v dd) = dict_get k dd.
Proof.
  intros Hne.
  assert (Hkk : str_eqb k k' = false) by (apply bool_decide_eq_false_2; exact Hne).
  induction dd as [|[k2 v2] dd IH]; cbn [dict_set dict_get].
  - rewrite Hkk. reflexivity.
  - destruct (str_eqb k' k2) eqn:E; cbn [dict_get].
    + apply bool_decide_eq_true_1 in E. subst k2. rewrite Hkk. reflexivity.
    + destruct (str_eqb k k2); [reflexivity | exact IH].
Qed.

Lemma loaded_or_default {S} (business : list (str * pyval F)) (k : str)
    (dflt : pyval F) (s : S) :
  exists x,
    try_except
      (let! v := DatabaseManager.getitem KeyError business k in DatabaseManager.loads json_loads TypeError v)
      (fun _ => ret dflt) s = (Ok x, s).
Proof.
  unfold try_except, bind, DatabaseManager.getitem.
  destruct (dict_get k business) as [v|]; [|eexists; reflexivity].
  cbn. unfold DatabaseManager.loads.
  destruct v; try (eexists; reflexivity).
  destruct (json_loads s0); eexists; reflexivity.
Qed.

Lemma read_business_eq (columns : list str) (row : list (pyval F)) (w : W)
    (businesses : list (list (str * pyval F))) r st :
  DatabaseManager.read_business nonzero json_loads KeyError TypeError columns row
    (w, businesses) = (r, st) ->
  (st = (w, businesses) /\ exists e, r = Raise e)
  \/ (exists business,
        r = Ok Next /\ st = (w, businesses ++ [business])
        /\ read_back nonzero business).
Proof.
  unfold DatabaseManager.read_business. cbv zeta.
  set (b0 := dict_zip columns row).
  unfold bind at 1.
  destruct (loaded_or_default b0 (lit "categories") (PList []) (w, businesses))
    as (cats & ->).
  set (b1 := dict_set (lit "categories") cats b0).
  unfold bind at 1.
  destruct (loaded_or_default b1 (lit "hours") (PDict []) (w, businesses))
    as (hrs & ->).
  set (b2 := dict_set (lit "hours") hrs b1).
  assert (Hcat : dict_get (lit "categories") b2 = Some cats).
  { unfold b2. rewrite dict_get_set_ne by (vm_compute; discriminate).
    apply dict_get_set_eq. }
  assert (Hhrs : dict_get (lit "hours") b2 = Some hrs) by apply dict_get_set_eq.
  unfold bind at 1. unfold DatabaseManager.getitem at 1.
  destruct (dict_get (lit "latitude") b2) as [lat|] eqn:Elat;
    [|intros [= <- <-]; left; eauto].
  cbn [ret].
  assert (Hfin : forall coords,
            let b3 := dict_set (lit "coordinates") coords b2 in
            is_Some (dict_get (lit "categories") b3)
            /\ is_Some (dict_get (lit "hours") b3)
            /\ dict_get (lit "latitude") b3 = Some lat
            /\ dict_get (lit "longitude") b3 = dict_get (lit "longitude") b2
            /\ dict_get (lit "coordinates") b3 = Some coords).
  { intros coords b3. unfold b3.
    rewrite !dict_get_set_ne by (vm_compute; discriminate).
    rewrite Hcat, Hhrs, Elat, dict_get_set_eq. repeat split; eauto. }
  destruct (truthy nonzero lat) eqn:Tlat.
  - unfold bind at 2. unfold DatabaseManager.getitem at 1.
    destruct (dict_get (lit "longitude") b2) as [lng|] eqn:Elng;
      [|intros [= <- <-]; left; eauto].
    cbn [ret]. unfold bind at 1. cbn [ret].
    destruct (truthy nonzero lng) eqn:Tlng.
    + unfold DatabaseManager.getitem. rewrite Elat, Elng. run.
      intros [= <- <-]. right. eexists. split; [reflexivity|]. split; [reflexivity|].
      destruct (Hfin (PDict [(lit "latitude", lat); (lit "longitude", lng)]))
        as (H1 & H2 & H3 & H4 & H5).
      split; [exact H1|]. split; [exact H2|]. exists lat. split; [exact H3|].
      right. exists lng. split; [exact H4|].
      rewrite Tlat, Tlng. exact H5.
    + run. intros [= <- <-]. right. eexists. split; [reflexivity|]. split; [reflexivity|].
      destruct (Hfin (PDict [])) as (H1 & H2 & H3 & H4 & H5).
      split; [exact H1|]. split; [exact H2|]. exists lat. split; [exact H3|].
      right. exists lng. split; [exact H4|].
      rewrite Tlat, Tlng. exact H5.
  - run. intros [= <- <-]. right. eexists. split; [reflexivity|]. split; [reflexivity|].
    destruct (Hfin (PDict [])) as (H1 & H2 & H3 & H4 & H5).
    split; [exact H1|]. split; [exact H2|]. exists lat. split; [exact H3|].
    left. split; [exact Tlat | exact H5].
Qed.

Lemma read_loop (columns : list str) (rows : list (list (pyval F))) (w : W)
    (businesses : list (list (str * pyval F))) :
  List.Forall (read_back nonzero) businesses ->
  exists r businesses',
    for_in rows (DatabaseManager.read_business nonzero json_loads KeyError TypeError columns)
      (w, businesses) = (r, (w, businesses'))
    /\ List.Forall (read_back nonzero) businesses'
    /\ (r = Ok tt -> length businesses' = (length businesses + length rows)%nat).
Proof.
  revert businesses. induction rows as [|row rows IH]; intros businesses Hall.
  - exists (Ok tt), businesses. split; [reflexivity|]. split; [exact Hall|].
    intros _. simpl. lia.
  - cbn [for_in]. unfold bind at 1.
    destruct (DatabaseManager.read_business nonzero json_loads KeyError TypeError columns row
                (w, businesses)) as [r0 st0] eqn:E0.
    apply read_business_eq in E0.
    destruct E0 as [(-> & e & ->)|(b & -> & -> & Hb)].
    + exists (Raise e), businesses. split; [reflexivity|]. split; [exact Hall|].
      discriminate.
    + destruct (IH (businesses ++ [b])) as (r & bs' & -> & Hall' & Hlen).
      { apply Forall_app. split; [exact Hall|]. constructor; [exact Hb|constructor]. }
      exists r, bs'. split; [reflexivity|]. split; [exact Hall'|].
      intros Hr. rewrite (Hlen Hr), length_app. simpl. lia.
Qed.

(** [get_businesses] never raises, and every business it returns has the
    keys [categories], [hours] and [coordinates]; its coordinates are the
    latitude and the longitude of the row when both are truthy and the
    empty dict otherwise, so that a latitude or a longitude that is 0.0
    or NULL leaves no coordinates. *)
Theorem get_businesses_read_back (session_id : str) (w : W) :
  exists businesses w',
    DatabaseManager.get_businesses nonzero json_loads KeyError TypeError c db_path session_id w
      = (Ok businesses, w')
    /\ List.Forall (read_back nonzero) businesses.
Proof.
  unfold DatabaseManager.get_businesses, with_connect.
  run.
  destruct (sql_connect c db_path w) as [[[]|e] w1]; [|eauto].
  destruct (sql_cursor c w1) as [[[]|e] w2].
  2:{ destruct (sql_exit c false w2) as [[[]|?] ?]; eauto. }
  destruct (sql_execute c _ _ w2) as [[[]|e] w3].
  2:{ destruct (sql_exit c false w3) as [[[]|?] ?]; eauto. }
  destruct (sql_fetchall c w3) as [[rows|e] w4].
  2:{ destruct (sql_exit c false w4) as [[[]|?] ?]; eauto. }
  destruct (sql_columns c w4) as [[columns|e] w5].
  2:{ destruct (sql_exit c false w5) as [[[]|?] ?]; eauto. }
  destruct (read_loop columns rows w5 [] (List.Forall_nil _))
    as (r & bs & Hloop & Hall & _).
  rewrite Hloop.
  destruct r as [[]|e].
  - destruct (sql_exit c true w5) as [[[]|?] ?]; eauto.
  - destruct (sql_exit c false w5) as [[[]|?] ?]; eauto.
Qed.
End StoreFacts.

(** ** The properties with hypotheses, on the simulated site *)

Lemma format_business_hours_lines_witness :
  split (Utils.format_business_hours
           [(lit "Mon", lit "9-17"); (lit "Sun", lit "Closed")]) [10%N]
  = [lit "Mon: 9-17"; lit "Sun: Closed"].
Proof.
  refine (proj1 (format_business_hours_lines
                   [(lit "Mon", lit "9-17"); (lit "Sun", lit "Closed")] _ _)).
  - discriminate.
  - repeat constructor; vm_compute; intuition discriminate.
Defined.

Lemma records_within_cap_witness :
  exists rs w',
    GoogleMapsScraper.scrape_google_maps_sync Sim.py_float Sim.driver
      (lit "cafe") (lit "Paris") 5 (fun _ _ => ret tt)
      (Sim.world (Runs.ten Runs.no_click) 20 20) = (Ok rs, w')
    /\ len rs <= 5.
Proof.
  eexists. eexists.
  assert (Hcap : 0 <= 5) by lia.
  refine ((fun Hrun => conj Hrun
            (records_within_cap Sim.py_float Sim.driver (lit "cafe") (lit "Paris") 5
               (fun _ _ => ret tt) (Sim.world (Runs.ten Runs.no_click) 20 20)
               _ _ Hcap Hrun)) _).
  vm_compute. reflexivity.
Defined.

Lemma progress_counts_witness :
  let s' := Runs.session_of (Runs.finished (Runs.ten Runs.no_panel)) in
  Main.total s' = 10 /\ 0 <= Main.completed s' <= 10.
Proof.
  destruct (progress_counts Sim.py_float Sim.driver Sim.datetime_now Sim.exn_str
              0%nat (Runs.started (Runs.ten Runs.no_panel))
              ltac:(vm_compute; reflexivity) ltac:(vm_compute; reflexivity)
              ltac:(vm_compute; discriminate)) as (A & B & _).
  split; [exact A | exact B].
Defined.

Lemma start_then_poll_witness :
  let st := (Sim.world [] 20 20, Runs.app0) in
  let out := Main.start_scraping Sim.uuid4 Sim.exn_str (Runs.request 10) st in
  fst out = Ok (fst (Sim.uuid4 (fst st)), lit "started")
  /\ Main.get_results (fst (Sim.uuid4 (fst st))) (snd out) =
       (Raise (HTTPException 400 (lit "Scraping not completed yet")), snd out).
Proof.
  intros st out.
  assert (Hkw : Main.req_keywords (Runs.request 10) <> []) by (vm_compute; discriminate).
  assert (Hloc : Main.req_location (Runs.request 10) <> []) by (vm_compute; discriminate).
  assert (Hmx : 1 <= Main.req_max_results (Runs.request 10) <= 500) by (simpl; lia).
  assert (Hreg : registered_below (snd st)).
  { intros sid r H. simpl in H. rewrite lookup_empty in H. discriminate H. }
  destruct (start_then_poll Sim.uuid4 Sim.exn_str Runs.percent (Runs.request 10) st
              Hkw Hloc Hmx Hreg) as (A & _ & B & _).
  split; [exact A | exact B].
Defined.

Lemma session_lifecycle_witness :
  let st := (Sim.world (Runs.ten Runs.no_panel) 20 20, Runs.app0) in
  let started := snd (Main.start_scraping Sim.uuid4 Sim.exn_str (Runs.request 10) st) in
  let done := snd (Main.run_scraping_task Sim.py_float Sim.driver Sim.datetime_now
                     Sim.exn_str (Main.next_ref (snd st)) started) in
  exists p,
    Main.get_progress Runs.percent (fst (Sim.uuid4 (fst st))) done = (Ok p, done)
    /\ 0 <= Main.pr_completed p <= 10.
Proof.
  intros st started done.
  assert (Hkw : Main.req_keywords (Runs.request 10) <> []) by (vm_compute; discriminate).
  assert (Hloc : Main.req_location (Runs.request 10) <> []) by (vm_compute; discriminate).
  assert (Hmx : 1 <= Main.req_max_results (Runs.request 10) <= 500) by (simpl; lia).
  destruct (session_lifecycle Sim.py_float Sim.driver Sim.datetime_now Sim.uuid4
              Sim.exn_str Runs.percent (Runs.request 10) st Hkw Hloc Hmx)
    as (p & A & _ & B & _).
  exists p. split; [exact A | exact B].
Defined.

Lemma download_json_after_task_witness :
  exists t,
    Main.end_time (Runs.session_of (Runs.finished (Runs.ten Runs.no_panel))) = Some t.
Proof.
  destruct (download_json_after_task Sim.py_float Sim.driver Sim.datetime_now
              Sim.exn_str Runs.json_dump (lit "id-1") 0%nat
              (Runs.started (Runs.ten Runs.no_panel))
              ltac:(vm_compute; reflexivity)) as (_ & _ & C).
  destruct C as (t & Ht & _);
    [vm_compute; reflexivity | vm_compute; discriminate |].
  exists t. exact Ht.
Defined.

Lemma save_businesses_statements_witness :
  exists inserts,
    snd (snd (DatabaseManager.save_businesses 0%Q Sim.py_float Runs.isdigit
                Runs.py_int Runs.repr Runs.json_dumps Runs.AttributeError
                (logging Runs.accepting_db) (lit "google_maps_data.db")
                (lit "id-1") [Runs.cafe; Runs.cafe] (tt, [])))
    = inserts
      ++ [(UPDATE_total_results, [PInt 2; PStr (lit "id-1")])]
    /\ length inserts = 2%nat.
Proof.
  destruct (save_businesses_statements 0%Q Sim.py_float Runs.isdigit Runs.py_int
              Runs.repr Runs.json_dumps Runs.AttributeError Runs.accepting_db
              (lit "google_maps_data.db") (lit "id-1") [Runs.cafe; Runs.cafe]
              tt tt []
              (snd (snd (DatabaseManager.save_businesses 0%Q Sim.py_float
                           Runs.isdigit Runs.py_int Runs.repr Runs.json_dumps
                           Runs.AttributeError (logging Runs.accepting_db)
                           (lit "google_maps_data.db") (lit "id-1")
                           [Runs.cafe; Runs.cafe] (tt, []))))
              ltac:(vm_compute; reflexivity)) as (inserts & Hlog & Hall).
  exists inserts. split; [exact Hlog|].
  apply List.Forall2_length in Hall. symmetry. exact Hall.
Defined.
